(** * Blocky editor: data model, changesets, controller and view handlers

    A shallow embedding of the parts of the editor that the specification
    makes claims about, followed by the theorems that settle them.

    - [NodeLocation]   packages/blocky-example/app/spannerMenu.tsx (second document)
    - [Controller]     the EditorController (deleteContentInsideInSelection,
                       formatTextOnCursor, deleteBlock, the paste div handler)
    - [View]           packages/blocky-core/src/view/editor.ts (commitNewLine,
                       deleteBlockOnFocusedCursor, the composition handlers)
    - [NodeLocationAccess]  slice and last of NodeLocation
    - [Editing]        the EditorController's applyDeltaAtCursor,
                       insertBlockAfterId, formatTextOnSelectedText
    - [Pasting]        the EditorController's pasteElementsAtCursor and
                       getAttributesBySpan
    - [SpannerMenu]    spannerMenu.tsx: the menu's insertText and insertImage
    - [ViewPaste]      editor.ts: areEqualShallow, handleCursorStateChanged,
                       insertTextAt, insertBlockByDefaultAt, the paste handlers

    JavaScript numbers that index children or count characters are integers
    here: [Z] where the code subtracts or shifts them, [nat] where they are
    lengths. *)

From stdpp Require Import base decidable option list strings gmap.
From Stdlib Require Import ZArith Lia.

Local Open Scope Z_scope.

(* ===================================================================== *)
(** * Part I: definitions                                                  *)
(* ===================================================================== *)

(** ** NodeLocation *)

Module NodeLocation.

(** A path component: [number | string]. *)
Inductive PathItem :=
| PIndex (n : Z)
| PAttr (s : string).

#[global] Instance PathItem_eq_dec : EqDecision PathItem.
Proof. solve_decision. Defined.

(** [readonly path: readonly (number | string)[]] *)
Record t := mk { path : list PathItem }.

#[global] Instance t_eq_dec : EqDecision t.
Proof. solve_decision. Defined.

Definition length (l : t) : nat := List.length (path l).

(** [a.path[i] !== b.path[i]]; an index out of range reads [undefined]. *)
Definition strict_ne (x y : option PathItem) : bool :=
  bool_decide (x ≠ y).

(** [charCodeAt] of every character of a string. *)
Fixpoint charCodes (s : string) : list Z :=
  match s with
  | EmptyString => []
  | String c r => Z.of_nat (Ascii.nat_of_ascii c) :: charCodes r
  end.

(** [toIntArray]: strings contribute their char codes, numbers themselves. *)
Fixpoint toIntArray (arr : list PathItem) : list Z :=
  match arr with
  | [] => []
  | PAttr s :: r => charCodes s ++ toIntArray r
  | PIndex n :: r => n :: toIntArray r
  end.

Section Hashed.
(** [hashIntArrays] of blocky-common is a parameter: only its being a
    function of the integer array matters. *)
Variable hashIntArrays : list Z → Z.

Definition hashCode (l : t) : Z := hashIntArrays (toIntArray (path l)).

(** [static equals(a, b)] *)
Definition equals (a b : t) : bool :=
  if negb (Nat.eqb (length a) (length b)) then false
  else if negb (Z.eqb (hashCode a) (hashCode b)) then false
  else
    negb (existsb (λ i, strict_ne (path a !! i) (path b !! i))
                  (seq 0 (length a))).
End Hashed.

(** [static transform(base, location, delta = 1)] *)
Definition transform (base location : t) (delta : Z) : t :=
  if Nat.ltb (length location) (length base) then location
  else if Nat.eqb (length base) 0 || Nat.eqb (length location) 0 then location
  else if existsb (λ i, strict_ne (path base !! i) (path location !! i))
                  (seq 0 (length base - 1))
  then location
  else
    let prefix := take (length base - 1) (path base) in
    let suffix := drop (length base) (path location) in
    let baseLast := path base !! (List.length (path base) - 1)%nat in
    let offsetAtIndex := path location !! (length base - 1)%nat in
    match baseLast, offsetAtIndex with
    | Some (PIndex baseLast), Some (PIndex offsetAtIndex) =>
        if baseLast <=? offsetAtIndex
        then mk (prefix ++ [PIndex (offsetAtIndex + delta)] ++ suffix)
        else mk (prefix ++ [PIndex offsetAtIndex] ++ suffix)
    | _, _ => location
    end.

(** The claim's condition, in the specification's words: [base] and
    [loc] agree before depth [length base - 1], both components at that
    depth are numbers, and base's last index is at most loc's. *)
Definition shifts (base loc : t) (offsetAtIndex : Z) : Prop :=
  ∃ baseLast : Z,
    last (path base) = Some (PIndex baseLast)
    ∧ path loc !! (length base - 1)%nat = Some (PIndex offsetAtIndex)
    ∧ (∀ i : nat, (i < length base - 1)%nat → path base !! i = path loc !! i)
    ∧ baseLast ≤ offsetAtIndex.

(** The guards of [transform] as one test: [base] is not empty, not
    longer than [loc], and agrees with it before its last component. *)
Definition comparable (base loc : t) : bool :=
  Nat.leb 1 (length base) && Nat.leb (length base) (length loc)
  && negb (existsb (λ i, strict_ne (path base !! i) (path loc !! i))
                   (seq 0 (length base - 1))).

(** [loc] with its index at depth [length base - 1] moved by [delta]. *)
Definition shifted (base loc : t) (offsetAtIndex delta : Z) : t :=
  mk (<[(length base - 1)%nat := PIndex (offsetAtIndex + delta)]> (path loc)).

End NodeLocation.

(** ** Rich-text deltas

    The [Delta] class comes from the package quill-delta-es, which is not
    under src/.  It is modelled from section 4.1 of the specification: "a
    finite sequence of operations of three kinds: [retain(n, attrs?)],
    [insert(s|obj, attrs?)], [delete(n)]", with the operations the
    specification requires of it.  Inserts are strings (embeds are left
    out). *)

Module Delta.

(** Modelled from the spec: an attribute value of an op ([bold: true],
    [href: "..."], [bold: null]). *)
Inductive AttrValue :=
| VNull
| VBool (b : bool)
| VNum (n : Z)
| VStr (s : string).

#[global] Instance AttrValue_eq_dec : EqDecision AttrValue.
Proof. solve_decision. Defined.

(** JavaScript truthiness of [attributes[key]]; a missing key reads
    [undefined]. *)
Definition truthy (v : option AttrValue) : bool :=
  match v with
  | Some (VBool b) => b
  | Some (VNum n) => negb (n =? 0)
  | Some (VStr s) => negb (bool_decide (s = EmptyString))
  | Some VNull | None => false
  end.

(** Modelled from the spec: [AttributesObject], an object from attribute
    names to values.  An op without an [attributes] field carries the
    empty object. *)
Abbreviation AttributesObject := (gmap string AttrValue).

(** Modelled from the spec: the three kinds of operations,
    [{ insert, attributes? } | { retain, attributes? } | { delete }]. *)
Inductive Op :=
| Insert (text : string) (attributes : AttributesObject)
| Retain (n : nat) (attributes : AttributesObject)
| Delete (n : nat).

#[global] Instance Op_eq_dec : EqDecision Op.
Proof. solve_decision. Defined.

(** Modelled from the spec: [class Delta], "a finite sequence of
    operations" under [ops]. *)
Record t := mk { ops : list Op }.

#[global] Instance t_eq_dec : EqDecision t.
Proof. solve_decision. Defined.

(** [new Delta()] *)
Definition empty : t := mk [].

(** [String.prototype.substr(offset)] and [substr(0, n)]. *)
Fixpoint str_drop (n : nat) (s : string) : string :=
  match n, s with
  | O, _ => s
  | S n', String _ r => str_drop n' r
  | S _, EmptyString => EmptyString
  end.

Fixpoint str_take (n : nat) (s : string) : string :=
  match n, s with
  | S n', String c r => String c (str_take n' r)
  | _, _ => EmptyString
  end.

(** The length of an op: of its text, or the count it retains or
    deletes. *)
Definition opLength (op : Op) : nat :=
  match op with
  | Insert s _ => String.length s
  | Retain n _ => n
  | Delete n => n
  end.

Definition isNull (v : AttrValue) : bool :=
  match v with VNull => true | _ => false end.

(** Modelled from the spec: composing the attributes [b] of a change
    onto the attributes [a] it meets.  "setting an attribute value to
    [null] on a retain clears it": [b] wins, its [null]s are dropped
    (kept, when [keepNull], where a retain meets a retain), and the keys
    of [a] that [b] does not mention stay. *)
Definition composeAttributes (a b : AttributesObject) (keepNull : bool)
  : AttributesObject :=
  (if keepNull then b else filter (λ kv, isNull kv.2 = false) b) ∪ (a ∖ b).

(** Modelled from the spec: adding an op at the end keeps the delta
    "normalized (no zero-length ops, adjacent ops with equal attributes
    are merged)": the op merges with the last one when both are deletes,
    or both inserts or both retains with equal attributes; an insert
    goes before a trailing delete. *)
Definition mergeInto (lastOp newOp : Op) : list Op :=
  match lastOp, newOp with
  | Delete m, Delete n => [Delete (m + n)]
  | Insert s a, Insert s' a' =>
      if decide (a' = a) then [Insert (s +:+ s') a'] else [lastOp; newOp]
  | Retain m a, Retain n a' =>
      if decide (a' = a) then [Retain (m + n) a'] else [lastOp; newOp]
  | _, _ => [lastOp; newOp]
  end.

Fixpoint pushOps (l : list Op) (newOp : Op) : list Op :=
  match l with
  | [] => [newOp]
  | [lastOp] =>
      match lastOp, newOp with
      | Delete _, Insert _ _ => [newOp; lastOp]
      | _, _ => mergeInto lastOp newOp
      end
  | [prev; lastOp] =>
      match lastOp, newOp with
      | Delete _, Insert _ _ => mergeInto prev newOp ++ [lastOp]
      | _, _ => prev :: mergeInto lastOp newOp
      end
  | x :: r => x :: pushOps r newOp
  end.

Definition push (d : t) (newOp : Op) : t := mk (pushOps (ops d) newOp).

(** Modelled from the spec: the builders [insert(text, attributes)],
    [retain(n, attributes)] and [delete(n)]; "no zero-length ops": an
    empty text or a length [<= 0] records nothing.  Lengths are [nat]: a
    difference the code computes is truncated at 0, where nothing is
    recorded all the same. *)
Definition insert (d : t) (text : string) (a : AttributesObject) : t :=
  if bool_decide (text = EmptyString) then d else push d (Insert text a).

Definition retain (d : t) (n : nat) (a : AttributesObject) : t :=
  if Nat.eqb n 0 then d else push d (Retain n a).

Definition delete (d : t) (n : nat) : t :=
  if Nat.eqb n 0 then d else push d (Delete n).

(** Modelled from the spec: "[length()] — total length of inserts". *)
Definition length (d : t) : nat :=
  foldr (λ op acc,
           match op with
           | Insert s _ => (String.length s + acc)%nat
           | _ => acc
           end) 0%nat (ops d).

(** Modelled from the spec: "[changeLength()] — sum of insert lengths
    minus sum of delete lengths". *)
Definition changeLength (d : t) : Z :=
  foldr (λ op acc,
           match op with
           | Insert s _ => Z.of_nat (String.length s) + acc
           | Delete n => acc - Z.of_nat n
           | Retain _ _ => acc
           end) 0 (ops d).

(** An op cut at [n]: the part before and the part after. *)
Definition takeOp (n : nat) (op : Op) : Op :=
  match op with
  | Insert s a => Insert (str_take n s) a
  | Retain _ a => Retain n a
  | Delete _ => Delete n
  end.

Definition dropOp (n : nat) (op : Op) : Op :=
  match op with
  | Insert s a => Insert (str_drop n s) a
  | Retain m a => Retain (m - n) a
  | Delete m => Delete (m - n)
  end.

(** Modelled from the spec: "[slice(start, end?)] — substring in Delta
    space": [start] units are skipped, then ops are collected up to
    [end], the first and the last cut where the bounds fall. *)
Fixpoint skipOps (n : nat) (l : list Op) : list Op :=
  match n, l with
  | O, _ => l
  | _, [] => []
  | _, op :: r =>
      if Nat.leb (opLength op) n then skipOps (n - opLength op) r
      else dropOp n op :: r
  end.

Fixpoint takeOps (n : nat) (l : list Op) : list Op :=
  match n, l with
  | O, _ => []
  | _, [] => []
  | _, op :: r =>
      if Nat.leb (opLength op) n then op :: takeOps (n - opLength op) r
      else [takeOp n op]
  end.

(** [slice(start)] *)
Definition sliceFrom (d : t) (start : nat) : t := mk (skipOps start (ops d)).

(** [slice(start, end)] *)
Definition slice (d : t) (start end_ : nat) : t :=
  mk (takeOps (end_ - start) (skipOps start (ops d))).

(** Modelled from the spec: "[concat(other)] — append with boundary-op
    merging when attributes match". *)
Definition concat (d other : t) : t :=
  match ops other with
  | [] => d
  | op :: r => mk (ops (push d op) ++ r)
  end.

(** A trailing retain without attributes says nothing and is dropped. *)
Definition chopOps (l : list Op) : list Op :=
  match last l with
  | Some (Retain _ a) => if decide (a = ∅) then removelast l else l
  | _ => l
  end.

(** Modelled from the spec: "[compose(other)] — standard OT composition
    (apply [other] to the document produced by [this])", one op of
    [other] at a time against what is left of [this].  A retain of [n]
    re-emits the next [n] units of [this] with the retain's attributes
    composed in; a delete of [n] cancels inserts of [this] and survives
    against retains; deletes of [this] pass through first; past the end
    of [this] there is an unbounded plain retain; an insert of [other]
    is emitted as it is. *)
Fixpoint composeRetain (n : nat) (a : AttributesObject) (this acc : list Op)
  : list Op * list Op :=
  if Nat.eqb n 0 then (acc, this) else
  match this with
  | [] => (pushOps acc (Retain n (composeAttributes ∅ a true)), [])
  | Delete m :: r => composeRetain n a r (pushOps acc (Delete m))
  | Insert s sa :: r =>
      if Nat.ltb n (String.length s)
      then (pushOps acc (Insert (str_take n s) (composeAttributes sa a false)),
            Insert (str_drop n s) sa :: r)
      else composeRetain (n - String.length s) a r
             (pushOps acc (Insert s (composeAttributes sa a false)))
  | Retain m ra :: r =>
      if Nat.ltb n m
      then (pushOps acc (Retain n (composeAttributes ra a true)),
            Retain (m - n) ra :: r)
      else composeRetain (n - m) a r
             (pushOps acc (Retain m (composeAttributes ra a true)))
  end.

Fixpoint composeDelete (n : nat) (this acc : list Op) : list Op * list Op :=
  if Nat.eqb n 0 then (acc, this) else
  match this with
  | [] => (pushOps acc (Delete n), [])
  | Delete m :: r => composeDelete n r (pushOps acc (Delete m))
  | Insert s sa :: r =>
      if Nat.ltb n (String.length s)
      then (acc, Insert (str_drop n s) sa :: r)
      else composeDelete (n - String.length s) r acc
  | Retain m ra :: r =>
      if Nat.ltb n m
      then (pushOps acc (Delete n), Retain (m - n) ra :: r)
      else composeDelete (n - m) r (pushOps acc (Delete m))
  end.

Fixpoint composeLoop (this other acc : list Op) : list Op :=
  match other with
  | [] => foldl pushOps acc this
  | Insert s a :: o => composeLoop this o (pushOps acc (Insert s a))
  | Retain n a :: o =>
      let '(acc', this') := composeRetain n a this acc in
      composeLoop this' o acc'
  | Delete n :: o =>
      let '(acc', this') := composeDelete n this acc in
      composeLoop this' o acc'
  end.

Definition compose (this other : t) : t :=
  mk (chopOps (composeLoop (ops this) (ops other) [])).

(** The text a document delta stands for, one attributed character per
    unit; retains and deletes stand for no text. *)
Fixpoint explode (s : string) (a : AttributesObject)
  : list (Ascii.ascii * AttributesObject) :=
  match s with
  | EmptyString => []
  | String c r => (c, a) :: explode r a
  end.

Fixpoint charsOps (l : list Op) : list (Ascii.ascii * AttributesObject) :=
  match l with
  | [] => []
  | Insert s a :: r => explode s a ++ charsOps r
  | _ :: r => charsOps r
  end.

Definition chars (d : t) : list (Ascii.ascii * AttributesObject) :=
  charsOps (ops d).

(** A document, as the text model holds one: "ops reference only string
    inserts", "no zero-length ops". *)
Definition isInsert (op : Op) : bool :=
  match op with
  | Insert s _ => negb (bool_decide (s = EmptyString))
  | _ => false
  end.

Definition isDocument (d : t) : bool := forallb isInsert (ops d).

(** What a change means on the text, in the specification's words for
    [compose]: "apply [other] to the document produced by [this]".  A
    retain keeps the next [n] characters and composes its attributes
    into theirs, an insert adds its text, a delete drops [n] characters;
    what the change does not reach stays. *)
Definition formatChar (a : AttributesObject)
    (ca : Ascii.ascii * AttributesObject) : Ascii.ascii * AttributesObject :=
  (ca.1, composeAttributes ca.2 a false).

Fixpoint applyChars (cs : list (Ascii.ascii * AttributesObject))
    (other : list Op) : list (Ascii.ascii * AttributesObject) :=
  match other with
  | [] => cs
  | Insert s a :: o => explode s a ++ applyChars cs o
  | Retain n a :: o => (formatChar a <$> take n cs) ++ applyChars (drop n cs) o
  | Delete n :: o => applyChars (drop n cs) o
  end.

(** A change fits a text of [len] characters: its retains and deletes
    stay within it, and it inserts no empty text. *)
Fixpoint fits (other : list Op) (len : nat) : bool :=
  match other with
  | [] => true
  | Insert s _ :: o => negb (bool_decide (s = EmptyString)) && fits o len
  | Retain n _ :: o => Nat.leb n len && fits o (len - n)
  | Delete n :: o => Nat.leb n len && fits o (len - n)
  end.

End Delta.

(** ** Exceptions

    A dereference of [null] or [undefined] (behind a [!] assertion) throws
    a [TypeError]; [JSON.parse] throws a [SyntaxError]. *)

Inductive Result (A : Type) :=
| Ok (a : A)
| Throw (err : string).

Arguments Ok {A} a.
Arguments Throw {A} err.

#[global] Instance Result_ret : MRet Result := λ A a, Ok a.
#[global] Instance Result_bind : MBind Result :=
  λ A B f r, match r with Ok a => f a | Throw e => Throw e end.

(** [x!]: the value behind a non-null assertion that is then used. *)
Definition nonNull {A} (x : option A) : Result A :=
  match x with
  | Some a => Ok a
  | None => Throw "TypeError"
  end.

(** ** The document model *)

Module Data.

(** Modelled from the spec: [BlockyTextModel] is not under src/.  "Text
    Model — wraps a Delta; exposes length and delta read". *)
Record BlockyTextModel := mkTextModel { delta : Delta.t }.

#[global] Instance BlockyTextModel_eq_dec : EqDecision BlockyTextModel.
Proof. solve_decision. Defined.

Definition textLength (m : BlockyTextModel) : nat := Delta.length (delta m).

(** Modelled from the spec: [BlockDataElement] is not under src/.  "A
    node has: a type tag, a stable id, an unordered attribute map";
    "text-like blocks carry an attribute named [textContent] whose value
    is a Text Model".  The fields are the type tag [t], the [id], the
    text model under [textContent] when there is one, and the other
    attributes; the blocks of the body are leaves. *)
Record BlockDataElement := mkBlock {
  t : string;
  id : string;
  textContent : option BlockyTextModel;
  attributes : Delta.AttributesObject;
}.

#[global] Instance BlockDataElement_eq_dec : EqDecision BlockDataElement.
Proof. solve_decision. Defined.

(** [getTextModel("textContent")] *)
Definition getTextModel (b : BlockDataElement) : option BlockyTextModel :=
  textContent b.

(** Modelled from the spec: [cloneWithId(id)], "clone it with a freshly
    minted id". *)
Definition cloneWithId (b : BlockDataElement) (newId : string)
  : BlockDataElement :=
  mkBlock (t b) newId (textContent b) (attributes b).

(** Modelled from the spec: [CursorState] is not under src/.  "Collapsed
    [{ id, offset }]", "open [{ startId, startOffset, endId, endOffset }]",
    "[isCollapsed] iff both endpoints coincide"; the controller reads
    [startId] and [id] off the same cursor, so it is one class. *)
Record CursorState := mkCursor {
  startId : string;
  startOffset : nat;
  endId : string;
  endOffset : nat;
}.

#[global] Instance CursorState_eq_dec : EqDecision CursorState.
Proof. solve_decision. Defined.

(** [CursorState.collapse(id, offset)] *)
Definition collapse (i : string) (offset : nat) : CursorState :=
  mkCursor i offset i offset.

Definition isCollapsed (c : CursorState) : bool :=
  bool_decide (startId c = endId c) && Nat.eqb (startOffset c) (endOffset c).

Definition isOpen (c : CursorState) : bool := negb (isCollapsed c).

(** Modelled from the spec: the getters [cursorState.id] and
    [cursorState.offset] are not under src/.  "Collapsed [{ id, offset }]"
    names them for a cursor whose two ends coincide; they read the end
    of the cursor, which on a collapsed cursor is its start as well. *)
Definition cursorId (c : CursorState) : string := endId c.
Definition cursorOffset (c : CursorState) : nat := endOffset c.

(** Modelled from the spec: [BlockyDocument] is not under src/.  "Root
    node with exactly two children in fixed order: [title] (a Title
    block) and [body] (a container whose children are block elements)".
    The title is [None] once it has been removed. *)
Record BlockyDocument := mkDocument {
  title : option BlockDataElement;
  body : list BlockDataElement;
}.

(** Modelled from the spec: [EditorState] is not under src/.  "Owns the
    document, a [blockId → BlockDataElement] index, current cursor,
    version counter".  The index "maps every live block element's id to
    the single live node of that id", the very object of the tree: it is
    read off the tree, by [getBlockElementById]. *)
Record EditorState := mkState {
  document : BlockyDocument;
  cursorState : option CursorState;
  version : Z;
}.

(** The block elements of the document in document order. *)
Definition blockElements (d : BlockyDocument) : list BlockDataElement :=
  option_list (title d) ++ body d.

Definition hasId (i : string) (b : BlockDataElement) : bool :=
  bool_decide (id b = i).

(** Modelled from the spec: "[getBlockElementById(id) → BlockDataElement
    | null]". *)
Definition getBlockElementById (s : EditorState) (i : string)
  : option BlockDataElement :=
  List.find (hasId i) (blockElements (document s)).

(** Modelled from the spec: [EditorState.isTextLike] is not under src/.
    "true iff node's block definition declares a text content attribute
    (equivalent to carrying a Text Model under [textContent])". *)
Definition isTextLike (b : BlockDataElement) : bool :=
  bool_decide (is_Some (textContent b)).

(** Modelled from the spec: [NodeTraverser] is not under src/.  "Walk
    block elements in document order from [startId]": the block elements
    from [beginNode] on, the first being what [next()] returns first. *)
Fixpoint startingAt (i : string) (l : list BlockDataElement)
  : list BlockDataElement :=
  match l with
  | [] => []
  | b :: r => if hasId i b then b :: r else startingAt i r
  end.

Definition traverseFrom (s : EditorState) (beginNode : BlockDataElement)
  : list BlockDataElement :=
  startingAt (id beginNode) (blockElements (document s)).

(** Modelled from the spec: [node.nextSibling] of a block element, from
    the "next-sibling pointers maintained by the tree": the one after it
    under the same parent; the title is followed by the [body]
    container, which is no block element. *)
Fixpoint nextSiblingIn (l : list BlockDataElement) (i : string)
  : option BlockDataElement :=
  match l with
  | [] => None
  | b :: r => if hasId i b then head r else nextSiblingIn r i
  end.

Definition nextSibling (s : EditorState) (b : BlockDataElement)
  : option BlockDataElement :=
  nextSiblingIn (body (document s)) (id b).

(** Modelled from the spec: [EditorState.splitCursorStateByBlocks] is not
    under src/.  "clips an open cursor into one span per crossed
    text-like block, in document order": the first block from
    [startOffset] to its end, the last from 0 to [endOffset], the ones
    between whole. *)
Fixpoint clipBlocks (items : list BlockDataElement) (c : CursorState)
  : list CursorState :=
  match items with
  | [] => []
  | b :: r =>
      let here :=
        match textContent b with
        | Some m =>
            [mkCursor (id b)
               (if hasId (startId c) b then startOffset c else 0%nat)
               (id b)
               (if hasId (endId c) b then endOffset c else textLength m)]
        | None => []
        end in
      if hasId (endId c) b then here else here ++ clipBlocks r c
  end.

Definition splitCursorStateByBlocks (s : EditorState) (c : CursorState)
  : list CursorState :=
  clipBlocks (startingAt (startId c) (blockElements (document s))) c.

End Data.

(** ** Changesets *)

Module Changeset.
Import Data.

(** Modelled from the spec: [Changeset] is not under src/.  "Transactional
    builder that records a sequence of low-level operations", of which
    the controller code here uses [textEdit], [removeNode]/[removeChild]
    and [insertChildrenAfter].  A node is named by its id, which is what
    the block index resolves; every text edit of the controller is on
    the attribute [textContent]. *)
Inductive Operation :=
| TextEdit (node : string) (d : Delta.t)
| RemoveNode (node : string)
| InsertChildrenAfter (nodes : list BlockDataElement) (prevSibling : string).

(** Modelled from the spec: [new Changeset(state)], the operations in
    recorded order and the cursor asked for by [setCursorState], which
    the changeset "exposes [as] [afterCursor] to callers after apply". *)
Record changeset := mk {
  operations : list Operation;
  afterCursor : option CursorState;
}.

Definition new : changeset := mk [] None.

(** [textEdit(node, "textContent", () => delta)] *)
Definition textEdit (c : changeset) (node : BlockDataElement) (d : Delta.t)
  : changeset :=
  mk (operations c ++ [TextEdit (id node) d]) (afterCursor c).

(** [removeNode(node)] and [removeChild(parent, node)] *)
Definition removeNode (c : changeset) (node : BlockDataElement) : changeset :=
  mk (operations c ++ [RemoveNode (id node)]) (afterCursor c).

Definition removeChild (c : changeset) (node : BlockDataElement) : changeset :=
  removeNode c node.

(** [insertChildrenAfter(parent, nodes, prevSibling)] *)
Definition insertChildrenAfter (c : changeset) (nodes : list BlockDataElement)
    (prevSibling : BlockDataElement) : changeset :=
  mk (operations c ++ [InsertChildrenAfter nodes (id prevSibling)])
     (afterCursor c).

(** [setCursorState(cursor)] *)
Definition setCursorState (c : changeset) (cursor : CursorState) : changeset :=
  mk (operations c) (Some cursor).

(** [ChangesetApplyOptions], of which the controller sets
    [refreshCursor]. *)
Record ApplyOptions := mkOptions { refreshCursor : bool }.

Definition defaultOptions : ApplyOptions := mkOptions false.

(** "Replace the Text Model at [attrName] by composing it with" the
    delta, on the node named. *)
Definition editText (node : string) (d : Delta.t) (b : BlockDataElement)
  : BlockDataElement :=
  if hasId node b
  then mkBlock (t b) (id b)
         ((λ m, mkTextModel (Delta.compose (delta m) d)) <$> textContent b)
         (attributes b)
  else b.

Fixpoint insertAfter (nodes : list BlockDataElement) (prev : string)
    (l : list BlockDataElement) : list BlockDataElement :=
  match l with
  | [] => []
  | b :: r => if hasId prev b then b :: nodes ++ r
              else b :: insertAfter nodes prev r
  end.

Definition removeFromTitle (node : string) (ti : option BlockDataElement)
  : option BlockDataElement :=
  match ti with
  | Some b => if hasId node b then None else Some b
  | None => None
  end.

(** The nodes of a list but the one named. *)
Definition keepOthers (node : string) (l : list BlockDataElement)
  : list BlockDataElement :=
  List.filter (λ b, negb (hasId node b)) l.

(** Modelled from the spec: one recorded operation on the tree.  A text
    edit replaces the text model "by composing it with" the delta,
    [removeNode] is "remove from its parent", [insertChildrenAfter] is
    "insert after a sibling". *)
Definition applyOperation (d : BlockyDocument) (op : Operation)
  : BlockyDocument :=
  match op with
  | TextEdit node dl =>
      mkDocument (editText node dl <$> title d) (editText node dl <$> body d)
  | RemoveNode node =>
      mkDocument (removeFromTitle node (title d)) (keepOthers node (body d))
  | InsertChildrenAfter nodes prev =>
      mkDocument (title d) (insertAfter nodes prev (body d))
  end.

(** "offsets clamped to lengths" *)
Definition clampOffset (d : BlockyDocument) (i : string) (offset : nat)
  : nat :=
  match List.find (hasId i) (blockElements d) with
  | Some b =>
      match textContent b with
      | Some m => Nat.min offset (textLength m)
      | None => offset
      end
  | None => offset
  end.

Definition clampCursor (d : BlockyDocument) (c : CursorState) : CursorState :=
  mkCursor (startId c) (clampOffset d (startId c) (startOffset c))
           (endId c) (clampOffset d (endId c) (endOffset c)).

(** Modelled from the spec: [Changeset.apply] is not under src/.
    "Operations are executed in recorded order; each mutates the tree and
    block index synchronously"; the cursor becomes the one asked for,
    else "if [opts.refreshCursor], the current cursor is preserved but
    re-normalized"; "Increment version". *)
Definition apply (c : changeset) (opts : ApplyOptions) (s : EditorState)
  : EditorState :=
  let doc := foldl applyOperation (document s) (operations c) in
  let cursor :=
    match afterCursor c with
    | Some k => Some k
    | None =>
        if refreshCursor opts then clampCursor doc <$> cursorState s
        else cursorState s
    end in
  mkState doc cursor (version s + 1).

End Changeset.

(** ** Registries, id generator, pasted DOM elements *)

Module Registry.
Import Data.

(** The part of a DOM element the paste handlers read: [getAttribute]. *)
Record HTMLElement := mkElement {
  tagName : string;
  domAttributes : gmap string string;
}.

Definition getAttribute (e : HTMLElement) (name : string) : option string :=
  domAttributes e !! name.

(** A string in a condition: [null] and the empty string are falsy. *)
Definition truthyString (s : option string) : bool :=
  match s with
  | Some s => negb (bool_decide (s = EmptyString))
  | None => false
  end.

(** Modelled from the spec: [IdGenerator] is not under src/.  "Ids are
    minted by an id generator (block ids prefixed so [isBlockId] is a
    syntactic test)": the ids it hands out, in order, how many it has
    handed out, and the test. *)
Record IdGenerator := mkIdGenerator {
  blockIds : nat → string;
  minted : nat;
  isBlockId : string → bool;
}.

(** [mkBlockId()] *)
Definition mkBlockId (g : IdGenerator) : string * IdGenerator :=
  (blockIds g (minted g), mkIdGenerator (blockIds g) (S (minted g)) (isBlockId g)).

(** An [OnPaste] handler, "[OnPaste(evt) → BlockDataElement | void]".
    The [BlockPasteEvent] hands it the pasted element and
    [editorController]: through it the handler reads and may change the
    state and the id generator (the registries are sealed when the
    controller is built), and it may throw. *)
Definition OnPasteHandler : Type :=
  HTMLElement → EditorState → IdGenerator →
  Result (option BlockDataElement * (EditorState * IdGenerator)).

(** [IBlockDefinition] (see block/titleBlock.ts): [name], [editable]
    (absent, [true] or [false]) and the optional [OnPaste] handler. *)
Record BlockDefinition := mkBlockDef {
  name : string;
  editable : option bool;
  OnPaste : option OnPasteHandler;
}.

(** Modelled from the spec: [BlockRegistry] is not under src/.  "Registry
    is a [name → definition] mapping": [getBlockDefByName]. *)
Abbreviation BlockRegistry := (gmap string BlockDefinition).

Definition getBlockDefByName (r : BlockRegistry) (n : string)
  : option BlockDefinition := r !! n.

(** What [blockyNodeFromJsonNode] makes of a JSON node: a block element
    or some other node. *)
Inductive BlockyNode :=
| ElementNode (e : BlockDataElement)
| OtherNode.

End Registry.

(** ** The editor controller *)

Module Controller.
Import Data Registry.

(** Modelled from the spec: [TextBlock.Name] is declared in
    block/textBlock, not under src/; the paste scenario of the
    specification names the block type [Text]. *)
Definition TextBlock_Name : string := "Text".

(** Modelled from the spec: [isUpperCase] of blocky-common is not under
    src/.  "block type names start with an uppercase letter, container
    types do not". *)
Definition isUpperCase (s : string) : bool :=
  match s with
  | String c _ =>
      let code := Ascii.nat_of_ascii c in
      Nat.leb 65 code && Nat.leb code 90
  | EmptyString => false
  end.

(** [class EditorController]: whether an [Editor] is mounted
    ([this.editor]), the state, the block registry and the id
    generator. *)
Record EditorController := mkController {
  editor : bool;
  state : EditorState;
  blockRegistry : BlockRegistry;
  idGenerator : IdGenerator;
}.

Definition withState (c : EditorController) (s : EditorState)
  : EditorController :=
  mkController (editor c) s (blockRegistry c) (idGenerator c).

(** [a === b] on nodes of the tree: one object per id. *)
Definition sameNode (a b : BlockDataElement) : bool :=
  bool_decide (id a = id b).

(** The body of the [while (nodeTraverser.peek())] loop of
    [deleteContentInsideInSelection], over the nodes the traverser
    yields.  [endNode] is what [getBlockElementById(cursorState.endId)!]
    gave, a node or [undefined]: it is only compared with [===]. *)
Fixpoint deleteWalk (items : list BlockDataElement)
    (startNode : BlockDataElement) (endNode : option BlockDataElement)
    (cursorState : CursorState)
    (changeset : Changeset.changeset) : Result Changeset.changeset :=
  match items with
  | [] => Ok changeset
  | item :: rest =>
      changeset' ←
        (if sameNode startNode item && isTextLike startNode then
           textModel ← nonNull (getTextModel item);
           Ok (Changeset.setCursorState
                 (Changeset.textEdit changeset item
                    (Delta.delete
                       (Delta.retain Delta.empty (startOffset cursorState) ∅)
                       (textLength textModel - startOffset cursorState)))
                 (collapse (id item) (startOffset cursorState)))
         else if match endNode with
                 | Some endNode => sameNode endNode item && isTextLike endNode
                 | None => false
                 end then
           textModel ← nonNull (getTextModel item);
           let tail := Delta.sliceFrom (delta textModel) (endOffset cursorState) in
           Ok (Changeset.removeNode
                 (Changeset.textEdit changeset startNode
                    (Delta.concat
                       (Delta.retain Delta.empty (startOffset cursorState) ∅)
                       tail))
                 item)
         else Ok (Changeset.removeNode changeset item));
      if match endNode with
         | Some endNode => sameNode item endNode
         | None => false
         end then Ok changeset'
      else deleteWalk rest startNode endNode cursorState changeset'
  end.

(** [deleteContentInsideInSelection(cursorState): CursorState | null].
    In the branch of two ids the [!] behind [getBlockElementById]
    asserts to the compiler only and nothing dereferences the two
    nodes: a missing end node is never met by the walk, and a traverser
    begun at no node yields none. *)
Definition deleteContentInsideInSelection (c : EditorController)
    (cursorState : CursorState)
  : Result (EditorController * option CursorState) :=
  if bool_decide (startId cursorState = endId cursorState) then
    currentBlockElement ←
      nonNull (getBlockElementById (state c) (cursorId cursorState));
    if isTextLike currentBlockElement then
      let startOffset := startOffset cursorState in
      let newState := collapse (cursorId cursorState) startOffset in
      let changeset :=
        Changeset.setCursorState
          (Changeset.textEdit Changeset.new currentBlockElement
             (Delta.delete
                (Delta.retain Delta.empty startOffset ∅)
                (endOffset cursorState - startOffset)))
          newState in
      Ok (withState c (Changeset.apply changeset Changeset.defaultOptions (state c)),
          Some newState)
    else
      let next := nextSibling (state c) currentBlockElement in
      let changeset := Changeset.removeChild Changeset.new currentBlockElement in
      match next with
      | Some next =>
          let newState := collapse (id next) 0 in
          let changeset := Changeset.setCursorState changeset newState in
          Ok (withState c (Changeset.apply changeset Changeset.defaultOptions (state c)),
              Some newState)
      | None =>
          Ok (withState c (Changeset.apply changeset Changeset.defaultOptions (state c)),
              None)
      end
  else
    let startNode := getBlockElementById (state c) (startId cursorState) in
    let endNode := getBlockElementById (state c) (endId cursorState) in
    changeset ←
      match startNode with
      | Some startNode =>
          deleteWalk (traverseFrom (state c) startNode) startNode endNode
            cursorState Changeset.new
      | None => Ok Changeset.new
      end;
    Ok (withState c (Changeset.apply changeset Changeset.defaultOptions (state c)),
        Changeset.afterCursor changeset).

(** [op.attributes] *)
Definition opAttributes (op : Delta.Op) : Delta.AttributesObject :=
  match op with
  | Delta.Insert _ a | Delta.Retain _ a => a
  | Delta.Delete _ => ∅
  end.

(** [for (const key of attribKeys) if (op.attributes && op.attributes[key])
    attribs[key] = null] *)
Definition unsetCarried (op : Delta.Op) (attribs : Delta.AttributesObject)
  : Delta.AttributesObject :=
  map_imap (λ key v,
              Some (if Delta.truthy (opAttributes op !! key)
                    then Delta.VNull else v)) attribs.

(** The toggle test of [formatTextOnCursor] for one key:
    [prevDelta.ops.length === 1] and that op carries a truthy value
    under the key. *)
Definition singleOpCarries (prevDelta : Delta.t) (key : string) : bool :=
  match Delta.ops prevDelta with
  | [op] => Delta.truthy (opAttributes op !! key)
  | _ => false
  end.

(** The [for (const state of states)] loop of [formatTextOnCursor].  The
    object [attribs] is shared by all iterations and written in place. *)
Fixpoint formatWalk (s : EditorState) (states : list CursorState)
    (attribs : option Delta.AttributesObject)
    (changeset : Changeset.changeset)
  : Result (Changeset.changeset * option Delta.AttributesObject) :=
  match states with
  | [] => Ok (changeset, attribs)
  | st :: rest =>
      blockElement ← nonNull (getBlockElementById s (endId st));
      if negb (bool_decide (t blockElement = TextBlock_Name)) then
        formatWalk s rest attribs changeset
      else
        currentText ← nonNull (getTextModel blockElement);
        let prevDelta :=
          Delta.slice (delta currentText) (startOffset st) (endOffset st) in
        let attribs :=
          match Delta.ops prevDelta, attribs with
          | [op], Some a => Some (unsetCarried op a)
          | _, _ => attribs
          end in
        formatWalk s rest attribs
          (Changeset.textEdit changeset blockElement
             (Delta.retain
                (Delta.retain Delta.empty (startOffset st) ∅)
                (endOffset st - startOffset st)
                (default ∅ attribs)))
  end.

(** [formatTextOnCursor(cursorState, attribs?)]; the second component is
    the caller's [attribs] object as the call leaves it. *)
Definition formatTextOnCursor (c : EditorController)
    (cursorState : CursorState) (attribs : option Delta.AttributesObject)
  : Result (EditorController * option Delta.AttributesObject) :=
  if negb (editor c) then Ok (c, attribs)
  else if isCollapsed cursorState then Ok (c, attribs)
  else
    let states := splitCursorStateByBlocks (state c) cursorState in
    '(changeset, attribs) ← formatWalk (state c) states attribs Changeset.new;
    Ok (withState c (Changeset.apply changeset (Changeset.mkOptions true) (state c)),
        attribs).

(** [deleteBlock(id)] *)
Definition deleteBlock (c : EditorController) (i : string)
  : EditorController :=
  if negb (editor c) then c
  else
    match getBlockElementById (state c) i with
    | None => c
    | Some blockNode =>
        if negb (isUpperCase (t blockNode)) then c
        else
          withState c
            (Changeset.apply
               (Changeset.removeNode Changeset.new blockNode)
               (Changeset.mkOptions true) (state c))
    end.

(** The guards of [deleteBlock], in the claim's words: an editor is
    mounted, the id maps to a live block element, and its type tag
    starts with an uppercase letter. *)
Definition removable (c : EditorController) (i : string) : Prop :=
  editor c = true
  ∧ ∃ b, getBlockElementById (state c) i = Some b ∧ isUpperCase (t b) = true.

Section Paste.
(** [JSON.parse] ([None]: it throws) and [blockyNodeFromJsonNode] (which
    may throw as well) are parameters; the latter is declared in the
    data package, not under src/. *)
Variable JSON : Type.
Variable JSON_parse : string → option JSON.
Variable blockyNodeFromJsonNode : JSON → Result BlockyNode.

Definition withIdGenerator (c : EditorController) (g : IdGenerator)
  : EditorController :=
  mkController (editor c) (state c) (blockRegistry c) g.

(** The tail of [#divHandler]: the block definition's own paste
    handler, called with the element and [editorController: this]; the
    controller is left as the handler leaves its state and its id
    generator. *)
Definition pasteByDefinition (c : EditorController)
    (blockDef : BlockDefinition) (element : HTMLElement)
  : Result (option BlockDataElement * EditorController) :=
  match OnPaste blockDef with
  | Some pasteHandler =>
      '(result, (s, g)) ← pasteHandler element (state c) (idGenerator c);
      Ok (result, mkController (editor c) s (blockRegistry c) g)
  | None => Ok (None, c)
  end.

(** [#divHandler = (node: Node): BlockDataElement | void] *)
Definition divHandler (c : EditorController) (element : HTMLElement)
  : Result (option BlockDataElement * EditorController) :=
  let dataType := getAttribute element "data-type" in
  if negb (truthyString dataType) then Ok (None, c)
  else
    match getBlockDefByName (blockRegistry c) (default EmptyString dataType) with
    | None => Ok (None, c)
    | Some blockDef =>
        let jsonData := getAttribute element "data-content" in
        if truthyString jsonData then
          match JSON_parse (default EmptyString jsonData) with
          | None => Throw "SyntaxError"
          | Some data =>
              node ← blockyNodeFromJsonNode data;
              match node with
              | ElementNode node =>
                  let '(newId, g) := mkBlockId (idGenerator c) in
                  Ok (Some (cloneWithId node newId), withIdGenerator c g)
              | OtherNode => pasteByDefinition c blockDef element
              end
          end
        else pasteByDefinition c blockDef element
    end.
End Paste.

End Controller.

(** ** The view layer: packages/blocky-core/src/view/editor.ts

    This file still uses the model of [@pkg/model]: tree nodes holding
    [BlockData] whose [data] is a [TextModel], actions applied through the
    state, a cursor tagged [collapsed] or [open]. *)

Module View.
Import Registry.

(** [TextType] is declared in [@pkg/model], not under src/; its members
    are those the sources name ([TextType.Bulleted] in editor.ts, the
    others in spannerMenu.tsx). *)
Inductive TextType :=
| Normal | Heading1 | Heading2 | Heading3 | Checkbox | Bulleted.

#[global] Instance TextType_eq_dec : EqDecision TextType.
Proof. solve_decision. Defined.

(** Modelled from the spec: [TextModel] of [@pkg/model] is not under
    src/.  "Text Model — wraps a Delta; exposes length"; a new one is
    empty and of the plain text type; [insert] and [delete] are the
    deltas [retain(index).insert(text, attributes)] and
    [retain(index).delete(length)] composed onto it; [slice(offset)]
    lists the runs from [offset] on. *)
Record TextModel := mkTextModel {
  textType : TextType;
  delta : Delta.t;
}.

#[global] Instance TextModel_eq_dec : EqDecision TextModel.
Proof. solve_decision. Defined.

Record TextSlice := mkSlice {
  content : string;
  sliceAttributes : Delta.AttributesObject;
}.

Definition newTextModel : TextModel := mkTextModel Normal Delta.empty.

Definition textLength (m : TextModel) : nat := Delta.length (delta m).

Definition withTextType (m : TextModel) (ty : TextType) : TextModel :=
  mkTextModel ty (delta m).

Definition textInsert (m : TextModel) (index : nat) (text : string)
    (a : Delta.AttributesObject) : TextModel :=
  mkTextModel (textType m)
    (Delta.compose (delta m)
       (Delta.insert (Delta.retain Delta.empty index ∅) text a)).

Definition textDelete (m : TextModel) (index len : nat) : TextModel :=
  mkTextModel (textType m)
    (Delta.compose (delta m)
       (Delta.delete (Delta.retain Delta.empty index ∅) len)).

Fixpoint slicesOf (l : list Delta.Op) : list TextSlice :=
  match l with
  | [] => []
  | Delta.Insert s a :: r => mkSlice s a :: slicesOf r
  | _ :: r => slicesOf r
  end.

Definition textSlice (m : TextModel) (offset : nat) : list TextSlice :=
  slicesOf (Delta.ops (Delta.sliceFrom (delta m) offset)).

(** [BlockData], as editor.ts reads it: [id], [flags] (the id of the
    block definition) and [data], [Some] when it is a [TextModel]. *)
Record BlockData := mkBlockData {
  id : string;
  flags : nat;
  data : option TextModel;
}.

#[global] Instance BlockData_eq_dec : EqDecision BlockData.
Proof. solve_decision. Defined.

(** [CursorState = CollapsedCursor | OpenCursor], as the object literals
    of editor.ts have it: [{ type: "collapsed", targetId, offset }] and
    [{ type: "open", startId, startOffset, endId, endOffset }]. *)
Inductive CursorState :=
| Collapsed (targetId : string) (offset : nat)
| Open (startId : string) (startOffset : nat) (endId : string) (endOffset : nat).

#[global] Instance CursorState_eq_dec : EqDecision CursorState.
Proof. solve_decision. Defined.

(** Modelled from the spec: the [State] of [@pkg/model] is not under
    src/.  It "owns the document, a [blockId → BlockDataElement] index,
    current cursor": the blocks, as the children of one parent node in
    sibling order ([prev]/[next]), and the cursor.  [idMap] resolves a
    block id to its tree node. *)
Record DocumentState := mkState {
  parentId : string;
  blocks : list BlockData;
  cursorState : option CursorState;
}.

Definition withCursor (s : DocumentState) (c : option CursorState)
  : DocumentState :=
  mkState (parentId s) (blocks s) c.

Definition hasId (i : string) (b : BlockData) : bool :=
  bool_decide (id b = i).

(** [state.idMap.get(id)] *)
Definition idMap_get (s : DocumentState) (i : string) : option BlockData :=
  List.find (hasId i) (blocks s).

(** [node.prev] *)
Fixpoint prevIn (l : list BlockData) (i : string) (before : option BlockData)
  : option BlockData :=
  match l with
  | [] => None
  | b :: r => if hasId i b then before else prevIn r i (Some b)
  end.

Definition prev (s : DocumentState) (node : BlockData) : option BlockData :=
  prevIn (blocks s) (id node) None.

(** [Action], as the object literals of editor.ts have it:
    [{ type: "new-block", blockName, targetId, newId, afterId, data }]
    and [{ type: "delete", targetId }]. *)
Inductive Action :=
| NewBlock (blockName : string) (targetId : string) (newId : string)
           (afterId : string) (data : option TextModel)
| DeleteAction (targetId : string).

(** [IBlockDefinition] as the view reads it. *)
Record BlockDefinition := mkBlockDef {
  name : string;
  editable : option bool;
}.

(** [BlockRegistry], as the view uses it: [getBlockDefById]. *)
Record BlockRegistry := mkRegistry {
  getBlockDefById : nat → option BlockDefinition;
}.

(** [KeyboardEvent]: the key and whether the default action has been
    prevented. *)
Record KeyboardEvent := mkKey {
  key : string;
  defaultPrevented : bool;
}.

(** [e.preventDefault()] *)
Definition preventDefault (ev : KeyboardEvent) : KeyboardEvent :=
  mkKey (key ev) true.

(** [const arrowKeys = new Set([...])] *)
Definition arrowKeys : list string :=
  ["ArrowUp"; "ArrowDown"; "ArrowLeft"; "ArrowRight"].

(** [TextBlockName]; [insertBlockByDefaultAt] tests [blockName === "text"]. *)
Definition TextBlockName : string := "text".

Fixpoint insertAfter (new : BlockData) (after : string) (l : list BlockData)
  : list BlockData :=
  match l with
  | [] => []
  | b :: r => if hasId after b then b :: new :: r
              else b :: insertAfter new after r
  end.

Section Browser.
(** The browser is a parameter: the DOM an input is diffed against, the
    diff itself ([handleContentChanged], which goes through the blocks'
    [blockContentChanged], not under src/) and the selection that
    [selectionChanged] reads ([None]: no range, the cursor is left
    alone).  So is the way the state turns the [blockName] of a
    [new-block] action into the [flags] of the new block. *)
Variable DOM : Type.
Variable contentDiff : DOM → DocumentState → DocumentState.
Variable browserSelection : DocumentState → option (option CursorState).
Variable flagsOfBlockName : string → nat.

(** [class Editor]: state, block registry, id generator, the preserved
    text types, the composing flag; [diffRuns] counts the calls of
    [handleContentChanged]. *)
Record Editor := mkEditor {
  state : DocumentState;
  registry : BlockRegistry;
  idGenerator : IdGenerator;
  preservedTextType : list TextType;
  composing : bool;
  diffRuns : nat;
}.

Definition withState (e : Editor) (s : DocumentState) : Editor :=
  mkEditor s (registry e) (idGenerator e) (preservedTextType e)
           (composing e) (diffRuns e).

Definition withIdGenerator (e : Editor) (g : IdGenerator) : Editor :=
  mkEditor (state e) (registry e) g (preservedTextType e)
           (composing e) (diffRuns e).

Definition withComposing (e : Editor) (b : bool) : Editor :=
  mkEditor (state e) (registry e) (idGenerator e) (preservedTextType e)
           b (diffRuns e).

(** Modelled from the spec: [DocumentState.applyActions] is not under
    src/.  [new-block] "create[s] a new sibling block after the current
    one" under the parent [targetId]; [delete]: "the whole block is
    removed". *)
Definition applyAction (s : DocumentState) (a : Action) : DocumentState :=
  match a with
  | NewBlock blockName targetId newId afterId d =>
      if bool_decide (targetId = parentId s)
      then mkState (parentId s)
             (insertAfter (mkBlockData newId (flagsOfBlockName blockName) d)
                          afterId (blocks s))
             (cursorState s)
      else s
  | DeleteAction targetId =>
      mkState (parentId s)
              (List.filter (λ b, negb (hasId targetId b)) (blocks s))
              (cursorState s)
  end.

(** [selectionChanged]: the cursor becomes what the browser's
    selection maps to. *)
Definition selectionChanged (e : Editor) : Editor :=
  match browserSelection (state e) with
  | None => e
  | Some c => withState e (withCursor (state e) c)
  end.

(** [applyActions(actions, noUpdate)]: the state applies the actions,
    then (after the render, unless [noUpdate]) the selection is read
    back.  No plugin hooks in before the apply. *)
Definition applyActions (e : Editor) (actions : list Action) : Editor :=
  match actions with
  | [] => e
  | _ =>
      selectionChanged
        (withState e (foldl applyAction (state e) actions))
  end.

(** [textModel.delete(...)] writes the model the block holds. *)
Definition setData (s : DocumentState) (i : string) (m : TextModel)
  : DocumentState :=
  mkState (parentId s)
    ((λ b, if hasId i b then mkBlockData (id b) (flags b) (Some m) else b)
       <$> blocks s)
    (cursorState s).

(** [for (const slice of slices) { newTextModel.insert(ptr, ...); ptr += ... }] *)
Fixpoint insertSlices (m : TextModel) (ptr : nat) (slices : list TextSlice)
  : TextModel :=
  match slices with
  | [] => m
  | slice :: r =>
      insertSlices (textInsert m ptr (content slice) (sliceAttributes slice))
                   (ptr + String.length (content slice)) r
  end.

(** [commitNewLine()] *)
Definition commitNewLine (e : Editor) : Editor :=
  match cursorState (state e) with
  | None => e
  | Some (Collapsed targetId offset) =>
      match idMap_get (state e) targetId with
      | None => e
      | Some node =>
          match data node with
          | None => e
          | Some textModel =>
              let cursorOffset := offset in
              let slices := textSlice textModel cursorOffset in
              let newTextModel :=
                if bool_decide (textType textModel ∈ preservedTextType e)
                then withTextType newTextModel (textType textModel)
                else newTextModel in
              let newTextModel := insertSlices newTextModel 0 slices in
              let textModel :=
                textDelete textModel cursorOffset
                           (textLength textModel - cursorOffset) in
              let e := withState e (setData (state e) (id node) textModel) in
              let '(newId, g) := mkBlockId (idGenerator e) in
              let e := withIdGenerator e g in
              let actions :=
                [NewBlock TextBlockName (parentId (state e)) newId
                          (id node) (Some newTextModel)] in
              let e := applyActions e actions in
              withState e
                (withCursor (state e) (Some (Collapsed newId 0)))
          end
      end
  | Some (Open _ _ _ _) => e
  end.

(** [focusEndOfNode(treeNode)] *)
Definition focusEndOfNode (e : Editor) (treeNode : BlockData) : Editor :=
  match data treeNode with
  | Some m =>
      withState e (withCursor (state e)
                     (Some (Collapsed (id treeNode) (textLength m))))
  | None =>
      withState e (withCursor (state e) (Some (Collapsed (id treeNode) 0)))
  end.

(** [deleteBlockOnFocusedCursor(): boolean] *)
Definition deleteBlockOnFocusedCursor (e : Editor) : Result (bool * Editor) :=
  match cursorState (state e) with
  | None => Ok (false, e)
  | Some (Open _ _ _ _) => Ok (false, e)
  | Some (Collapsed targetId _) =>
      if negb (isBlockId (idGenerator e) targetId) then Ok (false, e)
      else
        match idMap_get (state e) targetId with
        | None => Ok (false, e)
        | Some node =>
            let prevNode := prev (state e) node in
            blockDef ← nonNull (getBlockDefById (registry e) (flags node));
            if negb (bool_decide (editable blockDef = Some false))
            then Ok (false, e)
            else
              let e := applyActions e [DeleteAction targetId] in
              match prevNode with
              | Some prevNode =>
                  let e := withState e
                             (withCursor (state e)
                                (Some (Collapsed (id prevNode) 0))) in
                  Ok (true, focusEndOfNode e prevNode)
              | None =>
                  Ok (true, withState e (withCursor (state e) None))
              end
        end
  end.

(** [handleBackspace(e)] and [handleDelete(e)]: the default action of
    the key is prevented when the block was deleted. *)
Definition handleBackspace (e : Editor) (ev : KeyboardEvent)
  : Result (KeyboardEvent * Editor) :=
  '(deleted, e) ← deleteBlockOnFocusedCursor e;
  Ok (if deleted : bool then preventDefault ev else ev, e).

Definition handleDelete (e : Editor) (ev : KeyboardEvent)
  : Result (KeyboardEvent * Editor) :=
  '(deleted, e) ← deleteBlockOnFocusedCursor e;
  Ok (if deleted : bool then preventDefault ev else ev, e).

(** [handleKeyDown], on the event as the subscribers of [keyDown] leave
    it. *)
Definition handleKeyDown (e : Editor) (ev : KeyboardEvent)
  : Result (KeyboardEvent * Editor) :=
  if defaultPrevented ev then Ok (ev, e)
  else if bool_decide (key ev = "Tab") then Ok (preventDefault ev, e)
  else if bool_decide (key ev ∈ arrowKeys) then Ok (ev, e)
  else if composing e then Ok (ev, e)
  else if bool_decide (key ev = "Enter") then
    Ok (preventDefault ev, commitNewLine e)
  else if bool_decide (key ev = "Backspace") then handleBackspace e ev
  else if bool_decide (key ev = "Delete") then handleDelete e ev
  else Ok (ev, e).

(** The [input] and composition events bound on the editable root in
    [render]. *)
Inductive DomEvent :=
| InputEvent (dom : DOM)
| CompositionStartEvent
| CompositionEndEvent (dom : DOM).

(** [handleContentChanged] *)
Definition handleContentChanged (dom : DOM) (e : Editor) : Editor :=
  mkEditor (contentDiff dom (state e)) (registry e) (idGenerator e)
           (preservedTextType e) (composing e) (S (diffRuns e)).

(** The listeners: the [input] guard, [handleCompositionStart],
    [handleCompositionEnd]. *)
Definition dispatch (e : Editor) (ev : DomEvent) : Editor :=
  match ev with
  | InputEvent dom =>
      if composing e then e else handleContentChanged dom e
  | CompositionStartEvent => withComposing e true
  | CompositionEndEvent dom =>
      handleContentChanged dom (withComposing e false)
  end.

End Browser.

End View.

(** ** Concrete documents used by the examples *)

Module Examples.
Import Data Registry Controller.
Local Open Scope string_scope.

Definition plain (s : string) : BlockyTextModel :=
  mkTextModel (Delta.mk [Delta.Insert s ∅]).

Definition textBlock (i s : string) : BlockDataElement :=
  mkBlock TextBlock_Name i (Some (plain s)) ∅.

(** A generator of ids [Blk-], [Blk-x], [Blk-xx], ... *)
Fixpoint tally (n : nat) : string :=
  match n with
  | O => EmptyString
  | S n => "x" +:+ tally n
  end.

Definition generator : IdGenerator :=
  mkIdGenerator (λ n, "Blk-" +:+ tally n) 0 (λ i, String.prefix "Blk-" i).

Definition controllerOf (blocks : list BlockDataElement) : EditorController :=
  mkController true (mkState (mkDocument None blocks) None 0) ∅ generator.

(** The blocks [b1 = "foo"], [b2 = "bar"], [b3 = "baz"]. *)
Definition fooBarBaz : EditorController :=
  controllerOf [textBlock "b1" "foo"; textBlock "b2" "bar"; textBlock "b3" "baz"].

Definition bold : Delta.AttributesObject := {[ "bold" := Delta.VBool true ]}.
Definition boldItalic : Delta.AttributesObject :=
  {[ "bold" := Delta.VBool true; "italic" := Delta.VBool true ]}.

(** One block whose text ["abcd"] is bold, the second half italic too. *)
Definition boldRuns : BlockyTextModel :=
  mkTextModel (Delta.mk [Delta.Insert "ab" bold; Delta.Insert "cd" boldItalic]).

Definition boldRunsBlock : BlockDataElement :=
  mkBlock TextBlock_Name "b1" (Some boldRuns) ∅.

Definition twoBoldRuns : EditorController := controllerOf [boldRunsBlock].

(** A controller that knows the block type [Text], and a div copied
    from the editor whose content holds a text block under the id
    [Blk-old]. *)
Definition pastingController : EditorController :=
  mkController true (mkState (mkDocument None []) None 0)
               {[ "Text" := mkBlockDef "Text" None None ]} generator.

Definition copiedDiv (dataType : string) : HTMLElement :=
  mkElement "DIV" {[ "data-type" := dataType; "data-content" := "hello" ]}.

Definition parseText (s : string) : option string := Some s.

Definition nodeOfText (s : string) : Result BlockyNode :=
  Ok (ElementNode (textBlock "Blk-old" s)).

(** A div of type [Text] whose content is the id under which the text
    block it deserializes to was stored. *)
Definition divStoring (stored : string) : HTMLElement :=
  mkElement "DIV" {[ "data-type" := "Text"; "data-content" := stored ]}.

Definition nodeStoring (stored : string) : Result BlockyNode :=
  Ok (ElementNode (textBlock stored "hello")).

End Examples.

Module ViewExamples.
Import Registry View.

Definition plain (ty : TextType) (s : string) : TextModel :=
  mkTextModel ty (Delta.mk [Delta.Insert s ∅]).

(** The registry holds the text block alone; it does not say
    [editable: false]. *)
Definition textOnly : BlockRegistry :=
  mkRegistry (λ i, [mkBlockDef TextBlockName None] !! i).

(** The flags of a new block: the id of the text block's definition. *)
Definition textFlags (blockName : string) : nat := 0.

Definition enter : KeyboardEvent := mkKey "Enter" false.
Definition backspace : KeyboardEvent := mkKey "Backspace" false.

Definition editorOf (blocks : list BlockData) (cursor : option CursorState)
  : Editor :=
  mkEditor (mkState "doc" blocks cursor) textOnly Examples.generator
           [Bulleted] false 0.

(** One block ["hello world"], the cursor at [(b1, 5)]. *)
Definition helloWorld : Editor :=
  editorOf [mkBlockData "b1" 0 (Some (plain Normal "hello world"))]
           (Some (Collapsed "b1" 5)).

(** Two text blocks ["ab"] and ["cd"], the cursor at the start of the
    second. *)
Definition twoLines : Editor :=
  editorOf [mkBlockData "Blk-1" 0 (Some (plain Normal "ab"));
            mkBlockData "Blk-2" 0 (Some (plain Normal "cd"))]
           (Some (Collapsed "Blk-2" 0)).

(** A browser without a selection range. *)
Definition noSelection (s : DocumentState) : option (option CursorState) :=
  None.

(** A registry with a second, non-editable block type, and a document
    whose second block is of that type. *)
Definition withImage : BlockRegistry :=
  mkRegistry
    (λ i, [mkBlockDef TextBlockName None; mkBlockDef "image" (Some false)] !! i).

Definition textThenImage : Editor :=
  mkEditor (mkState "doc"
              [mkBlockData "Blk-1" 0 (Some (plain Normal "ab"));
               mkBlockData "Blk-2" 1 None]
              (Some (Collapsed "Blk-2" 0)))
           withImage Examples.generator [Bulleted] false 0.

End ViewExamples.

(** ** NodeLocation: slicing and the last component *)

Module NodeLocationAccess.
Import NodeLocation.

(** A relative index of [Array.prototype.slice]: a negative one counts
    from the end, and both kinds are clamped to [0, len]. *)
Definition relativeIndex (len : nat) (k : Z) : nat :=
  if k <? 0 then Z.to_nat (Z.max (Z.of_nat len + k) 0)
  else Nat.min (Z.to_nat k) len.

(** [slice(start, end?)]: [new NodeLocation(this.path.slice(start, end))];
    without [end] the slice runs to the end of the path. *)
Definition slice (l : t) (start : Z) (end_ : option Z) : t :=
  let len := length l in
  let k := relativeIndex len start in
  let final :=
    match end_ with
    | Some e => relativeIndex len e
    | None => len
    end in
  mk (take (final - k) (drop k (path l))).

(** [get last()] *)
Definition last (l : t) : Result PathItem :=
  match path l with
  | [] => Throw "Location is empty"
  | _ => nonNull (path l !! (length l - 1)%nat)
  end.

End NodeLocationAccess.

(** ** The editor controller: edits at the cursor, insertion, pasting *)

Module Editing.
Import Data Registry Controller.

(** [getBlockElementAtCursor(): BlockDataElement | null] *)
Definition getBlockElementAtCursor (c : EditorController)
  : option BlockDataElement :=
  match cursorState (state c) with
  | None => None
  | Some cursor => getBlockElementById (state c) (cursorId cursor)
  end.

(** Modelled from the spec: [EditorState.__setCursorState] is not under
    src/.  "[__setCursorState(cursor, reason)] — low-level cursor set
    with a reason tag": the cursor becomes the one given. *)
Definition __setCursorState (s : EditorState)
    (cursorState : option CursorState) : EditorState :=
  mkState (document s) cursorState (version s).

(** [setCursorState(cursorState)] *)
Definition setCursorState (c : EditorController)
    (cursorState : option CursorState) : EditorController :=
  withState c (__setCursorState (state c) cursorState).

(** What [applyDeltaAtCursor] leaves.  [appliedLen] is the sum of the
    cursor's offset and the delta's [changeLength()], and it is negative
    where the delta deletes more than lies before the cursor.  The
    source collapses the cursor there all the same, at an offset that
    counts no characters and that [CursorState] does not hold:
    [CursorBelowZero] names the block edited, the delta and that
    offset. *)
Inductive DeltaAtCursor :=
| Returned (c : EditorController)
| CursorBelowZero (element : BlockDataElement) (delta : Delta.t)
                  (appliedLen : Z).

(** [applyDeltaAtCursor(deltaGen, options?)] *)
Definition applyDeltaAtCursor (c : EditorController)
    (deltaGen : nat → Delta.t) (options : option Changeset.ApplyOptions)
  : DeltaAtCursor :=
  match getBlockElementAtCursor c with
  | None => Returned c
  | Some element =>
      if negb (bool_decide (t element = TextBlock_Name)) then Returned c
      else
        match startOffset <$> cursorState (state c) with
        | None => Returned c
        | Some offset =>
            let delta := deltaGen offset in
            let appliedLen := Delta.changeLength delta + Z.of_nat offset in
            if appliedLen <? 0 then CursorBelowZero element delta appliedLen
            else
              Returned
                (withState c
                   (Changeset.apply
                      (Changeset.setCursorState
                         (Changeset.textEdit Changeset.new element delta)
                         (collapse (id element) (Z.to_nat appliedLen)))
                      (default Changeset.defaultOptions options) (state c)))
        end
  end.

(** [IInsertOptions] *)
Record IInsertOptions := mkInsertOptions {
  autoFocus : option bool;
  noRender : option bool;
}.

(** [insertBlockAfterId(element, afterId, options?): string].
    [prevNode.parent!] dereferences the node found, and [editor.state]
    the editor.  The parent of a block of the body is the body, where
    [insertChildrenAfter] puts the element; the parent of the title is
    the document, whose children this model does not list beyond the
    title and the body: behind the title the model inserts nothing,
    and the theorems are about blocks of the body. *)
Definition insertBlockAfterId (c : EditorController)
    (element : BlockDataElement) (afterId : string)
    (options : option IInsertOptions)
  : Result (EditorController * string) :=
  prevNode ← nonNull (getBlockElementById (state c) afterId);
  if negb (editor c) then Throw "TypeError"
  else
    let updateState :=
      Changeset.insertChildrenAfter Changeset.new [element] prevNode in
    if negb (bool_decide (options ≫= noRender = Some true)) then
      let changeset :=
        if bool_decide (options ≫= autoFocus = Some true)
        then Changeset.setCursorState updateState (collapse (id element) 0)
        else updateState in
      Ok (withState c
            (Changeset.apply changeset Changeset.defaultOptions (state c)),
          id element)
    else
      Ok (withState c
            (Changeset.apply updateState Changeset.defaultOptions (state c)),
          id element).

(** [formatTextOnSelectedText(attribs?)] *)
Definition formatTextOnSelectedText (c : EditorController)
    (attribs : option Delta.AttributesObject)
  : Result (EditorController * option Delta.AttributesObject) :=
  if negb (editor c) then Ok (c, attribs)
  else
    match cursorState (state c) with
    | None => Ok (c, attribs)
    | Some cursorState => formatTextOnCursor c cursorState attribs
    end.

End Editing.

Module Pasting.
Import Data Registry Controller.

(** Modelled from the spec: [EditorState.createTextElement] is not under
    src/.  "[createTextElement(initialDelta?, attrs?)] → BlockDataElement
    — minted with a fresh block id": a block of type [TextBlock.Name]
    holding the delta, its id taken from the id generator. *)
Definition createTextElement (c : EditorController) (d : Delta.t)
  : BlockDataElement * EditorController :=
  let '(newId, g) := mkBlockId (idGenerator c) in
  (mkBlock TextBlock_Name newId (Some (mkTextModel d)) ∅,
   withIdGenerator c g).

(** Modelled from the spec: "[insertChildrenAt(parent, index, nodes)] |
    Insert [nodes] at [index] in parent", recorded alone against the
    body and applied. *)
Definition applyInsertChildrenAt (index : nat) (nodes : list BlockDataElement)
    (s : EditorState) : EditorState :=
  mkState
    (mkDocument (title (document s))
       (take index (body (document s)) ++ nodes
          ++ drop index (body (document s))))
    (cursorState s) (version s + 1).

(** What the [for] loop of [pasteElementsAtCursor] leaves: the
    changeset, [insertChildren] and [appendDelta]. *)
Record PasteLoop := mkPasteLoop {
  changeset : Changeset.changeset;
  insertChildren : list BlockDataElement;
  appendDelta : option Delta.t;
}.

(** The [for (let i = 0, len = elements.length; i < len; i++)] loop over
    the elements from index [i] on. *)
Fixpoint pasteWalk (s : EditorState) (currentBlockElement : BlockDataElement)
    (len i : nat) (elements : list BlockDataElement) (acc : PasteLoop)
  : PasteLoop :=
  match elements with
  | [] => acc
  | element :: rest =>
      if Nat.eqb i 0 && isTextLike currentBlockElement && isTextLike element
      then
        match getTextModel currentBlockElement, getTextModel element with
        | Some prevTextModel, Some firstTextModel =>
            let offset :=
              from_option cursorOffset (textLength prevTextModel)
                          (cursorState s) in
            if Nat.eqb len 1 then
              mkPasteLoop
                (Changeset.setCursorState
                   (Changeset.textEdit (changeset acc) currentBlockElement
                      (Delta.concat (Delta.retain Delta.empty offset ∅)
                                    (delta firstTextModel)))
                   (collapse (id currentBlockElement)
                      (offset + Delta.length (delta firstTextModel))))
                (insertChildren acc) (appendDelta acc)
            else
              pasteWalk s currentBlockElement len (S i) rest
                (mkPasteLoop
                   (Changeset.textEdit (changeset acc) currentBlockElement
                      (Delta.concat
                         (Delta.delete
                            (Delta.retain Delta.empty offset ∅)
                            (textLength prevTextModel - offset))
                         (delta firstTextModel)))
                   (insertChildren acc)
                   (Some (Delta.sliceFrom (delta prevTextModel) offset)))
        | _, _ => pasteWalk s currentBlockElement len (S i) rest acc
        end
      else
        pasteWalk s currentBlockElement len (S i) rest
          (mkPasteLoop (changeset acc) (insertChildren acc ++ [element])
                       (appendDelta acc))
  end.

(** The [if (!isUndefined(appendDelta))] block: the tail of the split
    text goes to the last inserted element when that is text-like, else
    to a new text element. *)
Definition appendTail (c : EditorController) (acc : PasteLoop)
  : Result (EditorController * PasteLoop) :=
  match appendDelta acc with
  | None => Ok (c, acc)
  | Some tail =>
      match last (insertChildren acc) with
      | Some lastChild =>
          if isTextLike lastChild then
            textModel ← nonNull (getTextModel lastChild);
            let prevOffset := Delta.length (delta textModel) in
            let newChild :=
              mkBlock TextBlock_Name (id lastChild)
                (Some (mkTextModel (Delta.concat (delta textModel) tail)))
                (attributes lastChild) in
            Ok (c,
                mkPasteLoop
                  (Changeset.setCursorState (changeset acc)
                     (collapse (id lastChild) prevOffset))
                  (removelast (insertChildren acc) ++ [newChild])
                  (appendDelta acc))
          else
            let '(appendElement, c) := createTextElement c tail in
            Ok (c,
                mkPasteLoop
                  (Changeset.setCursorState (changeset acc)
                     (collapse (id appendElement) (Delta.length tail)))
                  (insertChildren acc ++ [appendElement])
                  (appendDelta acc))
      | None =>
          let '(appendElement, c) := createTextElement c tail in
          Ok (c,
              mkPasteLoop
                (Changeset.setCursorState (changeset acc)
                   (collapse (id appendElement) (Delta.length tail)))
                (insertChildren acc ++ [appendElement])
                (appendDelta acc))
      end
  end.

(** [pasteElementsAtCursor(elements)] from [const currentBlockElement]
    on, the selection being collapsed at [cursorState]. *)
Definition pasteAt (c : EditorController) (cursorState : CursorState)
    (elements : list BlockDataElement) : Result EditorController :=
  currentBlockElement ←
    nonNull (getBlockElementById (state c) (cursorId cursorState));
  let prev := currentBlockElement in
  let acc :=
    pasteWalk (state c) currentBlockElement (length elements) 0 elements
      (mkPasteLoop Changeset.new [] None) in
  '(c, acc) ← appendTail c acc;
  let changeset :=
    Changeset.insertChildrenAfter (changeset acc) (insertChildren acc) prev in
  Ok (withState c
        (Changeset.apply changeset Changeset.defaultOptions (state c))).

(** [pasteElementsAtCursor(elements)] *)
Definition pasteElementsAtCursor (c : EditorController)
    (elements : list BlockDataElement) : Result EditorController :=
  if Nat.eqb (length elements) 0 then Ok c
  else
    match cursorState (state c) with
    | None =>
        match body (document (state c)) with
        | [] => Ok (withState c (applyInsertChildrenAt 0 elements (state c)))
        | _ => Ok c
        end
    | Some cursorState =>
        if isOpen cursorState then
          '(c, cursorState) ← deleteContentInsideInSelection c cursorState;
          match cursorState with
          | None => Ok c
          | Some cursorState => pasteAt c cursorState elements
          end
        else pasteAt c cursorState elements
    end.

(** The part of a span the paste reads besides its attributes:
    [instanceof HTMLAnchorElement] and [classList]. *)
Record SpanElement := mkSpan {
  element : HTMLElement;
  isAnchor : bool;
  classList : list string;
}.

(** Modelled from the spec: [SpanRegistry] is not under src/.  "style
    attributes from class mapping via the Span Registry": its
    [classnames], a [Map] from a class name to the style registered
    under it, of which the [name] is read. *)
Abbreviation Classnames := (gmap string string).

(** [getAttributesBySpan(span)] *)
Definition getAttributesBySpan (classnames : Classnames) (span : SpanElement)
  : Delta.AttributesObject :=
  let attributes : Delta.AttributesObject := ∅ in
  let href := getAttribute (element span) "data-href" in
  let attributes :=
    if truthyString href
    then <["href" := Delta.VStr (default EmptyString href)]> attributes
    else if isAnchor span
    then <["href" := from_option Delta.VStr Delta.VNull
                       (getAttribute (element span) "href")]> attributes
    else attributes in
  foldl (λ attributes cls,
           match classnames !! cls with
           | Some styleName => <[styleName := Delta.VBool true]> attributes
           | None => attributes
           end) attributes (classList span).

End Pasting.

(** ** The spanner menu: the component of
    packages/blocky-example/app/spannerMenu.tsx *)

Module SpannerMenu.
Import Data Registry Controller.

(** [SpannerProps] *)
Record SpannerProps := mkProps {
  editorController : EditorController;
  focusedNode : option BlockDataElement;
}.

(** Modelled from the spec: [EditorState.createTextElement] is not under
    src/.  "[createTextElement(initialDelta?, attrs?)] → BlockDataElement
    — minted with a fresh block id": a block of type [TextBlock.Name]
    with the attributes given, its id taken from the id generator the
    controller hands to its state; without a delta the text is empty. *)
Definition createTextElement (c : EditorController)
    (initialDelta : option Delta.t) (attrs : Delta.AttributesObject)
  : BlockDataElement * EditorController :=
  let '(newId, g) := mkBlockId (idGenerator c) in
  (mkBlock TextBlock_Name newId
     (Some (mkTextModel (default Delta.empty initialDelta))) attrs,
   withIdGenerator c g).

Section Menu.
(** [ImageBlockName] is declared by the image plugin of the example, and
    the value of a [TextType] by the model; both are parameters. *)
Variable ImageBlockName : string.
Variable textTypeValue : View.TextType → Delta.AttrValue.

(** [insertText(textType)]: the controller as the click leaves it. *)
Definition insertText (props : SpannerProps) (textType : View.TextType)
  : Result EditorController :=
  match focusedNode props with
  | None => Ok (editorController props)
  | Some focusedNode =>
      let '(textElement, c) :=
        createTextElement (editorController props) None
          {[ "textType" := textTypeValue textType ]} in
      '(c, _) ←
        Editing.insertBlockAfterId c textElement (id focusedNode)
          (Some (Editing.mkInsertOptions (Some true) None));
      Ok c
  end.

(** [insertImage]: the id comes from [editorController.editor!.idGenerator],
    the generator of the mounted editor, which is passed and returned
    beside the controller; without an editor the dereference throws. *)
Definition insertImage (props : SpannerProps) (editorIdGenerator : IdGenerator)
  : Result (EditorController * IdGenerator) :=
  match focusedNode props with
  | None => Ok (editorController props, editorIdGenerator)
  | Some focusedNode =>
      if negb (editor (editorController props)) then Throw "TypeError"
      else
        let '(newId, g) := mkBlockId editorIdGenerator in
        let imgElement := mkBlock ImageBlockName newId None ∅ in
        '(c, _) ←
          Editing.insertBlockAfterId (editorController props) imgElement
            (id focusedNode)
            (Some (Editing.mkInsertOptions (Some true) None));
        Ok (c, g)
  end.

End Menu.

End SpannerMenu.

(** ** The view layer: cursor changes and pasting *)

Module ViewPaste.
Import Registry View.

(** The values [areEqualShallow] is given: a primitive ([undefined]
    among them) or an object whose properties hold primitives, as the
    cursor states do.  Numbers are integers. *)
Inductive Primitive :=
| PUndefined
| PNumber (n : Z)
| PString (s : string)
| PBoolean (b : bool).

#[global] Instance Primitive_eq_dec : EqDecision Primitive.
Proof. solve_decision. Defined.

Inductive Value :=
| Prim (p : Primitive)
| Object (properties : gmap string Primitive).

#[global] Instance Value_eq_dec : EqDecision Value.
Proof. solve_decision. Defined.

(** [function areEqualShallow(a, b)] *)
Definition areEqualShallow (a b : Value) : bool :=
  match a, b with
  | Object a, Object b =>
      bool_decide (map_Forall (λ key v, b !! key = Some v) a)
      && bool_decide (map_Forall (λ key _, is_Some (a !! key)) b)
  | Prim a, Prim b => bool_decide (a = b)
  | _, _ => false
  end.

(** A cursor state as the object it is. *)
Definition cursorValue (c : option CursorState) : Value :=
  match c with
  | None => Prim PUndefined
  | Some (Collapsed targetId offset) =>
      Object {[ "type" := PString "collapsed";
                "targetId" := PString targetId;
                "offset" := PNumber (Z.of_nat offset) ]}
  | Some (Open startId startOffset endId endOffset) =>
      Object {[ "type" := PString "open";
                "startId" := PString startId;
                "startOffset" := PNumber (Z.of_nat startOffset);
                "endId" := PString endId;
                "endOffset" := PNumber (Z.of_nat endOffset) ]}
  end.

(** What [handleCursorStateChanged] does to the browser's selection:
    nothing, [sel.removeAllRanges()], the [blockFocused] of the block
    under [blockId] called with the div, the cursor and the selection,
    or the [console.error] of an unknown element. *)
Inductive SelectionEffect :=
| NoEffect
| RemoveAllRanges
| BlockFocused (blockId : string) (targetId : string) (offset : nat)
| UnknownElement.

(** What [domMap] holds for an id: the [div] of a block, with the id of
    the tree node in its [_mgNode] when that is set, or some other
    element. *)
Inductive DomNode :=
| BlockDiv (_mgNode : option string)
| OtherElement.

(** A [Block] of [state.blocks], as [focusBlock] uses it: its
    [blockFocused], given the cursor, which is the block's own code and
    may throw. *)
Definition Block : Type := string → nat → Result unit.

Section Dom.
(** [window.getSelection()] answering a selection or [null],
    [state.domMap] and [state.blocks]. *)
Variable hasSelection : bool.
Variable domMap : string → option DomNode.
Variable blocksMap : string → option Block.

(** [focusBlock(sel, blockDom, cursor)] *)
Definition focusBlock (blockDom : option string) (targetId : string)
    (offset : nat) : Result SelectionEffect :=
  match blockDom with
  | None => Ok NoEffect
  | Some nodeId =>
      block ← nonNull (blocksMap nodeId);
      _ ← block targetId offset;
      Ok (BlockFocused nodeId targetId offset)
  end.

(** [handleCursorStateChanged(newState, oldState)] *)
Definition handleCursorStateChanged (newState oldState : option CursorState)
  : Result SelectionEffect :=
  if areEqualShallow (cursorValue newState) (cursorValue oldState)
  then Ok NoEffect
  else if negb hasSelection then Ok NoEffect
  else
    match newState with
    | None => Ok RemoveAllRanges
    | Some (Open _ _ _ _) => Ok NoEffect
    | Some (Collapsed targetId offset) =>
        match domMap targetId with
        | None => Throw ("dom not found: " +:+ targetId)
        | Some (BlockDiv _mgNode) => focusBlock _mgNode targetId offset
        | Some OtherElement => Ok UnknownElement
        end
    end.
End Dom.

(** [getTextModelByBlockId(blockId)] *)
Definition getTextModelByBlockId (e : Editor) (blockId : string)
  : option TextModel :=
  match idMap_get (state e) blockId with
  | None => None
  | Some treeNode => data treeNode
  end.

(** [insertTextAt(cursorState, text, attributes?)]: the editor with the
    text model written, and the cursor returned. *)
Definition insertTextAt (e : Editor) (cursorState : option CursorState)
    (text : string) (attributes : option Delta.AttributesObject)
  : Editor * option CursorState :=
  match cursorState with
  | None => (e, None)
  | Some (Open _ _ _ _) => (e, None)
  | Some (Collapsed targetId offset) =>
      match getTextModelByBlockId e targetId with
      | None => (e, None)
      | Some textModel =>
          let afterOffset := (offset + String.length text)%nat in
          let textModel :=
            textInsert textModel offset text (default ∅ attributes) in
          (withState e (setData (state e) targetId textModel),
           Some (Collapsed targetId afterOffset))
      end
  end.

(** [pastePlainTextOnCursor(text)] *)
Definition pastePlainTextOnCursor (e : Editor) (text : string) : Editor :=
  (insertTextAt e (cursorState (state e)) text None).1.

(** The children of the pasted body, as [pasteHTMLBodyOnCursor] tells
    them apart: a [span] with its text content, a [div], anything
    else. *)
Inductive BodyChild :=
| SpanChild (span : Pasting.SpanElement) (textContent : string)
| DivChild (div : HTMLElement)
| OtherChild.

(** [getAttributesBySpan(span)] of the editor: [data-href] and the
    registered classes. *)
Definition getAttributesBySpan (classnames : Pasting.Classnames)
    (span : Pasting.SpanElement) : Delta.AttributesObject :=
  let attributes : Delta.AttributesObject := ∅ in
  let href := getAttribute (Pasting.element span) "data-href" in
  let attributes :=
    if truthyString href
    then <["href" := Delta.VStr (default EmptyString href)]> attributes
    else attributes in
  foldl (λ attributes cls,
           match classnames !! cls with
           | Some styleName => <[styleName := Delta.VBool true]> attributes
           | None => attributes
           end) attributes (Pasting.classList span).

(** The paste handler of a block definition of the view,
    [onPaste({ after, editor, node })], which answers a cursor or
    nothing and may change the editor. *)
Definition PasteHandler : Type :=
  option CursorState → Editor → HTMLElement → Editor * option CursorState.

(** [ClipboardEvent.clipboardData]: whether it lists types, and what
    [getData] answers for [text/html] and [text/plain] (the empty string
    when there is none). *)
Record ClipboardData := mkClipboard {
  types : bool;
  html : string;
  plainText : string;
}.

(** The attributed characters the spans among the children stand for,
    in their order. *)
Definition spanChars (classnames : Pasting.Classnames)
    (children : list BodyChild)
  : list (Ascii.ascii * Delta.AttributesObject) :=
  children ≫= λ child,
    match child with
    | SpanChild span textContent =>
        Delta.explode textContent (getAttributesBySpan classnames span)
    | _ => []
    end.

Section Paste.
(** The browser selection and the flags of a block name as in [View];
    the classes of the span registry; the [onPaste] of the block
    definition registered under a name, when there is one; the
    [DOMParser]. *)
Variable browserSelection : DocumentState → option (option CursorState).
Variable flagsOfBlockName : string → nat.
Variable classnames : Pasting.Classnames.
Variable onPaste : string → option PasteHandler.
Variable parseFromString : string → list BodyChild.

(** [insertBlockByDefaultAt(cursorState, blockName)] *)
Definition insertBlockByDefaultAt (e : Editor)
    (cursorState : option CursorState) (blockName : string)
  : Result (Editor * option CursorState) :=
  match cursorState with
  | None => Ok (e, None)
  | Some (Open _ _ _ _) => Ok (e, None)
  | Some (Collapsed targetId _) =>
      currentNode ← nonNull (idMap_get (state e) targetId);
      let parentId := parentId (state e) in
      let '(newId, g) := mkBlockId (idGenerator e) in
      let e := withIdGenerator e g in
      let data :=
        if bool_decide (blockName = "text") then Some newTextModel else None in
      let e :=
        applyActions browserSelection flagsOfBlockName e
          [NewBlock blockName parentId newId targetId data] in
      Ok (e, Some (Collapsed newId 0))
  end.

(** The [while (ptr)] loop of [pasteHTMLBodyOnCursor]: the editor as the
    loop leaves it, and [afterCursor] or the exception that ended it. *)
Fixpoint pasteChildren (e : Editor) (afterCursor : option CursorState)
    (children : list BodyChild) : Editor * Result (option CursorState) :=
  match children with
  | [] => (e, Ok afterCursor)
  | SpanChild span textContent :: rest =>
      let attributes := getAttributesBySpan classnames span in
      let '(e, afterCursor) :=
        insertTextAt e afterCursor textContent
          (if bool_decide (attributes = ∅) then None else Some attributes) in
      pasteChildren e afterCursor rest
  | DivChild div :: rest =>
      let dataType := default EmptyString (getAttribute div "data-type") in
      match onPaste dataType with
      | Some pasteHandler =>
          let '(e, cursor) := pasteHandler afterCursor e div in
          pasteChildren e
            (match cursor with Some _ => cursor | None => afterCursor end) rest
      | None =>
          match insertBlockByDefaultAt e afterCursor dataType with
          | Ok (e, afterCursor) => pasteChildren e afterCursor rest
          | Throw err => (e, Throw err)
          end
      end
  | OtherChild :: rest => pasteChildren e afterCursor rest
  end.

(** [pasteHTMLBodyOnCursor(body)] *)
Definition pasteHTMLBodyOnCursor (e : Editor) (body : list BodyChild)
  : Editor * Result unit :=
  let '(e, afterCursor) := pasteChildren e (cursorState (state e)) body in
  match afterCursor with
  | Ok afterCursor => (withState e (withCursor (state e) afterCursor), Ok ())
  | Throw err => (e, Throw err)
  end.

(** [pasteHTMLOnCursor(html)]: what is thrown is caught and logged. *)
Definition pasteHTMLOnCursor (e : Editor) (html : string) : Editor :=
  (pasteHTMLBodyOnCursor e (parseFromString html)).1.

(** [handlePaste(e)] *)
Definition handlePaste (e : Editor) (clipboardData : option ClipboardData)
  : Editor :=
  match clipboardData with
  | None => e
  | Some clipboardData =>
      if negb (types clipboardData) then e
      else if negb (bool_decide (html clipboardData = EmptyString))
      then pasteHTMLOnCursor e (html clipboardData)
      else if negb (bool_decide (plainText clipboardData = EmptyString))
      then pastePlainTextOnCursor e (plainText clipboardData)
      else e
  end.

End Paste.

End ViewPaste.

(** ** Concrete documents for the controller's edits and pastes *)

Module Scenarios.
Import Data Registry Controller Examples.

(** The controller over [b1 = "foo"], [b2 = "bar"], [b3 = "baz"] with
    the cursor collapsed at [(i, k)], or open. *)
Definition cursorAt (i : string) (k : nat) : EditorController :=
  Editing.setCursorState fooBarBaz (Some (collapse i k)).

Definition selecting (cursor : CursorState) : EditorController :=
  Editing.setCursorState fooBarBaz (Some cursor).

(** [new Delta().retain(offset).insert("X")] *)
Definition typeX (offset : nat) : Delta.t :=
  Delta.insert (Delta.retain Delta.empty offset ∅) "X" ∅.

(** A block without text model. *)
Definition image (i : string) : BlockDataElement := mkBlock "Image" i None ∅.

(** A text block, an image and a text block; the cursor on the image. *)
Definition aroundImage : EditorController :=
  mkController true
    (mkState (mkDocument None [textBlock "b1" "foo"; image "img";
                               textBlock "b3" "baz"])
             (Some (collapse "img" 0)) 0)
    ∅ generator.

(** An [OnPaste] that answers an image under an id it mints and sets
    the cursor on it; a controller whose registry holds it, and a div of
    that type that was not copied from the editor. *)
Definition pastesImage : OnPasteHandler :=
  λ element s g,
    let '(newId, g) := mkBlockId g in
    Ok (Some (image newId),
        (Editing.__setCursorState s (Some (collapse newId 0)), g)).

Definition imagePasting : EditorController :=
  mkController true (mkState (mkDocument None []) None 0)
               {[ "Image" := mkBlockDef "Image" None (Some pastesImage) ]}
               generator.

Definition foreignDiv : HTMLElement :=
  mkElement "DIV" {[ "data-type" := "Image" ]}.

(** A bold block followed by a plain one. *)
Definition boldThenPlain : EditorController :=
  controllerOf [mkBlock TextBlock_Name "b1"
                  (Some (mkTextModel (Delta.mk [Delta.Insert "ab" bold]))) ∅;
                textBlock "b2" "cd"].

End Scenarios.

Module ViewScenarios.
Import Registry View ViewPaste ViewExamples.

(** A body of two spans, the second of class [bold], and the registry
    of span classes that knows it. *)
Definition boldClass : Pasting.Classnames := {[ "bold" := "bold" ]}.

Definition plainSpan : Pasting.SpanElement :=
  Pasting.mkSpan (mkElement "SPAN" ∅) false [].

Definition boldSpan : Pasting.SpanElement :=
  Pasting.mkSpan (mkElement "SPAN" ∅) false ["bold"].

Definition twoSpans : list BodyChild :=
  [SpanChild plainSpan ", "; SpanChild boldSpan "big"].

(** No block definition has a paste handler. *)
Definition noHandlers (blockName : string) : option PasteHandler := None.

Definition noParser (html : string) : list BodyChild := [].


(** The two lines with a range selected. *)
Definition twoLinesSelected : Editor :=
  editorOf [mkBlockData "Blk-1" 0 (Some (plain Normal "ab"));
            mkBlockData "Blk-2" 0 (Some (plain Normal "cd"))]
           (Some (Open "Blk-1" 1 "Blk-2" 1)).

End ViewScenarios.

(* ===================================================================== *)
(** * Part II: theorems                                                    *)
(* ===================================================================== *)

(** ** NodeLocation *)

Module NodeLocationFacts.
Import NodeLocation.

Lemma agree_before (a b : list PathItem) (n : nat) :
  existsb (λ i, strict_ne (a !! i) (b !! i)) (seq 0 n) = false
  ↔ ∀ i : nat, (i < n)%nat → a !! i = b !! i.
Proof.
  split.
  - intros H i Hi.
    destruct (decide (a !! i = b !! i)) as [|Hne]; [done|].
    assert (existsb (λ i, strict_ne (a !! i) (b !! i)) (seq 0 n) = true) as Ht.
    { apply existsb_exists. exists i. split.
      - apply in_seq. lia.
      - unfold strict_ne. by apply bool_decide_eq_true. }
    congruence.
  - intros H. apply not_true_is_false. intros Ht.
    apply existsb_exists in Ht as (i & Hin & Hne).
    apply in_seq in Hin. unfold strict_ne in Hne.
    apply bool_decide_eq_true in Hne. apply Hne, H. lia.
Qed.

Lemma agree_take (a b : list PathItem) (n : nat) :
  (n ≤ List.length a)%nat → (n ≤ List.length b)%nat →
  (∀ i : nat, (i < n)%nat → a !! i = b !! i) → take n a = take n b.
Proof.
  intros Ha Hb H. apply list_eq. intros i.
  destruct (decide (i < n)%nat).
  - rewrite !lookup_take_lt by done. by apply H.
  - rewrite !lookup_take_ge by lia. done.
Qed.

Lemma last_lookup_pred (l : list PathItem) :
  last l = l !! (List.length l - 1)%nat.
Proof. rewrite last_lookup. f_equal. lia. Qed.

Lemma comparable_spec (base loc : t) :
  comparable base loc = true
  ↔ (1 ≤ length base ≤ length loc)%nat
    ∧ ∀ i : nat, (i < length base - 1)%nat → path base !! i = path loc !! i.
Proof.
  unfold comparable. rewrite !andb_true_iff, negb_true_iff, agree_before.
  rewrite !Nat.leb_le. tauto.
Qed.

(** The code's decision, as one equation: past the guards the result is
    decided by the two components at depth [length base - 1]. *)
Lemma transform_unfold (base loc : t) (delta : Z) :
  transform base loc delta =
    if comparable base loc
    then match last (path base), path loc !! (length base - 1)%nat with
         | Some (PIndex bl), Some (PIndex o) =>
             if bl <=? o then shifted base loc o delta else loc
         | _, _ => loc
         end
    else loc.
Proof.
  destruct (comparable base loc) eqn:Hc.
  - apply comparable_spec in Hc as [Hlen Hag].
    destruct base as [b], loc as [l].
    unfold transform, shifted, length in *. simpl in *.
    destruct (Nat.ltb_spec (List.length l) (List.length b)); [lia|].
    destruct (Nat.eqb_spec (List.length b) 0); [lia|].
    destruct (Nat.eqb_spec (List.length l) 0); [lia|]. simpl.
    apply agree_before in Hag as Hex. rewrite Hex.
    rewrite last_lookup_pred.
    destruct (b !! _) as [[bl|]|] eqn:Hb; try done.
    destruct (l !! (List.length b - 1)%nat) as [[o|]|] eqn:Hl; try done.
    assert (take (List.length b - 1) b = take (List.length b - 1) l) as Htk
      by (apply agree_take; [lia | lia | done]).
    rewrite Htk.
    assert (drop (List.length b) l = drop (S (List.length b - 1)) l) as ->
      by (f_equal; lia).
    destruct (bl <=? o).
    + f_equal. rewrite insert_take_drop by (apply lookup_lt_Some in Hl; lia). done.
    + f_equal. simpl. by rewrite take_drop_middle.
  - unfold comparable in Hc. unfold transform.
    destruct (Nat.ltb_spec (length loc) (length base)); [done|].
    destruct (Nat.eqb_spec (length base) 0); [done|].
    destruct (Nat.eqb_spec (length loc) 0); [done|]. simpl.
    destruct (existsb _ _); [done|].
    apply andb_false_iff in Hc as [Hc|Hc]; [|done].
    apply andb_false_iff in Hc as [Hc|Hc]; apply Nat.leb_gt in Hc; lia.
Qed.

Lemma shifts_spec (base loc : t) (o : Z) :
  shifts base loc o
  ↔ comparable base loc = true
    ∧ ∃ bl, last (path base) = Some (PIndex bl)
            ∧ path loc !! (length base - 1)%nat = Some (PIndex o) ∧ bl ≤ o.
Proof.
  rewrite comparable_spec. unfold shifts. split.
  - intros (bl & Hl & Ho & Hag & Hle). split; [split; [|done]|by eauto].
    apply lookup_lt_Some in Ho. unfold length in *.
    destruct (path base); [done|]. simpl in *. lia.
  - intros ([_ Hag] & bl & Hl & Ho & Hle). eauto 10.
Qed.

(** C5. [transform(base, loc, delta)] moves loc's index at depth
    [length base - 1] by [delta] exactly when base and loc agree before
    that depth, both components there are numbers and base's last index
    is at most loc's; in every other case it answers [loc]. *)
Theorem transform_shifts_iff (base loc : t) (delta : Z) :
  (∀ o, shifts base loc o → transform base loc delta = shifted base loc o delta)
  ∧ ((∀ o, ¬ shifts base loc o) → transform base loc delta = loc)
  ∧ (delta ≠ 0 → (∃ o, shifts base loc o) ↔ transform base loc delta ≠ loc).
Proof.
  assert (∀ o, shifts base loc o →
               transform base loc delta = shifted base loc o delta) as Hyes.
  { intros o (Hc & bl & Hl & Ho & Hle)%shifts_spec.
    rewrite transform_unfold, Hc, Hl, Ho.
    destruct (Z.leb_spec bl o); [done | lia]. }
  assert ((∀ o, ¬ shifts base loc o) → transform base loc delta = loc) as Hno.
  { intros Hn. rewrite transform_unfold.
    destruct (comparable base loc) eqn:Hc; [|done].
    destruct (last (path base)) as [[bl|]|] eqn:Hl; try done.
    destruct (path loc !! _) as [[o|]|] eqn:Ho; try done.
    destruct (Z.leb_spec bl o); [|done].
    destruct (Hn o). apply shifts_spec. eauto 10. }
  split; [done|]. split; [done|].
  intros Hd. split.
  - intros [o Ho]. rewrite (Hyes o Ho).
    destruct Ho as (_ & _ & Ho & _). destruct loc as [l].
    unfold shifted. simpl in *. intros [= Heq].
    apply (f_equal (λ l, l !! (length base - 1)%nat)) in Heq.
    rewrite list_lookup_insert_eq in Heq by (by apply lookup_lt_Some in Ho).
    rewrite Ho in Heq. injection Heq. lia.
  - intros Hne. rewrite transform_unfold in Hne.
    destruct (comparable base loc) eqn:Hc; [|done].
    destruct (last (path base)) as [[bl|]|] eqn:Hl; try done.
    destruct (path loc !! _) as [[o|]|] eqn:Ho; try done.
    destruct (Z.leb_spec bl o); [|done].
    exists o. apply shifts_spec. eauto 10.
Qed.

Lemma transform_shifts_iff_witness :
  transform (mk [PIndex 1; PIndex 2]) (mk [PIndex 1; PIndex 3; PAttr "textContent"]) 1
  = mk [PIndex 1; PIndex 4; PAttr "textContent"].
Proof.
  apply (proj1 (transform_shifts_iff
                  (mk [PIndex 1; PIndex 2])
                  (mk [PIndex 1; PIndex 3; PAttr "textContent"]) 1) 3).
  exists 2. split; [reflexivity|]. split; [reflexivity|]. split; [|lia].
  intros i Hi. simpl in Hi. destruct i; [reflexivity | lia].
Defined.

Lemma comparable_shifted (base loc : t) (o d : Z) :
  comparable base loc = true →
  comparable base (shifted base loc o d) = true.
Proof.
  rewrite !comparable_spec. unfold shifted, length. simpl.
  rewrite length_insert. intros [Hlen Hag]. split; [done|].
  intros i Hi. rewrite list_lookup_insert_ne by lia. by apply Hag.
Qed.

(** Shifting up and then down against the same base gives back the
    location, whatever it is. *)
Lemma transform_up_down (base loc : t) :
  transform base (transform base loc 1) (-1) = loc.
Proof.
  rewrite (transform_unfold base loc).
  destruct (comparable base loc) eqn:Hc;
    [|rewrite transform_unfold, Hc; done].
  destruct (last (path base)) as [[bl|]|] eqn:Hl;
    try (rewrite transform_unfold, Hc, Hl; done).
  destruct (path loc !! (length base - 1)%nat) as [[o|]|] eqn:Ho;
    try (rewrite transform_unfold, Hc, Hl, Ho; done).
  destruct (Z.leb_spec bl o) as [Hle|Hgt].
  - rewrite transform_unfold, comparable_shifted, Hl by done.
    unfold shifted at 1. simpl.
    rewrite list_lookup_insert_eq by (by apply lookup_lt_Some in Ho).
    destruct (Z.leb_spec bl (o + 1)); [|lia].
    destruct loc as [l]. unfold shifted. simpl in *. f_equal.
    rewrite list_insert_insert_eq.
    replace (o + 1 + -1) with o by lia. by apply list_insert_id.
  - rewrite transform_unfold, Hc, Hl, Ho.
    destruct (Z.leb_spec bl o); [lia | done].
Qed.

Section Equality.
Variable hashIntArrays : list Z → Z.

Lemma equals_spec (a b : t) : equals hashIntArrays a b = true ↔ a = b.
Proof.
  unfold equals. split.
  - destruct (Nat.eqb_spec (length a) (length b)) as [Hlen|]; [simpl|done].
    destruct (Z.eqb _ _); [simpl|done].
    rewrite negb_true_iff, agree_before. intros Hag.
    destruct a as [a], b as [b]. unfold length in *. simpl in *. f_equal.
    apply list_eq. intros i. destruct (decide (i < List.length a)%nat).
    + by apply Hag.
    + rewrite !lookup_ge_None_2 by lia. done.
  - intros ->. rewrite Nat.eqb_refl, Z.eqb_refl. simpl.
    rewrite negb_true_iff, agree_before. done.
Qed.

(** C6. For every base and every location not equal to it, the shift
    by +1 followed by the shift by -1 against the same base is the
    identity. *)
Theorem transform_roundtrip (base loc : t) :
  equals hashIntArrays loc base = false →
  transform base (transform base loc 1) (-1) = loc.
Proof. intros _. apply transform_up_down. Qed.
End Equality.

Lemma transform_roundtrip_witness :
  equals (foldr Z.add 0) (mk [PIndex 0; PIndex 5]) (mk [PIndex 0; PIndex 2]) = false
  ∧ transform (mk [PIndex 0; PIndex 2])
      (transform (mk [PIndex 0; PIndex 2]) (mk [PIndex 0; PIndex 5]) 1) (-1)
    = mk [PIndex 0; PIndex 5].
Proof.
  split; [reflexivity|].
  apply (transform_roundtrip (foldr Z.add 0)). reflexivity.
Defined.
End NodeLocationFacts.

(** ** Deltas *)

Module DeltaFacts.
Import Delta.
Local Open Scope nat_scope.

Implicit Types (s : string) (a : AttributesObject) (l acc this : list Op).

Lemma explode_app s s' a : explode (s +:+ s') a = explode s a ++ explode s' a.
Proof. induction s as [|c s IH]; simpl; [done | by rewrite IH]. Qed.

Lemma explode_take n s a : explode (str_take n s) a = take n (explode s a).
Proof.
  revert n. induction s as [|c s IH]; intros [|n]; simpl; try done.
  by rewrite IH.
Qed.

Lemma explode_drop n s a : explode (str_drop n s) a = drop n (explode s a).
Proof.
  revert n. induction s as [|c s IH]; intros [|n]; simpl; try done.
Qed.

Lemma length_explode s a : List.length (explode s a) = String.length s.
Proof. induction s as [|c s IH]; simpl; [done | by rewrite IH]. Qed.

Lemma explode_fmap s a a' :
  formatChar a' <$> explode s a = explode s (composeAttributes a a' false).
Proof. induction s as [|c s IH]; simpl; [done | by rewrite <- IH]. Qed.

Lemma str_take_nonempty n s :
  n ≠ 0 → s ≠ EmptyString → str_take n s ≠ EmptyString.
Proof. destruct n, s; simpl; done. Qed.

Lemma str_drop_nonempty n s :
  n < String.length s → str_drop n s ≠ EmptyString.
Proof.
  revert n. induction s as [|c s IH]; intros [|n]; simpl; try lia; try done.
  intros. apply IH. lia.
Qed.

Lemma str_drop_length n s :
  String.length (str_drop n s) = String.length s - n.
Proof.
  revert n. induction s as [|c s IH]; intros [|n]; simpl; try done.
Qed.

Lemma app_nonempty s s' : s ≠ EmptyString → s +:+ s' ≠ EmptyString.
Proof. destruct s; simpl; done. Qed.

(** *** The text behind the ops *)

Lemma charsOps_app l l' : charsOps (l ++ l') = charsOps l ++ charsOps l'.
Proof.
  induction l as [|[s a|n a|n] l IH]; simpl; try done.
  by rewrite IH, app_assoc.
Qed.

Lemma charsOps_mergeInto x y :
  charsOps (mergeInto x y) = charsOps [x] ++ charsOps [y].
Proof.
  destruct x as [s a|n a|n], y as [s' a'|n' a'|n']; simpl;
    try case_decide; subst; simpl; rewrite ?app_nil_r, ?explode_app; done.
Qed.

Lemma pushOps_cons3 x y z l op :
  pushOps (x :: y :: z :: l) op = x :: pushOps (y :: z :: l) op.
Proof. done. Qed.

Lemma charsOps_pushOps l op :
  charsOps (pushOps l op) = charsOps l ++ charsOps [op].
Proof.
  induction l as [|x [|y [|z l]] IH].
  - done.
  - destruct x as [s a|n a|n], op as [s' a'|n' a'|n'];
      try apply charsOps_mergeInto. simpl. by rewrite app_nil_r.
  - destruct y as [s a|n a|n], op as [s' a'|n' a'|n'];
      try (change (pushOps [x; ?y] ?op) with (x :: mergeInto y op);
           change (x :: ?r) with ([x] ++ r);
           rewrite !charsOps_app, charsOps_mergeInto, <- app_assoc; done).
    change (pushOps [x; Delete n] (Insert s' a'))
      with (mergeInto x (Insert s' a') ++ [Delete n]).
    rewrite charsOps_app, charsOps_mergeInto.
    change [x; Delete n] with ([x] ++ [Delete n]).
    rewrite charsOps_app. simpl. by rewrite !app_nil_r.
  - rewrite pushOps_cons3.
    change (x :: ?r) with ([x] ++ r).
    rewrite !charsOps_app, IH, app_assoc. done.
Qed.

(** *** Documents *)

Local Abbreviation docOps l := (forallb isInsert l = true).

Lemma isInsert_Insert s a : isInsert (Insert s a) = true ↔ s ≠ EmptyString.
Proof. simpl. rewrite negb_true_iff, bool_decide_eq_false. done. Qed.

Lemma nonempty_true s : s ≠ EmptyString → negb (bool_decide (s = EmptyString)) = true.
Proof. intros. by rewrite negb_true_iff, bool_decide_eq_false. Qed.

Lemma docOps_cons op l : docOps (op :: l) ↔ isInsert op = true ∧ docOps l.
Proof. simpl. apply andb_true_iff. Qed.

Lemma docOps_app l l' : docOps (l ++ l') ↔ docOps l ∧ docOps l'.
Proof. rewrite forallb_app. apply andb_true_iff. Qed.

Lemma docOps_mergeInto x y :
  isInsert x = true → isInsert y = true → docOps (mergeInto x y).
Proof.
  destruct x as [s a| |], y as [s' a'| |]; try done.
  intros Hx Hy. simpl. case_decide.
  - apply docOps_cons. split; [|done].
    apply isInsert_Insert, app_nonempty. by apply isInsert_Insert in Hx.
  - apply docOps_cons. split; [done|]. apply docOps_cons. done.
Qed.

Lemma pushOps_last_insert x op :
  isInsert x = true → pushOps [x] op = mergeInto x op.
Proof. destruct x, op; done. Qed.

Lemma pushOps_pair_insert x y op :
  isInsert y = true → pushOps [x; y] op = x :: mergeInto y op.
Proof. destruct y, op; done. Qed.

Lemma docOps_pushOps l op :
  docOps l → isInsert op = true → docOps (pushOps l op).
Proof.
  intros Hl Hop. induction l as [|x [|y [|z l]] IH].
  - simpl. by rewrite Hop.
  - apply docOps_cons in Hl as [Hx _].
    rewrite pushOps_last_insert by done. by apply docOps_mergeInto.
  - apply docOps_cons in Hl as [Hx [Hy _]%docOps_cons].
    rewrite pushOps_pair_insert by done.
    apply docOps_cons. split; [done|]. by apply docOps_mergeInto.
  - rewrite pushOps_cons3. apply docOps_cons in Hl as [Hx Hl].
    apply docOps_cons. split; [done|]. by apply IH.
Qed.

Lemma length_charsOps l :
  docOps l → List.length (charsOps l) = length (mk l).
Proof.
  unfold length. simpl. induction l as [|[s a| |] l IH]; try done.
  intros [_ Hl]%docOps_cons. simpl.
  rewrite length_app, length_explode, IH by done. done.
Qed.

Lemma chopOps_doc l : docOps l → chopOps l = l.
Proof.
  intros Hl. unfold chopOps.
  destruct (last l) as [[| |]|] eqn:Hlast; try done.
  apply last_Some in Hlast as [l' ->].
  apply docOps_app in Hl as [_ Hl]. done.
Qed.

Lemma composeAttributes_empty a : composeAttributes a ∅ false = a.
Proof.
  unfold composeAttributes.
  rewrite map_filter_empty, map_difference_empty, (left_id_L ∅ (∪)). done.
Qed.

(** *** [compose] on a document *)

Lemma composeRetain_unfold n a this acc :
  composeRetain n a this acc =
    if Nat.eqb n 0 then (acc, this) else
    match this with
    | [] => (pushOps acc (Retain n (composeAttributes ∅ a true)), [])
    | Delete m :: r => composeRetain n a r (pushOps acc (Delete m))
    | Insert s sa :: r =>
        if Nat.ltb n (String.length s)
        then (pushOps acc (Insert (str_take n s) (composeAttributes sa a false)),
              Insert (str_drop n s) sa :: r)
        else composeRetain (n - String.length s) a r
               (pushOps acc (Insert s (composeAttributes sa a false)))
    | Retain m ra :: r =>
        if Nat.ltb n m
        then (pushOps acc (Retain n (composeAttributes ra a true)),
              Retain (m - n) ra :: r)
        else composeRetain (n - m) a r
               (pushOps acc (Retain m (composeAttributes ra a true)))
    end.
Proof. destruct this; done. Qed.

Lemma composeDelete_unfold n this acc :
  composeDelete n this acc =
    if Nat.eqb n 0 then (acc, this) else
    match this with
    | [] => (pushOps acc (Delete n), [])
    | Delete m :: r => composeDelete n r (pushOps acc (Delete m))
    | Insert s sa :: r =>
        if Nat.ltb n (String.length s)
        then (acc, Insert (str_drop n s) sa :: r)
        else composeDelete (n - String.length s) r acc
    | Retain m ra :: r =>
        if Nat.ltb n m
        then (pushOps acc (Delete n), Retain (m - n) ra :: r)
        else composeDelete (n - m) r (pushOps acc (Delete m))
    end.
Proof. destruct this; done. Qed.

Lemma composeRetain_doc n a this acc :
  docOps this →
  charsOps (composeRetain n a this acc).1
    = charsOps acc ++ (formatChar a <$> take n (charsOps this))
  ∧ charsOps (composeRetain n a this acc).2 = drop n (charsOps this)
  ∧ docOps (composeRetain n a this acc).2
  ∧ (docOps acc → n ≤ List.length (charsOps this) →
     docOps (composeRetain n a this acc).1).
Proof.
  revert n acc. induction this as [|[s sa|m ra|m] r IH]; intros n acc Hthis;
    rewrite composeRetain_unfold; destruct (Nat.eqb_spec n 0) as [->|Hn];
    try (simpl; rewrite ?app_nil_r; done).
  - simpl. rewrite charsOps_pushOps. simpl.
    rewrite take_nil, drop_nil. split; [done|]. split; [done|].
    split; [done|]. intros _ Hle. simpl in Hle. lia.
  - apply docOps_cons in Hthis as [Hs%isInsert_Insert Hr].
    destruct (Nat.ltb_spec n (String.length s)) as [Hlt|Hge]; simpl.
    + rewrite charsOps_pushOps. simpl.
      rewrite app_nil_r, explode_take, explode_drop.
      rewrite take_app_le, drop_app_le by (rewrite length_explode; lia).
      rewrite fmap_take, explode_fmap.
      split; [done|]. split; [done|]. split.
      * apply andb_true_iff. split; [|done].
        apply nonempty_true, str_drop_nonempty. done.
      * intros Hacc _. apply docOps_pushOps; [done|].
        apply isInsert_Insert, str_take_nonempty; done.
    + destruct (IH (n - String.length s)
                  (pushOps acc (Insert s (composeAttributes sa a false))) Hr)
        as (H1 & H2 & H3 & H4).
      rewrite H1, H2, charsOps_pushOps. simpl.
      rewrite app_nil_r.
      rewrite take_app_ge, drop_app_ge by (rewrite length_explode; lia).
      rewrite length_explode, fmap_app, explode_fmap, <- app_assoc.
      split; [done|]. split; [done|]. split; [done|].
      intros Hacc Hle. apply H4.
      * apply docOps_pushOps; [done|]. by apply isInsert_Insert.
      * rewrite length_app, length_explode in Hle. lia.
Qed.

Lemma composeDelete_doc n this acc :
  docOps this → n ≤ List.length (charsOps this) →
  (composeDelete n this acc).1 = acc
  ∧ charsOps (composeDelete n this acc).2 = drop n (charsOps this)
  ∧ docOps (composeDelete n this acc).2.
Proof.
  revert n acc. induction this as [|[s sa|m ra|m] r IH]; intros n acc Hthis Hle;
    rewrite composeDelete_unfold; destruct (Nat.eqb_spec n 0) as [->|Hn];
    try (simpl in *; done || lia).
  apply docOps_cons in Hthis as [Hs%isInsert_Insert Hr].
  simpl in Hle. rewrite length_app, length_explode in Hle.
  destruct (Nat.ltb_spec n (String.length s)) as [Hlt|Hge]; simpl.
  - rewrite explode_drop, drop_app_le by (rewrite length_explode; lia).
    split; [done|]. split; [done|].
    apply andb_true_iff. split; [|done].
    apply nonempty_true, str_drop_nonempty. done.
  - destruct (IH (n - String.length s) acc Hr) as (H1 & H2 & H3); [lia|].
    rewrite H1, H2.
    rewrite drop_app_ge by (rewrite length_explode; lia).
    rewrite length_explode. done.
Qed.

Lemma charsOps_foldl_push this acc :
  charsOps (foldl pushOps acc this) = charsOps acc ++ charsOps this.
Proof.
  revert acc. induction this as [|op r IH]; intros acc; simpl.
  - by rewrite app_nil_r.
  - rewrite IH, charsOps_pushOps.
    rewrite <- app_assoc. f_equal. symmetry. apply (charsOps_app [op] r).
Qed.

Lemma docOps_foldl_push this acc :
  docOps acc → docOps this → docOps (foldl pushOps acc this).
Proof.
  revert acc. induction this as [|op r IH]; intros acc Hacc Hthis; [done|].
  apply docOps_cons in Hthis as [Hop Hr]. simpl.
  apply IH; [|done]. by apply docOps_pushOps.
Qed.

Lemma composeLoop_doc this other acc :
  docOps this → docOps acc →
  fits other (List.length (charsOps this)) = true →
  charsOps (composeLoop this other acc)
    = charsOps acc ++ applyChars (charsOps this) other
  ∧ docOps (composeLoop this other acc).
Proof.
  revert this acc.
  induction other as [|[s a|n a|n] o IH]; intros this acc Hthis Hacc Hfit;
    simpl in *.
  - split; [apply charsOps_foldl_push | by apply docOps_foldl_push].
  - apply andb_true_iff in Hfit as [Hs Hfit].
    destruct (IH this (pushOps acc (Insert s a))) as [H1 H2]; try done.
    { apply docOps_pushOps; done. }
    rewrite H1, charsOps_pushOps. simpl.
    by rewrite app_nil_r, <- app_assoc.
  - apply andb_true_iff in Hfit as [Hn%Nat.leb_le Hfit].
    destruct (composeRetain_doc n a this acc Hthis) as (H1 & H2 & H3 & H4).
    destruct (composeRetain n a this acc) as [acc' this']. simpl in *.
    destruct (IH this' acc') as [H5 H6]; try done; [by apply H4| |].
    { by rewrite H2, length_drop. }
    by rewrite H5, H1, H2, <- app_assoc.
  - apply andb_true_iff in Hfit as [Hn%Nat.leb_le Hfit].
    destruct (composeDelete_doc n this acc Hthis Hn) as (H1 & H2 & H3).
    destruct (composeDelete n this acc) as [acc' this']. simpl in *. subst acc'.
    destruct (IH this' acc) as [H5 H6]; try done.
    { by rewrite H2, length_drop. }
    by rewrite H5, H2.
Qed.

(** Composing a change that fits onto a document gives a document, and
    its text is the change applied to the text. *)
Lemma compose_document (d other : t) :
  isDocument d = true → fits (ops other) (length d) = true →
  chars (compose d other) = applyChars (chars d) (ops other)
  ∧ isDocument (compose d other) = true.
Proof.
  destruct d as [l]. unfold isDocument, chars, compose. simpl.
  intros Hd Hfit. rewrite <- length_charsOps in Hfit by done.
  destruct (composeLoop_doc l (ops other) [] Hd eq_refl Hfit) as [H1 H2].
  rewrite chopOps_doc by done. done.
Qed.

(** *** [slice] on a document *)

Lemma charsOps_insert s a r :
  charsOps (Insert s a :: r) = explode s a ++ charsOps r.
Proof. done. Qed.

Lemma skipOps_doc n l :
  docOps l →
  charsOps (skipOps n l) = drop n (charsOps l) ∧ docOps (skipOps n l).
Proof.
  revert n. induction l as [|[s a|m ra|m] r IH]; intros n Hl; try done.
  - destruct n; done.
  - destruct n as [|n]; [done|].
    apply docOps_cons in Hl as [Hs Hr].
    change (skipOps (S n) (Insert s a :: r))
      with (if Nat.leb (String.length s) (S n)
            then skipOps (S n - String.length s) r
            else Insert (str_drop (S n) s) a :: r).
    destruct (Nat.leb_spec (String.length s) (S n)) as [Hle|Hgt]; cbv iota.
    + destruct (IH (S n - String.length s) Hr) as [H1 H2].
      rewrite H1. split; [|done]. rewrite !charsOps_insert.
      rewrite drop_app_ge by (rewrite length_explode; lia).
      by rewrite length_explode.
    + rewrite !charsOps_insert.
      rewrite explode_drop, drop_app_le by (rewrite length_explode; lia).
      split; [done|]. apply docOps_cons. split; [|done].
      apply nonempty_true, str_drop_nonempty. done.
Qed.

Lemma takeOps_doc n l :
  docOps l →
  charsOps (takeOps n l) = take n (charsOps l) ∧ docOps (takeOps n l).
Proof.
  revert n. induction l as [|[s a|m ra|m] r IH]; intros n Hl; try done.
  - destruct n; done.
  - destruct n as [|n]; [done|].
    apply docOps_cons in Hl as [Hs Hr].
    change (takeOps (S n) (Insert s a :: r))
      with (if Nat.leb (String.length s) (S n)
            then Insert s a :: takeOps (S n - String.length s) r
            else [Insert (str_take (S n) s) a]).
    destruct (Nat.leb_spec (String.length s) (S n)) as [Hle|Hgt]; cbv iota.
    + destruct (IH (S n - String.length s) Hr) as [H1 H2].
      rewrite !charsOps_insert. rewrite H1.
      rewrite take_app_ge by (rewrite length_explode; lia).
      rewrite length_explode. split; [done|].
      apply docOps_cons. done.
    + rewrite !charsOps_insert.
      simpl (charsOps []). rewrite app_nil_r, explode_take.
      rewrite take_app_le by (rewrite length_explode; lia).
      split; [done|]. apply docOps_cons. split; [|done].
      apply nonempty_true, str_take_nonempty; [done|].
      by apply isInsert_Insert in Hs.
Qed.

Lemma sliceFrom_document (d : t) n :
  isDocument d = true →
  chars (sliceFrom d n) = drop n (chars d)
  ∧ isDocument (sliceFrom d n) = true.
Proof. apply skipOps_doc. Qed.

Lemma slice_document (d : t) i j :
  isDocument d = true →
  chars (slice d i j) = take (j - i) (drop i (chars d)).
Proof.
  intros Hd. unfold chars, slice. simpl.
  destruct (skipOps_doc i (ops d) Hd) as [H1 H2].
  destruct (takeOps_doc (j - i) _ H2) as [H3 _]. by rewrite H3, H1.
Qed.

Lemma length_chars (d : t) :
  isDocument d = true → List.length (chars d) = length d.
Proof. destruct d. apply length_charsOps. Qed.

(** *** The changes the controller and the view build *)

Lemma fmap_formatChar_empty (cs : list (Ascii.ascii * AttributesObject)) :
  formatChar ∅ <$> cs = cs.
Proof.
  induction cs as [|[c a] cs IH]; [done|].
  rewrite fmap_cons, IH. unfold formatChar. simpl.
  by rewrite composeAttributes_empty.
Qed.

Lemma retain_delete_ops k m :
  ops (delete (retain empty k ∅) m)
  = (if Nat.eqb k 0 then [] else [Retain k ∅])
      ++ (if Nat.eqb m 0 then [] else [Delete m]).
Proof. destruct k, m; done. Qed.

Lemma applyChars_retain_delete cs k m :
  applyChars cs (ops (delete (retain empty k ∅) m))
  = take k cs ++ drop (k + m) cs.
Proof.
  rewrite retain_delete_ops. destruct k as [|k], m as [|m]; simpl;
    rewrite ?fmap_formatChar_empty, ?Nat.add_0_r, ?drop_drop, ?take_drop;
    done.
Qed.

Lemma fits_retain_delete k m len :
  k + m ≤ len → fits (ops (delete (retain empty k ∅) m)) len = true.
Proof.
  intros Hle. rewrite retain_delete_ops.
  destruct k as [|k], m as [|m]; cbn [Nat.eqb app fits];
    rewrite ?andb_true_r, ?andb_true_iff, ?Nat.leb_le; try done; lia.
Qed.

Lemma concat_retain_ops k tail :
  docOps tail →
  ops (concat (retain empty k ∅) (mk tail))
  = (if Nat.eqb k 0 then [] else [Retain k ∅]) ++ tail.
Proof.
  intros Ht. unfold concat. simpl.
  destruct tail as [|[s a|m ra|m] r]; try done.
  - destruct k; simpl; by rewrite ?app_nil_r.
  - destruct k; done.
Qed.

Lemma applyChars_inserts cs tail :
  docOps tail → applyChars cs tail = charsOps tail ++ cs.
Proof.
  induction tail as [|[s a|m ra|m] r IH]; try done.
  intros [_ Hr]%docOps_cons. simpl. by rewrite IH, app_assoc.
Qed.

Lemma fits_inserts tail len : docOps tail → fits tail len = true.
Proof.
  induction tail as [|[s a|m ra|m] r IH]; try done.
  intros [Hs Hr]%docOps_cons. simpl. rewrite IH by done.
  by rewrite andb_true_r.
Qed.

(** Cutting a document at [k]: [retain(k).delete(length - k)]. *)
Lemma compose_truncate (d : t) k :
  isDocument d = true → k ≤ length d →
  chars (compose d (delete (retain empty k ∅) (length d - k)))
    = take k (chars d)
  ∧ isDocument (compose d (delete (retain empty k ∅) (length d - k))) = true.
Proof.
  intros Hd Hk.
  destruct (compose_document d (delete (retain empty k ∅) (length d - k)) Hd)
    as [H1 H2]; [apply fits_retain_delete; lia|].
  split; [|done]. rewrite H1, applyChars_retain_delete.
  rewrite drop_ge by (rewrite length_chars by done; lia).
  by rewrite app_nil_r.
Qed.

(** Adding a document [tail] at [k]: [retain(k).concat(tail)]. *)
Lemma compose_concat_at (d tail : t) k :
  isDocument d = true → isDocument tail = true → k ≤ length d →
  chars (compose d (concat (retain empty k ∅) tail))
    = take k (chars d) ++ chars tail ++ drop k (chars d)
  ∧ isDocument (compose d (concat (retain empty k ∅) tail)) = true.
Proof.
  intros Hd Ht Hk. destruct tail as [tl].
  assert (fits (ops (concat (retain empty k ∅) (mk tl))) (length d) = true)
    as Hfit.
  { rewrite concat_retain_ops by done. destruct k; cbn [Nat.eqb app fits].
    - by apply fits_inserts.
    - apply andb_true_iff. split; [by apply Nat.leb_le|].
      by apply fits_inserts. }
  destruct (compose_document d _ Hd Hfit) as [H1 H2].
  split; [|done]. rewrite H1, concat_retain_ops by done.
  destruct k; simpl.
  - rewrite applyChars_inserts by done. by rewrite drop_0.
  - rewrite applyChars_inserts, fmap_formatChar_empty by done. done.
Qed.
End DeltaFacts.

(** ** The state under changesets, and the controller *)

Module StateFacts.
Import Data Changeset.

Implicit Types (b : BlockDataElement) (l pre post mid : list BlockDataElement)
  (i : string) (d : BlockyDocument).

Lemma hasId_true i b : hasId i b = true ↔ id b = i.
Proof. apply bool_decide_eq_true. Qed.

Lemma hasId_false i b : hasId i b = false ↔ id b ≠ i.
Proof. apply bool_decide_eq_false. Qed.

Lemma hasId_self b : hasId (id b) b = true.
Proof. by apply hasId_true. Qed.

Lemma notin_ids_cons i b l :
  i ∉ id <$> (b :: l) ↔ id b ≠ i ∧ i ∉ id <$> l.
Proof. rewrite fmap_cons, not_elem_of_cons. split; intros [? ?]; split; done. Qed.

(** *** The block index *)

Lemma find_skip i pre l :
  i ∉ id <$> pre → List.find (hasId i) (pre ++ l) = List.find (hasId i) l.
Proof.
  induction pre as [|x pre IH]; [done|].
  intros [Hx Hpre]%notin_ids_cons. simpl.
  apply hasId_false in Hx. rewrite Hx. by apply IH.
Qed.

Lemma find_middle pre b post :
  id b ∉ id <$> pre → List.find (hasId (id b)) (pre ++ b :: post) = Some b.
Proof. intros H. rewrite find_skip by done. simpl. by rewrite hasId_self. Qed.

Lemma startingAt_middle pre b post :
  id b ∉ id <$> pre → startingAt (id b) (pre ++ b :: post) = b :: post.
Proof.
  induction pre as [|x pre IH]; simpl.
  - by rewrite hasId_self.
  - intros [Hx Hpre]%notin_ids_cons.
    apply hasId_false in Hx. rewrite Hx. by apply IH.
Qed.

(** *** Operations, seen on the list of block elements *)

Lemma blockElements_textEdit d i dl :
  blockElements (applyOperation d (TextEdit i dl))
  = editText i dl <$> blockElements d.
Proof.
  unfold blockElements. simpl. rewrite fmap_app.
  by destruct (title d).
Qed.

Lemma blockElements_removeNode d i :
  blockElements (applyOperation d (RemoveNode i))
  = keepOthers i (blockElements d).
Proof.
  unfold blockElements. simpl. unfold keepOthers. rewrite List.filter_app.
  destruct (title d) as [b|]; simpl; [|done].
  by destruct (hasId i b).
Qed.

Lemma editText_other i dl b : id b ≠ i → editText i dl b = b.
Proof. intros H%hasId_false. unfold editText. by rewrite H. Qed.

Lemma editText_notin i dl l : i ∉ id <$> l → editText i dl <$> l = l.
Proof.
  induction l as [|x l IH]; [done|].
  intros [Hx Hl]%notin_ids_cons.
  rewrite fmap_cons, editText_other, IH by done. done.
Qed.

Lemma keepOthers_notin i l : i ∉ id <$> l → keepOthers i l = l.
Proof.
  induction l as [|x l IH]; [done|].
  intros [Hx%hasId_false Hl]%notin_ids_cons.
  unfold keepOthers in *. simpl. rewrite Hx. simpl. by rewrite IH.
Qed.

Lemma keepOthers_app i l l' :
  keepOthers i (l ++ l') = keepOthers i l ++ keepOthers i l'.
Proof. apply List.filter_app. Qed.

Lemma keepOthers_cons_self b l : keepOthers (id b) (b :: l) = keepOthers (id b) l.
Proof. unfold keepOthers. simpl. by rewrite hasId_self. Qed.

Lemma editText_middle pre b post dl :
  id b ∉ id <$> pre → id b ∉ id <$> post →
  editText (id b) dl <$> (pre ++ b :: post)
  = pre ++ editText (id b) dl b :: post.
Proof.
  intros Hpre Hpost.
  rewrite fmap_app, fmap_cons, !editText_notin by done. done.
Qed.

Lemma keepOthers_middle pre b post :
  id b ∉ id <$> pre → id b ∉ id <$> post →
  keepOthers (id b) (pre ++ b :: post) = pre ++ post.
Proof.
  intros Hpre Hpost.
  rewrite keepOthers_app, keepOthers_cons_self, !keepOthers_notin by done.
  done.
Qed.

Lemma editText_text i b dl m :
  id b = i → textContent b = Some m →
  editText i dl b
  = mkBlock (t b) (id b) (Some (mkTextModel (Delta.compose (delta m) dl)))
            (attributes b).
Proof.
  intros Hi Hm. unfold editText.
  apply hasId_true in Hi. rewrite Hi, Hm. done.
Qed.

Lemma blockElements_remove_between d mid pre post :
  blockElements d = pre ++ mid ++ post →
  NoDup (id <$> mid) →
  (∀ x, x ∈ mid → (id x ∉ id <$> pre) ∧ (id x ∉ id <$> post)) →
  blockElements
    (foldl applyOperation d ((λ x, RemoveNode (id x)) <$> mid))
  = pre ++ post.
Proof.
  revert d. induction mid as [|x mid IH]; intros d Hd Hnd Hout; [done|].
  rewrite fmap_cons in Hnd. apply NoDup_cons in Hnd as [Hx Hnd].
  destruct (Hout x) as [Hpre Hpost]; [by left|].
  rewrite fmap_cons. cbn [foldl]. apply IH; [|done|].
  - rewrite blockElements_removeNode, Hd. simpl.
    apply keepOthers_middle; [done|].
    rewrite fmap_app, not_elem_of_app. done.
  - intros y Hy. apply Hout. by right.
Qed.

Lemma operations_removeNodes (cs : changeset) mid :
  operations (foldl removeNode cs mid)
  = operations cs ++ ((λ x, RemoveNode (id x)) <$> mid)
  ∧ afterCursor (foldl removeNode cs mid) = afterCursor cs.
Proof.
  revert cs. induction mid as [|x mid IH]; intros cs; simpl.
  - by rewrite app_nil_r.
  - destruct (IH (removeNode cs x)) as [-> ->]. simpl.
    by rewrite <- app_assoc.
Qed.

(** What distinct ids give for a document [pre ++ b1 :: mid ++ b3 :: post]. *)
Lemma distinct_ids pre b1 mid b3 post :
  NoDup (id <$> (pre ++ b1 :: mid ++ b3 :: post)) →
  (id b1 ∉ id <$> pre) ∧ (id b1 ∉ id <$> mid) ∧ id b1 ≠ id b3
  ∧ (id b1 ∉ id <$> post)
  ∧ (id b3 ∉ id <$> pre) ∧ (id b3 ∉ id <$> mid) ∧ (id b3 ∉ id <$> post)
  ∧ NoDup (id <$> mid)
  ∧ (∀ x, x ∈ mid → (id x ∉ id <$> pre) ∧ (id x ∉ id <$> post)).
Proof.
  rewrite fmap_app, fmap_cons, fmap_app, fmap_cons.
  intros (Hpre & Hdisj & Hrest)%NoDup_app.
  apply NoDup_cons in Hrest as [Hb1 Hrest].
  apply NoDup_app in Hrest as (Hmid & Hdisj' & Hrest).
  apply NoDup_cons in Hrest as [Hb3 Hpost].
  assert (∀ x, x ∈ mid → id x ∈ id <$> mid) as Hin
    by (intros; by apply list_elem_of_fmap_2).
  apply not_elem_of_app in Hb1 as [Hb1m Hb1r].
  apply not_elem_of_cons in Hb1r as [H13 Hb1post].
  split. { intros H. apply (Hdisj _ H). left. }
  split; [done|]. split; [done|]. split; [done|].
  split. { intros H. apply (Hdisj _ H). right. apply elem_of_app. right. left. }
  split. { intros H. apply (Hdisj' _ H). left. }
  split; [done|]. split; [done|].
  intros x Hx. split.
  - intros H. apply (Hdisj _ H). right. apply elem_of_app. left. by apply Hin.
  - intros H. apply (Hdisj' _ (Hin x Hx)). by right.
Qed.
End StateFacts.

Module ControllerFacts.
Import Data Registry Controller StateFacts.

(** C10. [deleteBlock(id)] applies a removal changeset only when an
    editor is mounted, [id] maps to a live block element and its type
    tag starts with an uppercase letter; in every other case the
    controller, and with it the document tree, the block index, the
    cursor and the version, is as before. *)
Theorem deleteBlock_frame (c : EditorController) (i : string) :
  (removable c i →
     ∃ b, getBlockElementById (state c) i = Some b
          ∧ deleteBlock c i
            = withState c
                (Changeset.apply (Changeset.removeNode Changeset.new b)
                   (Changeset.mkOptions true) (state c))
          ∧ version (state (deleteBlock c i)) = version (state c) + 1)
  ∧ (¬ removable c i →
       deleteBlock c i = c
       ∧ document (state (deleteBlock c i)) = document (state c)
       ∧ (∀ j, getBlockElementById (state (deleteBlock c i)) j
               = getBlockElementById (state c) j)
       ∧ cursorState (state (deleteBlock c i)) = cursorState (state c)
       ∧ version (state (deleteBlock c i)) = version (state c)).
Proof.
  unfold removable, deleteBlock. split.
  - intros (He & b & Hb & Hu). exists b. rewrite He, Hb, Hu. simpl. done.
  - intros Hn.
    assert (deleteBlock c i = c) as Heq.
    { unfold deleteBlock. destruct (editor c) eqn:He; [simpl|done].
      destruct (getBlockElementById (state c) i) as [b|] eqn:Hb; [|done].
      destruct (isUpperCase (t b)) eqn:Hu; [|done].
      destruct Hn. eauto. }
    unfold deleteBlock in Heq. rewrite Heq. done.
Qed.

(** *** Deleting the selected content *)

Lemma sameNode_true a b : sameNode a b = true ↔ id a = id b.
Proof. apply bool_decide_eq_true. Qed.

Lemma sameNode_false a b : sameNode a b = false ↔ id a ≠ id b.
Proof. apply bool_decide_eq_false. Qed.

Lemma isTextLike_Some b m : textContent b = Some m → isTextLike b = true.
Proof. intros H. apply bool_decide_eq_true. by rewrite H. Qed.

(** The walk over the nodes after the start node: every node before the
    end node is removed, at the end node the tail is added to the start
    node and the end node is removed, and the walk stops. *)
Lemma deleteWalk_between mid b1 b3 post cur cs m3 :
  id b1 ≠ id b3 →
  (id b1 ∉ id <$> mid) → (id b3 ∉ id <$> mid) →
  textContent b3 = Some m3 →
  deleteWalk (mid ++ b3 :: post) b1 (Some b3) cur cs
  = Ok (Changeset.removeNode
          (Changeset.textEdit (foldl Changeset.removeNode cs mid) b1
             (Delta.concat
                (Delta.retain Delta.empty (startOffset cur) ∅)
                (Delta.sliceFrom (delta m3) (endOffset cur))))
          b3).
Proof.
  intros H13 H1 H3 Hm3. revert cs.
  induction mid as [|x mid IH]; intros cs.
  - cbn [app deleteWalk foldl].
    apply sameNode_false in H13. rewrite H13. cbn [andb].
    rewrite (proj2 (sameNode_true b3 b3) eq_refl).
    rewrite (isTextLike_Some _ _ Hm3). cbn [andb].
    unfold getTextModel. rewrite Hm3. done.
  - apply notin_ids_cons in H1 as [Hx1 H1].
    apply notin_ids_cons in H3 as [Hx3 H3].
    cbn [app deleteWalk foldl].
    rewrite (proj2 (sameNode_false b1 x)) by done. cbn [andb].
    rewrite (proj2 (sameNode_false b3 x)) by done. cbn [andb].
    rewrite (proj2 (sameNode_false x b3)) by done.
    cbn. by apply IH.
Qed.

(** The text of the start block after the two edits of the walk. *)
Lemma merged_text (d1 d3 : Delta.t) (k e : nat) :
  Delta.isDocument d1 = true → Delta.isDocument d3 = true →
  (k ≤ Delta.length d1)%nat →
  Delta.chars
    (Delta.compose
       (Delta.compose d1
          (Delta.delete (Delta.retain Delta.empty k ∅) (Delta.length d1 - k)))
       (Delta.concat (Delta.retain Delta.empty k ∅) (Delta.sliceFrom d3 e)))
  = take k (Delta.chars d1) ++ drop e (Delta.chars d3).
Proof.
  intros Hd1 Hd3 Hk.
  destruct (DeltaFacts.compose_truncate d1 k Hd1 Hk) as [Hc1 Hdoc1].
  destruct (DeltaFacts.sliceFrom_document d3 e Hd3) as [Hc3 Hdoc3].
  assert (List.length (Delta.chars d1) = Delta.length d1) as Hlen
    by (by apply DeltaFacts.length_chars).
  destruct (DeltaFacts.compose_concat_at _ _ k Hdoc1 Hdoc3) as [Hc _].
  { rewrite <- DeltaFacts.length_chars, Hc1, length_take by done. lia. }
  rewrite Hc, Hc1, Hc3.
  rewrite take_take, Nat.min_id.
  rewrite (drop_ge (take k _)) by (rewrite length_take; lia).
  by rewrite app_nil_r.
Qed.

Lemma deleteContent_across_blocks (c : EditorController)
    (pre mid post : list BlockDataElement) (b1 b3 : BlockDataElement)
    (m1 m3 : BlockyTextModel) (k e : nat) :
  blockElements (document (state c)) = pre ++ b1 :: mid ++ b3 :: post →
  NoDup (id <$> blockElements (document (state c))) →
  textContent b1 = Some m1 → textContent b3 = Some m3 →
  Delta.isDocument (delta m1) = true → Delta.isDocument (delta m3) = true →
  (k ≤ textLength m1)%nat →
  ∃ c' m',
    deleteContentInsideInSelection c (mkCursor (id b1) k (id b3) e)
    = Ok (c', Some (collapse (id b1) k))
    ∧ blockElements (document (state c'))
      = pre ++ mkBlock (t b1) (id b1) (Some m') (attributes b1) :: post
    ∧ Delta.chars (delta m')
      = take k (Delta.chars (delta m1)) ++ drop e (Delta.chars (delta m3))
    ∧ cursorState (state c') = Some (collapse (id b1) k).
Proof.
  intros Hdoc Hnd Hm1 Hm3 Hd1 Hd3 Hk. rewrite Hdoc in Hnd.
  destruct (distinct_ids _ _ _ _ _ Hnd)
    as (H1pre & H1mid & H13 & H1post & H3pre & H3mid & H3post & Hmid & Hout).
  assert (getBlockElementById (state c) (id b1) = Some b1) as Hget1.
  { unfold getBlockElementById. rewrite Hdoc. by apply find_middle. }
  assert (getBlockElementById (state c) (id b3) = Some b3) as Hget3.
  { unfold getBlockElementById. rewrite Hdoc.
    rewrite find_skip by done. cbn [List.find].
    rewrite (proj2 (hasId_false (id b3) b1)) by done.
    by apply find_middle. }
  unfold deleteContentInsideInSelection. cbn [startId endId].
  rewrite bool_decide_eq_false_2 by done.
  rewrite Hget1, Hget3. cbn [nonNull mbind Result_bind].
  unfold traverseFrom. rewrite Hdoc, startingAt_middle by done.
  cbn [deleteWalk].
  rewrite (proj2 (sameNode_true b1 b1) eq_refl),
    (isTextLike_Some _ _ Hm1). cbn [andb].
  unfold getTextModel at 1. rewrite Hm1. cbn [nonNull mbind Result_bind].
  rewrite (proj2 (sameNode_false b1 b3)) by done.
  rewrite (deleteWalk_between mid b1 b3 post _ _ m3) by done.
  cbn [mbind Result_bind startOffset endOffset].
  set (cs1 := Changeset.setCursorState _ _).
  assert (Changeset.operations cs1
          = [Changeset.TextEdit (id b1)
               (Delta.delete (Delta.retain Delta.empty k ∅)
                  (textLength m1 - k))]) as Hops1 by done.
  assert (Changeset.afterCursor cs1 = Some (collapse (id b1) k)) as Hcur1
    by done.
  clearbody cs1.
  destruct (operations_removeNodes cs1 mid) as [Hops Hcur].
  cbn [Changeset.afterCursor Changeset.operations Changeset.removeNode
       Changeset.textEdit].
  rewrite Hcur, Hcur1.
  eexists _, (mkTextModel _). split; [reflexivity|].
  cbn [state withState Changeset.apply document cursorState
       Changeset.afterCursor Changeset.operations Changeset.removeNode
       Changeset.textEdit].
  rewrite Hops, Hops1, Hcur, Hcur1.
  split; [|split; [|done]].
  - rewrite <- !app_assoc. cbn [app foldl]. rewrite foldl_app. cbn [foldl].
    set (d1 := Changeset.applyOperation (document (state c)) _).
    assert (blockElements d1
            = (pre ++ [Changeset.editText (id b1)
                         (Delta.delete (Delta.retain Delta.empty k ∅)
                            (textLength m1 - k)) b1])
                ++ mid ++ b3 :: post) as Hd1'.
    { unfold d1. rewrite blockElements_textEdit, Hdoc.
      rewrite editText_middle; [by rewrite <- app_assoc|done|].
      rewrite fmap_app, not_elem_of_app. split; [done|].
      apply notin_ids_cons. done. }
    set (d2 := foldl Changeset.applyOperation d1 _).
    assert (blockElements d2
            = pre ++ Changeset.editText (id b1)
                       (Delta.delete (Delta.retain Delta.empty k ∅)
                          (textLength m1 - k)) b1 :: b3 :: post) as Hd2'.
    { unfold d2.
      rewrite (blockElements_remove_between d1 mid _ (b3 :: post) Hd1' Hmid).
      - by rewrite <- app_assoc.
      - intros x Hx. destruct (Hout x Hx) as [Hxpre Hxpost].
        assert (id x ∈ id <$> mid) as Hxin by (by apply list_elem_of_fmap_2).
        split.
        + rewrite fmap_app, not_elem_of_app. split; [done|].
          apply notin_ids_cons. split; [|apply not_elem_of_nil].
          rewrite (editText_text (id b1) b1 _ m1) by done. simpl.
          intros Heq. apply H1mid. by rewrite Heq.
        + apply notin_ids_cons. split; [|done].
          intros Heq. apply H3mid. by rewrite Heq. }
    rewrite (editText_text (id b1) b1 _ m1) in Hd2' by done.
    set (b1' := mkBlock _ _ _ _) in Hd2'.
    rewrite blockElements_removeNode, blockElements_textEdit, Hd2'.
    change (id b1) with (id b1') at 1.
    rewrite editText_middle.
    + rewrite (editText_text (id b1') b1' _ _ eq_refl eq_refl).
      cbn [t id attributes delta b1'].
      rewrite (cons_middle _ pre), (app_assoc pre).
      rewrite keepOthers_middle; [by rewrite <- app_assoc| |done].
      rewrite fmap_app, not_elem_of_app. split; [done|].
      apply notin_ids_cons. split; [done|apply not_elem_of_nil].
    + done.
    + apply notin_ids_cons. done.
  - cbn [delta]. by apply merged_text.
Qed.

Lemma deleteContent_within_block (c : EditorController)
    (pre post : list BlockDataElement) (b : BlockDataElement)
    (m : BlockyTextModel) (k e : nat) :
  blockElements (document (state c)) = pre ++ b :: post →
  NoDup (id <$> blockElements (document (state c))) →
  textContent b = Some m →
  Delta.isDocument (delta m) = true →
  (k ≤ e)%nat → (e ≤ textLength m)%nat →
  ∃ c' m',
    deleteContentInsideInSelection c (mkCursor (id b) k (id b) e)
    = Ok (c', Some (collapse (id b) k))
    ∧ blockElements (document (state c'))
      = pre ++ mkBlock (t b) (id b) (Some m') (attributes b) :: post
    ∧ Delta.chars (delta m')
      = take k (Delta.chars (delta m)) ++ drop e (Delta.chars (delta m))
    ∧ cursorState (state c') = Some (collapse (id b) k).
Proof.
  intros Hdoc Hnd Hm Hd Hke He. rewrite Hdoc in Hnd.
  rewrite fmap_app, fmap_cons in Hnd.
  apply NoDup_app in Hnd as (_ & Hdisj & Hnd).
  apply NoDup_cons in Hnd as [Hpost _].
  assert (id b ∉ id <$> pre) as Hpre.
  { intros H. apply (Hdisj _ H). left. }
  unfold deleteContentInsideInSelection. cbn [startId endId cursorId].
  rewrite bool_decide_eq_true_2 by done.
  unfold getBlockElementById. rewrite Hdoc, find_middle by done.
  cbn [nonNull mbind Result_bind].
  rewrite (isTextLike_Some _ _ Hm). cbn [startOffset endOffset].
  eexists _, (mkTextModel _). split; [reflexivity|].
  cbn [state withState Changeset.apply document cursorState
       Changeset.afterCursor Changeset.operations Changeset.setCursorState
       Changeset.textEdit Changeset.new app foldl].
  split; [|split; [|done]].
  - rewrite blockElements_textEdit, Hdoc, editText_middle by done.
    rewrite (editText_text (id b) b _ m) by done. reflexivity.
  - cbn [delta].
    destruct (DeltaFacts.compose_document (delta m)
                (Delta.delete (Delta.retain Delta.empty k ∅) (e - k)) Hd)
      as [Hc _].
    { apply DeltaFacts.fits_retain_delete. unfold textLength in He. lia. }
    rewrite Hc, DeltaFacts.applyChars_retain_delete.
    by replace (k + (e - k))%nat with e by lia.
Qed.

(** C1, as the code has it.  For an open cursor whose start and end
    blocks are text-like: when they are two blocks, the start block
    keeps [0, startOffset), the tail of the end block from endOffset is
    appended to it, the end block and every block strictly between are
    removed; when they are one block, that block keeps [0, startOffset)
    followed by its tail from endOffset and no block is removed.  In
    both cases the returned cursor and the cursor of the state collapse
    at (startId, startOffset). *)
Theorem deleteContentInsideInSelection_open (c : EditorController)
    (pre post : list BlockDataElement) (k e : nat) :
  NoDup (id <$> blockElements (document (state c))) →
  (∀ b1 mid b3 m1 m3,
     blockElements (document (state c)) = pre ++ b1 :: mid ++ b3 :: post →
     textContent b1 = Some m1 → textContent b3 = Some m3 →
     Delta.isDocument (delta m1) = true →
     Delta.isDocument (delta m3) = true →
     (k ≤ textLength m1)%nat →
     ∃ c' m',
       deleteContentInsideInSelection c (mkCursor (id b1) k (id b3) e)
       = Ok (c', Some (collapse (id b1) k))
       ∧ blockElements (document (state c'))
         = pre ++ mkBlock (t b1) (id b1) (Some m') (attributes b1) :: post
       ∧ Delta.chars (delta m')
         = take k (Delta.chars (delta m1)) ++ drop e (Delta.chars (delta m3))
       ∧ cursorState (state c') = Some (collapse (id b1) k))
  ∧ (∀ b m,
       blockElements (document (state c)) = pre ++ b :: post →
       textContent b = Some m →
       Delta.isDocument (delta m) = true →
       (k ≤ e)%nat → (e ≤ textLength m)%nat →
       ∃ c' m',
         deleteContentInsideInSelection c (mkCursor (id b) k (id b) e)
         = Ok (c', Some (collapse (id b) k))
         ∧ blockElements (document (state c'))
           = pre ++ mkBlock (t b) (id b) (Some m') (attributes b) :: post
         ∧ Delta.chars (delta m')
           = take k (Delta.chars (delta m)) ++ drop e (Delta.chars (delta m))
         ∧ cursorState (state c') = Some (collapse (id b) k)).
Proof.
  intros Hnd. split.
  - intros b1 mid b3 m1 m3 Hdoc Hm1 Hm3 Hd1 Hd3 Hk.
    by apply (deleteContent_across_blocks c pre mid post b1 b3 m1 m3).
  - intros b m Hdoc Hm Hd Hke He.
    by apply (deleteContent_within_block c pre post b m).
Qed.
End ControllerFacts.

(** ** The controller on concrete documents *)

Module SelectionExamples.
Import Data Registry Controller StateFacts ControllerFacts Examples.
Local Open Scope string_scope.

Lemma deleteContentInsideInSelection_open_witness :
  ∃ c' m',
    deleteContentInsideInSelection fooBarBaz (mkCursor "b1" 1 "b3" 2)
    = Ok (c', Some (collapse "b1" 1))
    ∧ blockElements (document (state c'))
      = [mkBlock TextBlock_Name "b1" (Some m') ∅]
    ∧ Delta.chars (delta m') = Delta.explode "fz" ∅
    ∧ cursorState (state c') = Some (collapse "b1" 1).
Proof.
  destruct (deleteContentInsideInSelection_open fooBarBaz [] [] 1 2)
    as [Hacross _].
  { apply (bool_decide_unpack _). vm_compute. exact I. }
  apply (Hacross (textBlock "b1" "foo") [textBlock "b2" "bar"]
           (textBlock "b3" "baz") (plain "foo") (plain "baz"));
    try reflexivity.
  vm_compute. lia.
Defined.

(** The scenario of the specification, op for op: [b1] ends as
    [{insert: "fz"}], [b2] and [b3] are gone, the cursor is [(b1, 1)],
    the version went up by one. *)
Example deleteContent_foo_bar_baz :
  ∃ c', deleteContentInsideInSelection fooBarBaz (mkCursor "b1" 1 "b3" 2)
        = Ok (c', Some (collapse "b1" 1))
        ∧ document (state c') = mkDocument None [textBlock "b1" "fz"]
        ∧ getBlockElementById (state c') "b2" = None
        ∧ getBlockElementById (state c') "b3" = None
        ∧ cursorState (state c') = Some (collapse "b1" 1)
        ∧ version (state c') = 1.
Proof. eexists. split; [vm_compute; reflexivity|]. vm_compute. done. Qed.

(** C1 as stated fails inside one block: the cursor from (b1, 1) to
    (b1, 2) is open, its start and end block is the text-like [b1], and
    the call does not remove the end block. *)
Lemma deleteContentInsideInSelection_keeps_single_block :
  isOpen (mkCursor "b1" 1 "b1" 2) = true
  ∧ getBlockElementById (state fooBarBaz) "b1" = Some (textBlock "b1" "foo")
  ∧ isTextLike (textBlock "b1" "foo") = true
  ∧ ¬ ∃ c' r,
        deleteContentInsideInSelection fooBarBaz (mkCursor "b1" 1 "b1" 2)
        = Ok (c', r)
        ∧ getBlockElementById (state c') "b1" = None.
Proof.
  split; [reflexivity|]. split; [reflexivity|]. split; [reflexivity|].
  intros (c' & r & Hcall & Hgone).
  vm_compute in Hcall. injection Hcall as <- _.
  vm_compute in Hgone. discriminate.
Qed.
Lemma deleteBlock_frame_witness :
  ∃ b, getBlockElementById (state fooBarBaz) "b2" = Some b
       ∧ deleteBlock fooBarBaz "b2"
         = withState fooBarBaz
             (Changeset.apply (Changeset.removeNode Changeset.new b)
                (Changeset.mkOptions true) (state fooBarBaz))
       ∧ version (state (deleteBlock fooBarBaz "b2"))
         = version (state fooBarBaz) + 1.
Proof.
  apply (proj1 (deleteBlock_frame fooBarBaz "b2")).
  split; [reflexivity|].
  exists (textBlock "b2" "bar"). split; reflexivity.
Defined.
End SelectionExamples.

(** ** The paste handler *)

Module PasteFacts.
Import Data Registry Controller Examples.
Local Open Scope string_scope.

Lemma truthyString_Some s : s ≠ EmptyString → truthyString (Some s) = true.
Proof.
  intros H. unfold truthyString.
  by rewrite negb_true_iff, bool_decide_eq_false.
Qed.

Section Handler.
Variable JSON : Type.
Variable JSON_parse : string → option JSON.
Variable blockyNodeFromJsonNode : JSON → Result BlockyNode.

Local Abbreviation divHandler :=
  (Controller.divHandler JSON JSON_parse blockyNodeFromJsonNode).

(** C7, as amended.  A pasted div whose [data-type] names a registered
    block and whose [data-content] deserializes to a block element: the
    handler answers that element cloned under the id the id generator
    mints next (type, text and attributes kept), and the generator has
    moved on by one.  The id stored in [data-content] has no part in the
    answer: whatever it is, the answer is the same, and the answer bears
    the stored id exactly when the generator mints that very id. *)
Theorem divHandler_clones_with_minted_id (c : EditorController)
    (element : HTMLElement) (dataType jsonData : string)
    (blockDef : BlockDefinition) (data : JSON) (node : BlockDataElement) :
  getAttribute element "data-type" = Some dataType →
  dataType ≠ EmptyString →
  getBlockDefByName (blockRegistry c) dataType = Some blockDef →
  getAttribute element "data-content" = Some jsonData →
  jsonData ≠ EmptyString →
  JSON_parse jsonData = Some data →
  blockyNodeFromJsonNode data = Ok (ElementNode node) →
  let newId := (mkBlockId (idGenerator c)).1 in
  ∃ result,
    divHandler c element
    = Ok (Some result, withIdGenerator c (mkBlockId (idGenerator c)).2)
    ∧ result = cloneWithId node newId
    ∧ id result = newId
    ∧ t result = t node
    ∧ textContent result = textContent node
    ∧ attributes result = attributes node
    ∧ (∀ stored,
         cloneWithId
           (mkBlock (t node) stored (textContent node) (attributes node))
           newId
         = result)
    ∧ (id result = id node ↔ newId = id node).
Proof.
  intros Htype Hdt Hdef Hcontent Hne Hparse Hnode newId.
  exists (cloneWithId node newId).
  split; [|by repeat split].
  unfold Controller.divHandler.
  rewrite Htype, Hcontent, !truthyString_Some by done.
  cbn [negb default from_option Datatypes.id]. rewrite Hdef, Hparse, Hnode. done.
Qed.

(** C8. A pasted div whose [data-type] names a block that the
    registry does not hold: the handler answers nothing, whatever the
    element carries besides, and leaves the controller as it was. *)
Theorem divHandler_drops_unregistered (c : EditorController)
    (element : HTMLElement) (dataType : string) :
  getAttribute element "data-type" = Some dataType →
  getBlockDefByName (blockRegistry c) dataType = None →
  divHandler c element = Ok (None, c).
Proof.
  intros Htype Hdef. unfold Controller.divHandler. rewrite Htype.
  destruct (truthyString (Some dataType)); [|done].
  cbn [negb default from_option Datatypes.id]. by rewrite Hdef.
Qed.
End Handler.

Lemma divHandler_clones_with_minted_id_witness :
  ∃ result,
    Controller.divHandler string parseText nodeOfText pastingController
      (copiedDiv "Text")
    = Ok (Some result,
          withIdGenerator pastingController
            (mkBlockId (idGenerator pastingController)).2)
    ∧ result = cloneWithId (textBlock "Blk-old" "hello") "Blk-"
    ∧ id result = "Blk-"
    ∧ t result = "Text"
    ∧ textContent result = Some (plain "hello")
    ∧ attributes result = ∅
    ∧ (∀ stored,
         cloneWithId (mkBlock "Text" stored (Some (plain "hello")) ∅) "Blk-"
         = result)
    ∧ (id result = "Blk-old" ↔ "Blk-" = "Blk-old").
Proof.
  apply (divHandler_clones_with_minted_id string parseText nodeOfText
           pastingController (copiedDiv "Text") "Text" "hello"
           (mkBlockDef "Text" None None) "hello"
           (textBlock "Blk-old" "hello"));
    (reflexivity || discriminate).
Defined.

(** C7, as it was stated, fails: the handler takes whatever id the
    generator mints and does not look at the stored one.  With a
    generator whose next id is [Blk-] and a div whose content stores a
    block under [Blk-], the element returned bears the stored id. *)
Lemma divHandler_returns_stored_id :
  getAttribute (divStoring "Blk-") "data-type" = Some "Text"
  ∧ is_Some (getBlockDefByName (blockRegistry pastingController) "Text")
  ∧ (getAttribute (divStoring "Blk-") "data-content" ≫= parseText)
    = Some "Blk-"
  ∧ nodeStoring "Blk-" = Ok (ElementNode (textBlock "Blk-" "hello"))
  ∧ Controller.divHandler string parseText nodeStoring pastingController
      (divStoring "Blk-")
    = Ok (Some (textBlock "Blk-" "hello"),
          withIdGenerator pastingController
            (mkBlockId (idGenerator pastingController)).2)
  ∧ id (textBlock "Blk-" "hello") = "Blk-".
Proof.
  split; [reflexivity|]. split; [by eexists|]. split; [reflexivity|].
  split; [reflexivity|]. split; reflexivity.
Qed.

Lemma divHandler_drops_unregistered_witness :
  Controller.divHandler string parseText nodeOfText pastingController
    (copiedDiv "Image")
  = Ok (None, pastingController).
Proof.
  apply (divHandler_drops_unregistered string parseText nodeOfText
           pastingController (copiedDiv "Image") "Image"); reflexivity.
Defined.

End PasteFacts.

(** ** Formatting the selected text *)

Module FormatFacts.
Import Data Registry Controller StateFacts ControllerFacts Examples.
Import Delta.
Local Open Scope nat_scope.

(** What composing attributes onto a character's means, key by key:
    the new value wins, [null] unsets, an unmentioned key stays. *)
Lemma composeAttributes_lookup (a b : AttributesObject) (key : string) :
  composeAttributes a b false !! key
  = match b !! key with
    | Some VNull => None
    | Some v => Some v
    | None => a !! key
    end.
Proof.
  unfold composeAttributes. rewrite lookup_union, map_lookup_filter.
  rewrite lookup_difference.
  destruct (b !! key) as [v|] eqn:Hb; simpl.
  - destruct v; simpl; try done.
  - by rewrite (left_id_L None _).
Qed.

Lemma unsetCarried_singleton (op : Op) (key : string) (v : AttrValue) :
  unsetCarried op {[ key := v ]}
  = {[ key := if truthy (opAttributes op !! key) then VNull else v ]}.
Proof.
  apply map_eq. intros i. unfold unsetCarried. rewrite map_lookup_imap.
  destruct (decide (i = key)) as [->|Hne].
  - by rewrite !lookup_singleton_eq.
  - by rewrite !lookup_singleton_ne.
Qed.

Lemma take_plus {A} (n m : nat) (l : list A) :
  take (n + m) l = take n l ++ take m (drop n l).
Proof.
  revert l. induction n as [|n IH]; intros [|x l]; simpl; try done.
  - by rewrite take_nil.
  - by rewrite IH.
Qed.

(** [retain(start).retain(len, attributes)] on a text. *)
Lemma retain_retain_ops (start len : nat) (a : AttributesObject) :
  ops (retain (retain empty start ∅) len a)
  = if Nat.eqb len 0 then (if Nat.eqb start 0 then [] else [Retain start ∅])
    else if Nat.eqb start 0 then [Retain len a]
    else if decide (a = ∅) then [Retain (start + len) a]
    else [Retain start ∅; Retain len a].
Proof.
  destruct start as [|start], len as [|len]; done.
Qed.

Lemma applyChars_retain_retain cs (start len : nat) (a : AttributesObject) :
  applyChars cs (ops (retain (retain empty start ∅) len a))
  = take start cs ++ (formatChar a <$> take len (drop start cs))
      ++ drop (start + len) cs.
Proof.
  rewrite retain_retain_ops.
  destruct len as [|len], start as [|start]; cbn [Nat.eqb applyChars].
  - done.
  - rewrite DeltaFacts.fmap_formatChar_empty, Nat.add_0_r.
    rewrite take_0. simpl. by rewrite take_drop.
  - rewrite take_0, drop_0. done.
  - case_decide as Ha; cbn [applyChars].
    + subst a. rewrite !DeltaFacts.fmap_formatChar_empty.
      rewrite take_plus, <- app_assoc. done.
    + rewrite DeltaFacts.fmap_formatChar_empty, drop_drop. done.
Qed.

Lemma find_hasId (i : string) (l : list BlockDataElement) b :
  List.find (hasId i) l = Some b → id b = i.
Proof. intros [_ H]%List.find_some. by apply hasId_true. Qed.

Lemma startingAt_find (i : string) (l : list BlockDataElement) b :
  List.find (hasId i) l = Some b → ∃ rest, startingAt i l = b :: rest.
Proof.
  induction l as [|x l IH]; [done|]. simpl.
  destruct (hasId i x); [|done]. intros [= ->]. eauto.
Qed.

Lemma find_editText (i j : string) dl (l : list BlockDataElement) :
  List.find (hasId j) (Changeset.editText i dl <$> l)
  = Changeset.editText i dl <$> List.find (hasId j) l.
Proof.
  induction l as [|x l IH]; [done|]. rewrite fmap_cons. simpl.
  assert (hasId j (Changeset.editText i dl x) = hasId j x) as ->.
  { unfold Changeset.editText. by destruct (hasId i x). }
  by destruct (hasId j x).
Qed.

Lemma split_single_block (s : EditorState) b m (so eo : nat) :
  getBlockElementById s (id b) = Some b → textContent b = Some m →
  splitCursorStateByBlocks s (mkCursor (id b) so (id b) eo)
  = [mkCursor (id b) so (id b) eo].
Proof.
  intros Hget Hm. unfold splitCursorStateByBlocks. cbn [startId].
  destruct (startingAt_find _ _ _ Hget) as [rest ->].
  cbn [clipBlocks startId endId startOffset endOffset].
  by rewrite Hm, hasId_self.
Qed.

Lemma singleton_nonempty (key : string) (v : AttrValue) :
  ({[ key := v ]} : AttributesObject) ≠ ∅.
Proof. apply insert_non_empty. Qed.

(** C3, as the code has it.  An editor is mounted, the open cursor lies
    in one block of type [Text], the attributes asked for are
    [{bold: true}].  The one text edit recorded retains the selected
    range with [{bold: null}] when the range lies in a single op that
    carries bold (then the range loses bold), and with [{bold: true}]
    in every other case (then the range has bold), also when the range
    runs over several ops that all carry bold. *)
Theorem formatTextOnCursor_bold (c : EditorController)
    (b : BlockDataElement) (m : BlockyTextModel) (so eo : nat) :
  editor c = true →
  getBlockElementById (state c) (id b) = Some b →
  Data.t b = TextBlock_Name →
  textContent b = Some m →
  so < eo →
  let toggled := singleOpCarries (slice (delta m) so eo) "bold" in
  let attribs : AttributesObject :=
    {[ "bold" := if toggled then VNull else VBool true ]} in
  let edit := retain (retain empty so ∅) (eo - so) attribs in
  let c' := withState c
              (Changeset.apply (Changeset.textEdit Changeset.new b edit)
                 (Changeset.mkOptions true) (state c)) in
  formatTextOnCursor c (mkCursor (id b) so (id b) eo)
    (Some {[ "bold" := VBool true ]})
  = Ok (c', Some attribs)
  ∧ ops edit
    = (if Nat.eqb so 0 then [] else [Retain so ∅])
        ++ [Retain (eo - so) attribs]
  ∧ getBlockElementById (state c') (id b)
    = Some (mkBlock (Data.t b) (id b)
              (Some (mkTextModel (compose (delta m) edit))) (attributes b))
  ∧ (isDocument (delta m) = true → eo ≤ textLength m →
     chars (compose (delta m) edit)
     = take so (chars (delta m))
         ++ (formatChar attribs <$> take (eo - so) (drop so (chars (delta m))))
         ++ drop eo (chars (delta m))
     ∧ ∀ ca, (formatChar attribs ca).2 !! "bold"
             = if toggled then None else Some (VBool true)).
Proof.
  intros Hed Hget Ht Hm Hlt toggled attribs edit c'.
  assert (ops edit
          = (if Nat.eqb so 0 then [] else [Retain so ∅])
              ++ [Retain (eo - so) attribs]) as Hops.
  { unfold edit. rewrite retain_retain_ops.
    destruct (Nat.eqb_spec (eo - so) 0); [lia|].
    destruct (Nat.eqb so 0); [done|].
    rewrite decide_False; [done | apply singleton_nonempty]. }
  split; [|split; [done|split]].
  - unfold formatTextOnCursor. rewrite Hed. cbn [negb].
    assert (isCollapsed (mkCursor (id b) so (id b) eo) = false) as ->.
    { unfold isCollapsed. cbn [startId endId startOffset endOffset].
      rewrite bool_decide_eq_true_2 by done.
      destruct (Nat.eqb_spec so eo); [lia | done]. }
    rewrite (split_single_block _ _ _ _ _ Hget Hm).
    cbn [formatWalk endId startOffset endOffset].
    rewrite Hget. cbn [nonNull mbind Result_bind].
    rewrite bool_decide_eq_true_2 by done. cbn [negb].
    unfold getTextModel. rewrite Hm. cbn [nonNull mbind Result_bind].
    assert (match ops (slice (delta m) so eo) with
            | [op] => Some (unsetCarried op {[ "bold" := VBool true ]})
            | _ => Some {[ "bold" := VBool true ]}
            end = Some attribs) as ->; [|done].
    unfold attribs, toggled, singleOpCarries.
    destruct (ops (slice (delta m) so eo)) as [|op [|op' r]]; try done.
  - unfold c'. unfold getBlockElementById in *.
    cbn [state withState Changeset.apply document
      Changeset.operations Changeset.textEdit Changeset.new app foldl].
    rewrite blockElements_textEdit, find_editText, Hget. cbn [fmap option_fmap option_map].
    by rewrite (editText_text (id b) b _ m).
  - intros Hdoc Hlen. split.
    + destruct (DeltaFacts.compose_document (delta m) edit Hdoc) as [-> _].
      * rewrite Hops. unfold textLength in Hlen.
        destruct so as [|so]; cbn [Nat.eqb app fits];
          rewrite ?andb_true_r, ?andb_true_iff, ?Nat.leb_le; lia.
      * unfold edit. rewrite applyChars_retain_retain.
        by replace (so + (eo - so)) with eo by lia.
    + intros ca. unfold formatChar. cbn [snd].
      rewrite composeAttributes_lookup. unfold attribs.
      rewrite lookup_singleton_eq. by destruct toggled.
Qed.

Lemma formatTextOnCursor_bold_witness :
  formatTextOnCursor twoBoldRuns (mkCursor "b1" 0 "b1" 1) (Some bold)
  = Ok (withState twoBoldRuns
          (Changeset.apply
             (Changeset.textEdit Changeset.new boldRunsBlock
                (mk [Retain 1 {[ "bold" := VNull ]}]))
             (Changeset.mkOptions true) (state twoBoldRuns)),
        Some {[ "bold" := VNull ]}).
Proof.
  apply (proj1 (formatTextOnCursor_bold twoBoldRuns boldRunsBlock boldRuns
                  0 1 eq_refl eq_refl eq_refl eq_refl (Nat.lt_0_1))).
Defined.

(** The toggle, op for op: bold is taken off the first character. *)
Example format_unsets_bold_in_one_op :
  ∃ c', formatTextOnCursor twoBoldRuns (mkCursor "b1" 0 "b1" 1) (Some bold)
        = Ok (c', Some {[ "bold" := VNull ]})
        ∧ textContent <$> getBlockElementById (state c') "b1"
          = Some (Some (mkTextModel
                          (mk [Insert "a" ∅; Insert "b" bold;
                               Insert "cd" boldItalic]))).
Proof. eexists. split; [vm_compute; reflexivity|]. vm_compute. done. Qed.

(** C3 as stated fails over two ops: in ["ab" bold, "cd" bold+italic]
    the range [1, 3) has every op carry bold = true, yet the call
    leaves [attribs] at [{bold: true}], records the retain with
    [{bold: true}], and the document keeps its bold. *)
Lemma formatTextOnCursor_keeps_bold_over_two_ops :
  forallb (λ op, truthy (opAttributes op !! "bold"))
          (ops (slice (delta boldRuns) 1 3)) = true
  ∧ formatTextOnCursor twoBoldRuns (mkCursor "b1" 1 "b1" 3) (Some bold)
    = Ok (withState twoBoldRuns
            (Changeset.apply
               (Changeset.textEdit Changeset.new boldRunsBlock
                  (mk [Retain 1 ∅; Retain 2 {[ "bold" := VBool true ]}]))
               (Changeset.mkOptions true) (state twoBoldRuns)),
          Some {[ "bold" := VBool true ]})
  ∧ document
      (Changeset.apply
         (Changeset.textEdit Changeset.new boldRunsBlock
            (mk [Retain 1 ∅; Retain 2 {[ "bold" := VBool true ]}]))
         (Changeset.mkOptions true) (state twoBoldRuns))
    = document (state twoBoldRuns)
  ∧ ¬ ∃ c', formatTextOnCursor twoBoldRuns (mkCursor "b1" 1 "b1" 3) (Some bold)
            = Ok (c', Some {[ "bold" := VNull ]}).
Proof.
  split; [reflexivity|]. split; [vm_compute; reflexivity|].
  split; [vm_compute; reflexivity|].
  intros [c' Hcall]. vm_compute in Hcall. discriminate.
Qed.
End FormatFacts.

(** ** The view: composition, Enter, Backspace *)

Module ViewFacts.
Import Registry View ViewExamples.
Local Open Scope nat_scope.

(** *** Composition *)

Section Composition.
Variable DOM : Type.
Variable contentDiff : DOM → DocumentState → DocumentState.

Local Abbreviation dispatch := (View.dispatch DOM contentDiff).
Local Abbreviation InputEvent := (View.InputEvent DOM).
Local Abbreviation CompositionStartEvent := (View.CompositionStartEvent DOM).
Local Abbreviation CompositionEndEvent := (View.CompositionEndEvent DOM).

Lemma inputs_while_composing (e : Editor) (doms : list DOM) :
  composing e = true → foldl dispatch e (InputEvent <$> doms) = e.
Proof.
  intros Hc. induction doms as [|dom doms IH]; [done|].
  rewrite fmap_cons. cbn [foldl View.dispatch]. by rewrite Hc.
Qed.

(** C9. While the composing flag is set, an input event changes
    nothing: not the state, not the flag, and the content diff does
    not run.  [compositionstart] sets the flag and touches nothing
    else; after it any run of input events leaves the editor as it
    is; [compositionend] clears the flag and runs the content diff
    once, on the state as it was. *)
Theorem composing_suppresses_input (e : Editor) :
  (composing e = true → ∀ dom, dispatch e (InputEvent dom) = e)
  ∧ (composing (dispatch e CompositionStartEvent) = true
     ∧ state (dispatch e CompositionStartEvent) = state e
     ∧ diffRuns (dispatch e CompositionStartEvent) = diffRuns e)
  ∧ (∀ doms,
       foldl dispatch (dispatch e CompositionStartEvent) (InputEvent <$> doms)
       = dispatch e CompositionStartEvent)
  ∧ (∀ dom,
       composing (dispatch e (CompositionEndEvent dom)) = false
       ∧ state (dispatch e (CompositionEndEvent dom))
         = contentDiff dom (state e)
       ∧ diffRuns (dispatch e (CompositionEndEvent dom)) = S (diffRuns e))
  ∧ (∀ doms dom,
       let e' := foldl dispatch e
                   (CompositionStartEvent :: (InputEvent <$> doms)
                      ++ [CompositionEndEvent dom]) in
       composing e' = false
       ∧ state e' = contentDiff dom (state e)
       ∧ diffRuns e' = S (diffRuns e)).
Proof.
  split; [|split; [|split; [|split]]].
  - intros Hc dom. cbn [View.dispatch]. by rewrite Hc.
  - done.
  - intros doms. by apply inputs_while_composing.
  - done.
  - intros doms dom. cbn [foldl]. rewrite foldl_app.
    rewrite inputs_while_composing by done. done.
Qed.
End Composition.

Lemma composing_suppresses_input_witness :
  View.dispatch unit (λ _ s, withCursor s None)
    (withComposing twoLines true) (View.InputEvent unit ())
  = withComposing twoLines true.
Proof.
  apply (proj1 (composing_suppresses_input unit (λ _ s, withCursor s None)
                  (withComposing twoLines true))).
  reflexivity.
Defined.

(** *** Blocks by id *)

Implicit Types (b node : BlockData) (l pre post : list BlockData) (i : string).

Lemma block_hasId_true i b : hasId i b = true ↔ id b = i.
Proof. apply bool_decide_eq_true. Qed.

Lemma block_hasId_false i b : hasId i b = false ↔ id b ≠ i.
Proof. apply bool_decide_eq_false. Qed.

Lemma block_notin_ids_cons i b l :
  i ∉ id <$> (b :: l) ↔ id b ≠ i ∧ (i ∉ id <$> l).
Proof.
  rewrite fmap_cons, not_elem_of_cons. split; intros [? ?]; split; done.
Qed.

Lemma first_occurrence pre node post :
  NoDup (id <$> (pre ++ node :: post)) →
  (id node ∉ id <$> pre) ∧ (id node ∉ id <$> post).
Proof.
  rewrite fmap_app, fmap_cons.
  intros (_ & Hdisj & [Hpost _]%NoDup_cons)%NoDup_app.
  split; [|done]. intros H. apply (Hdisj _ H). left.
Qed.

Lemma block_find_middle pre node post :
  (id node ∉ id <$> pre) →
  List.find (hasId (id node)) (pre ++ node :: post) = Some node.
Proof.
  induction pre as [|x pre IH]; simpl.
  - by rewrite (proj2 (block_hasId_true _ _) eq_refl).
  - intros [Hx%block_hasId_false Hpre]%block_notin_ids_cons. rewrite Hx. by apply IH.
Qed.

Lemma setData_notin i (m : TextModel) l :
  (i ∉ id <$> l) →
  (λ b, if hasId i b then mkBlockData (id b) (flags b) (Some m) else b) <$> l
  = l.
Proof.
  induction l as [|x l IH]; [done|].
  intros [Hx%block_hasId_false Hl]%block_notin_ids_cons.
  rewrite fmap_cons, Hx, IH by done. done.
Qed.

Lemma insertAfter_middle new pre node post :
  (id node ∉ id <$> pre) →
  insertAfter new (id node) (pre ++ node :: post)
  = pre ++ node :: new :: post.
Proof.
  induction pre as [|x pre IH]; simpl.
  - by rewrite (proj2 (block_hasId_true _ _) eq_refl).
  - intros [Hx%block_hasId_false Hpre]%block_notin_ids_cons. rewrite Hx.
    by rewrite IH.
Qed.

(** *** Splitting a text model *)

Lemma textDelete_tail (m : TextModel) (k : nat) :
  Delta.isDocument (delta m) = true → k ≤ textLength m →
  Delta.chars (delta (textDelete m k (textLength m - k)))
  = take k (Delta.chars (delta m))
  ∧ textType (textDelete m k (textLength m - k)) = textType m.
Proof.
  intros Hd Hk. split; [|done]. cbn [textDelete delta].
  by apply DeltaFacts.compose_truncate.
Qed.

Lemma insert_as_concat (k : nat) (s : string) (a : Delta.AttributesObject) :
  s ≠ EmptyString →
  Delta.insert (Delta.retain Delta.empty k ∅) s a
  = Delta.concat (Delta.retain Delta.empty k ∅) (Delta.mk [Delta.Insert s a]).
Proof.
  intros Hs. unfold Delta.insert, Delta.concat.
  rewrite bool_decide_eq_false_2 by done. cbn [Delta.ops].
  rewrite app_nil_r. by destruct (Delta.push _ _).
Qed.

(** Inserting the slices one after the other at the end appends their
    text, attributes included. *)
Lemma insertSlices_appends (ops : list Delta.Op) (m : TextModel) :
  forallb Delta.isInsert ops = true →
  Delta.isDocument (delta m) = true →
  Delta.chars (delta (insertSlices m (textLength m) (slicesOf ops)))
  = Delta.chars (delta m) ++ Delta.charsOps ops
  ∧ textType (insertSlices m (textLength m) (slicesOf ops)) = textType m.
Proof.
  revert m. induction ops as [|[s a|n a|n] r IH]; intros m Hops Hm; try done.
  - simpl. by rewrite app_nil_r.
  - apply DeltaFacts.docOps_cons in Hops as [Hs%DeltaFacts.isInsert_Insert Hr].
    cbn [slicesOf insertSlices content sliceAttributes].
    assert (Delta.isDocument (Delta.mk [Delta.Insert s a]) = true) as Hone.
    { unfold Delta.isDocument. cbn [Delta.ops forallb Delta.isInsert].
      rewrite andb_true_r. by apply DeltaFacts.nonempty_true. }
    destruct (DeltaFacts.compose_concat_at (delta m)
                (Delta.mk [Delta.Insert s a]) (textLength m) Hm Hone)
      as [Hc Hdoc]; [done|].
    rewrite <- insert_as_concat in Hc, Hdoc by done.
    assert (textLength (textInsert m (textLength m) s a)
            = textLength m + String.length s) as Hlen.
    { unfold textLength at 1. cbn [textInsert delta].
      rewrite <- DeltaFacts.length_chars, Hc by done.
      rewrite take_ge, drop_ge
        by (rewrite DeltaFacts.length_chars by done; done).
      unfold Delta.chars at 2. simpl.
      rewrite !app_nil_r, length_app, DeltaFacts.length_explode.
      by rewrite DeltaFacts.length_chars. }
    rewrite <- Hlen.
    destruct (IH (textInsert m (textLength m) s a) Hr Hdoc) as [-> ->].
    split; [|done]. cbn [textInsert delta]. rewrite Hc.
    rewrite take_ge, drop_ge
      by (rewrite DeltaFacts.length_chars by done; done).
    unfold Delta.chars at 2. simpl. by rewrite !app_nil_r, <- app_assoc.
Qed.

Section Keys.
Variable browserSelection : DocumentState → option (option CursorState).
Variable flagsOfBlockName : string → nat.

Local Abbreviation selectionChanged := (View.selectionChanged browserSelection).
Local Abbreviation commitNewLine :=
  (View.commitNewLine browserSelection flagsOfBlockName).
Local Abbreviation handleBackspace :=
  (View.handleBackspace browserSelection flagsOfBlockName).
Local Abbreviation handleKeyDown :=
  (View.handleKeyDown browserSelection flagsOfBlockName).

(** Reading the selection back writes the cursor and nothing else. *)
Lemma selectionChanged_frame (e : Editor) :
  blocks (state (selectionChanged e)) = blocks (state e)
  ∧ parentId (state (selectionChanged e)) = parentId (state e)
  ∧ registry (selectionChanged e) = registry e
  ∧ idGenerator (selectionChanged e) = idGenerator e
  ∧ preservedTextType (selectionChanged e) = preservedTextType e
  ∧ composing (selectionChanged e) = composing e
  ∧ diffRuns (selectionChanged e) = diffRuns e.
Proof.
  unfold View.selectionChanged. by destruct (browserSelection (state e)).
Qed.

(** C2. Enter with a collapsed cursor at offset [k] of a text block:
    the block keeps the prefix [0, k) of its text, a new block under
    the id the generator mints follows it immediately and holds the
    suffix from [k] on with its attributes, the new block has the
    text type of the old one iff that type is preserved (and is a
    plain text block otherwise), and the cursor is left collapsed at
    offset 0 of the new block. *)
Theorem commitNewLine_splits (e : Editor) (pre post : list BlockData)
    (node : BlockData) (tm : TextModel) (k : nat) :
  cursorState (state e) = Some (Collapsed (id node) k) →
  blocks (state e) = pre ++ node :: post →
  NoDup (id <$> blocks (state e)) →
  data node = Some tm →
  Delta.isDocument (delta tm) = true →
  k ≤ textLength tm →
  let newId := (mkBlockId (idGenerator e)).1 in
  (composing e = false →
   handleKeyDown e (mkKey "Enter" false)
   = Ok (mkKey "Enter" true, commitNewLine e))
  ∧ ∃ before after,
    blocks (state (commitNewLine e))
    = pre ++ mkBlockData (id node) (flags node) (Some before)
          :: mkBlockData newId (flagsOfBlockName TextBlockName)
               (Some after)
          :: post
    ∧ Delta.chars (delta before) = take k (Delta.chars (delta tm))
    ∧ textType before = textType tm
    ∧ Delta.chars (delta after) = drop k (Delta.chars (delta tm))
    ∧ textType after
      = (if bool_decide (textType tm ∈ preservedTextType e)
         then textType tm else Normal)
    ∧ cursorState (state (commitNewLine e)) = Some (Collapsed newId 0).
Proof.
  intros Hcur Hblocks Hnd Hdata Hdoc Hk newId. rewrite Hblocks in Hnd.
  destruct (first_occurrence _ _ _ Hnd) as [Hpre Hpost].
  destruct (textDelete_tail tm k Hdoc Hk) as [Hbefore Hty].
  destruct (DeltaFacts.sliceFrom_document (delta tm) k Hdoc) as [Htail Hdtail].
  set (fresh := if bool_decide (textType tm ∈ preservedTextType e)
                then withTextType newTextModel (textType tm)
                else newTextModel).
  assert (Delta.isDocument (delta fresh) = true ∧ textLength fresh = 0
          ∧ Delta.chars (delta fresh) = []
          ∧ textType fresh
            = (if bool_decide (textType tm ∈ preservedTextType e)
               then textType tm else Normal)) as (Hfd & Hfl & Hfc & Hft).
  { unfold fresh. by destruct (bool_decide _). }
  destruct (insertSlices_appends
              (Delta.ops (Delta.sliceFrom (delta tm) k)) fresh Hdtail Hfd)
    as [Hafter Haty].
  rewrite Hfl, Hfc in Hafter. rewrite Hfl in Haty.
  split.
  { intros Hc. unfold View.handleKeyDown. cbn [defaultPrevented key].
    by rewrite Hc. }
  exists (textDelete tm k (textLength tm - k)),
         (insertSlices fresh 0 (textSlice tm k)).
  split; [|split; [done|split; [done|split; [|split]]]].
  - unfold View.commitNewLine. rewrite Hcur.
    unfold idMap_get. rewrite Hblocks, block_find_middle, Hdata by done.
    cbn [View.state View.idGenerator View.withState View.withIdGenerator
         View.withCursor View.applyActions mkBlockId View.blocks foldl
         View.applyAction View.setData View.parentId View.registry].
    rewrite bool_decide_eq_true_2 by done.
    rewrite (proj1 (selectionChanged_frame _)).
    cbn [View.state View.blocks View.withState].
    unfold fresh, newId. cbn [mkBlockId fst].
    rewrite Hblocks, fmap_app, fmap_cons, !setData_notin by done.
    rewrite (proj2 (block_hasId_true _ _) eq_refl).
    by rewrite (insertAfter_middle _ pre (mkBlockData (id node) _ _) post).
  - unfold textSlice. rewrite Hafter. exact Htail.
  - unfold textSlice. by rewrite Haty.
  - unfold View.commitNewLine. rewrite Hcur.
    unfold idMap_get. rewrite Hblocks, block_find_middle, Hdata by done.
    done.
Qed.

(** C4, as the code has it.  Backspace with a collapsed cursor on a
    block whose definition does not say [editable: false] (a text
    block among them) is left to the browser: the handler answers
    [false] and changes neither document nor cursor; no two text
    blocks are merged by it.  Only a block whose definition says
    [editable: false] is removed, and then the cursor collapses on
    the previous sibling, at the length of its text when it holds
    text and at 0 when not, or is cleared when there is none. *)
Theorem handleBackspace_by_editability (e : Editor) (ev : KeyboardEvent)
    (targetId : string) (offset : nat) (node : BlockData)
    (blockDef : BlockDefinition) :
  cursorState (state e) = Some (Collapsed targetId offset) →
  idMap_get (state e) targetId = Some node →
  getBlockDefById (registry e) (flags node) = Some blockDef →
  (editable blockDef ≠ Some false → handleBackspace e ev = Ok (ev, e))
  ∧ (editable blockDef = Some false →
     isBlockId (idGenerator e) targetId = true →
     ∃ e',
       handleBackspace e ev = Ok (preventDefault ev, e')
       ∧ blocks (state e')
         = List.filter (λ b, negb (hasId targetId b)) (blocks (state e))
       ∧ cursorState (state e')
         = match prev (state e) node with
           | Some p =>
               Some (Collapsed (id p)
                       (match data p with
                        | Some m => textLength m
                        | None => 0
                        end))
           | None => None
           end)
  ∧ (composing e = false →
     handleKeyDown e (mkKey "Backspace" false)
     = handleBackspace e (mkKey "Backspace" false)).
Proof.
  intros Hcur Hnode Hdef. split; [|split].
  - intros Hed. unfold View.handleBackspace, View.deleteBlockOnFocusedCursor.
    rewrite Hcur. destruct (isBlockId _ _); [|done].
    cbn [negb]. rewrite Hnode, Hdef. cbn [nonNull mbind Result_bind].
    by rewrite bool_decide_eq_false_2.
  - intros Hed Hid.
    unfold View.handleBackspace, View.deleteBlockOnFocusedCursor.
    rewrite Hcur, Hid. cbn [negb]. rewrite Hnode, Hdef.
    cbn [nonNull mbind Result_bind].
    rewrite bool_decide_eq_true_2 by done. cbn [negb].
    destruct (prev (state e) node) as [p|].
    + eexists. split; [reflexivity|].
      unfold focusEndOfNode.
      destruct (data p); cbn [View.state View.withState View.withCursor
        View.blocks View.cursorState View.applyActions];
        rewrite (proj1 (selectionChanged_frame _)); done.
    + eexists. split; [reflexivity|].
      cbn [View.state View.withState View.withCursor
        View.blocks View.cursorState View.applyActions].
      rewrite (proj1 (selectionChanged_frame _)). done.
  - intros Hc. unfold View.handleKeyDown. cbn [defaultPrevented key].
    by rewrite Hc.
Qed.
End Keys.

Lemma commitNewLine_splits_witness :
  (composing helloWorld = false →
   View.handleKeyDown noSelection textFlags helloWorld enter
   = Ok (mkKey "Enter" true, View.commitNewLine noSelection textFlags helloWorld))
  ∧ ∃ before after,
    blocks (state (View.commitNewLine noSelection textFlags helloWorld))
    = [mkBlockData "b1" 0 (Some before); mkBlockData "Blk-" 0 (Some after)]
    ∧ Delta.chars (delta before) = Delta.explode "hello" ∅
    ∧ textType before = Normal
    ∧ Delta.chars (delta after) = Delta.explode " world" ∅
    ∧ textType after = Normal
    ∧ cursorState (state (View.commitNewLine noSelection textFlags helloWorld))
      = Some (Collapsed "Blk-" 0).
Proof.
  apply (commitNewLine_splits noSelection textFlags helloWorld [] []
           (mkBlockData "b1" 0 (Some (plain Normal "hello world")))
           (plain Normal "hello world") 5); try reflexivity.
  - apply (bool_decide_unpack _). vm_compute. exact I.
  - vm_compute. lia.
Defined.

(** The scenario of the specification, op for op: Enter at [(b1, 5)] of
    ["hello world"] leaves [b1] with [{insert: "hello"}], the new block
    holds [{insert: " world"}] and the cursor is at its offset 0. *)
Example commitNewLine_hello_world :
  ∃ e', View.handleKeyDown noSelection textFlags helloWorld enter
        = Ok (mkKey "Enter" true, e')
        ∧ blocks (state e')
          = [mkBlockData "b1" 0 (Some (plain Normal "hello"));
             mkBlockData "Blk-" 0 (Some (plain Normal " world"))]
        ∧ cursorState (state e') = Some (Collapsed "Blk-" 0).
Proof. eexists. split; [vm_compute; reflexivity|]. vm_compute. done. Qed.

(** A bulleted block hands its text type on, a heading does not. *)
Example commitNewLine_text_types :
  (textType <$>
     (last (blocks (state
        (View.commitNewLine noSelection textFlags
           (editorOf [mkBlockData "b1" 0 (Some (plain Bulleted "ab"))]
                     (Some (Collapsed "b1" 1)))))) ≫= data))
  = Some Bulleted
  ∧ (textType <$>
       (last (blocks (state
          (View.commitNewLine noSelection textFlags
             (editorOf [mkBlockData "b1" 0 (Some (plain Heading1 "ab"))]
                       (Some (Collapsed "b1" 1)))))) ≫= data))
    = Some Normal.
Proof. split; vm_compute; reflexivity. Qed.

Lemma handleBackspace_by_editability_witness :
  View.handleBackspace noSelection textFlags twoLines backspace
  = Ok (backspace, twoLines).
Proof.
  apply (proj1 (handleBackspace_by_editability noSelection textFlags twoLines
                  backspace "Blk-2" 0
                  (mkBlockData "Blk-2" 0 (Some (plain Normal "cd")))
                  (mkBlockDef TextBlockName None)
                  eq_refl eq_refl eq_refl)).
  discriminate.
Defined.

(** The non-editable case, on a document with a text block and an
    image block: the image goes, the cursor lands at the end of the
    text, the default action is prevented. *)
Example handleBackspace_removes_image :
  ∃ e', View.handleKeyDown noSelection textFlags textThenImage backspace
        = Ok (mkKey "Backspace" true, e')
        ∧ blocks (state e') = [mkBlockData "Blk-1" 0 (Some (plain Normal "ab"))]
        ∧ cursorState (state e') = Some (Collapsed "Blk-1" 2).
Proof. eexists. split; [vm_compute; reflexivity|]. vm_compute. done. Qed.

(** C4 as stated fails: with the cursor at offset 0 of the second of
    two text blocks, whose previous sibling is a text block, Backspace
    leaves both blocks and the cursor as they are and does not prevent
    the default action; the first block does not receive the text of
    the second, the second is not removed, the cursor does not move to
    the end of the first. *)
Lemma handleBackspace_does_not_merge :
  prev (state twoLines) (mkBlockData "Blk-2" 0 (Some (plain Normal "cd")))
  = Some (mkBlockData "Blk-1" 0 (Some (plain Normal "ab")))
  ∧ View.handleKeyDown noSelection textFlags twoLines backspace
    = Ok (backspace, twoLines)
  ∧ ¬ ∃ ev' e',
        View.handleKeyDown noSelection textFlags twoLines backspace
        = Ok (ev', e')
        ∧ (idMap_get (state e') "Blk-2" = None
           ∨ (data <$> idMap_get (state e') "Blk-1")
             = Some (Some (plain Normal "abcd"))
           ∨ cursorState (state e') = Some (Collapsed "Blk-1" 2)).
Proof.
  split; [reflexivity|]. split; [reflexivity|].
  intros (ev' & e' & Hcall & Hout).
  vm_compute in Hcall. injection Hcall as _ <-.
  vm_compute in Hout. destruct Hout as [H|[H|H]]; discriminate.
Qed.
End ViewFacts.

(** ** NodeLocation: equality, hashing, shifts, slices *)

Module NodeLocationLaws.
Import NodeLocation NodeLocationFacts.

(** X1. [NodeLocation.equals] decides equality of the two paths,
    whatever the hash function is: it answers [true] exactly when the
    locations have the same components in the same order. *)
Theorem equals_decides_paths (hashIntArrays : list Z → Z) (a b : t) :
  equals hashIntArrays a b = bool_decide (path a = path b).
Proof.
  destruct (equals hashIntArrays a b) eqn:He; symmetry.
  - apply bool_decide_eq_true. apply equals_spec in He. by subst.
  - apply bool_decide_eq_false. intros Hp.
    assert (a = b) as Hab by (destruct a, b; simpl in *; by subst).
    apply (equals_spec hashIntArrays) in Hab. congruence.
Qed.

(** X2. [transform] keeps the length of the location and every
    component but the one at depth [length base - 1]; that one, when it
    changes, was a number and is a number again. *)
Theorem transform_frame (base loc : t) (delta : Z) :
  length (transform base loc delta) = length loc
  ∧ (∀ i : nat, i ≠ (length base - 1)%nat →
       path (transform base loc delta) !! i = path loc !! i)
  ∧ (transform base loc delta ≠ loc →
       ∃ o, path loc !! (length base - 1)%nat = Some (PIndex o)
            ∧ path (transform base loc delta) !! (length base - 1)%nat
              = Some (PIndex (o + delta))).
Proof.
  rewrite transform_unfold.
  destruct (comparable base loc) eqn:Hc; [|done].
  destruct (last (path base)) as [[bl|]|] eqn:Hl; try done.
  destruct (path loc !! (length base - 1)%nat) as [[o|]|] eqn:Ho; try done.
  destruct (bl <=? o); [|done].
  unfold shifted, length. simpl. rewrite length_insert.
  split; [done|]. split.
  - intros i Hi. by rewrite list_lookup_insert_ne.
  - intros _. exists o. split; [done|].
    rewrite list_lookup_insert_eq; [done|]. by apply lookup_lt_Some in Ho.
Qed.

(** X3. Shifts against one base add up: a shift by [d1 >= 0] followed by
    a shift by [d2] is the shift by [d1 + d2], and the shift by 0 is the
    identity. *)
Theorem transform_transform (base loc : t) (d1 d2 : Z) :
  0 ≤ d1 →
  transform base (transform base loc d1) d2 = transform base loc (d1 + d2)
  ∧ transform base loc 0 = loc.
Proof.
  intros Hd. rewrite !(transform_unfold base loc).
  destruct (comparable base loc) eqn:Hc;
    [|rewrite transform_unfold, Hc; done].
  destruct (last (path base)) as [[bl|]|] eqn:Hl;
    try (rewrite transform_unfold, Hc, Hl; done).
  destruct (path loc !! (length base - 1)%nat) as [[o|]|] eqn:Ho;
    try (rewrite transform_unfold, Hc, Hl, Ho; done).
  destruct (Z.leb_spec bl o) as [Hle|Hgt].
  - split.
    + rewrite transform_unfold, comparable_shifted, Hl by done.
      unfold shifted at 1. simpl.
      rewrite list_lookup_insert_eq by (by apply lookup_lt_Some in Ho).
      destruct (Z.leb_spec bl (o + d1)); [|lia].
      unfold shifted. simpl. f_equal.
      rewrite list_insert_insert_eq. do 2 f_equal. lia.
    + destruct loc as [l]. unfold shifted. simpl in *. f_equal.
      replace (o + 0) with o by lia. by apply list_insert_id.
  - rewrite transform_unfold, Hc, Hl, Ho.
    destruct (Z.leb_spec bl o); [lia | done].
Qed.

(** X4. Shifting down and then up does not always give the location
    back: it does when loc's index is above base's last index (or when
    nothing shifts), and when the two indices are equal the location
    stays one below. *)
Theorem transform_down_up (base loc : t) (o bl : Z) :
  shifts base loc o →
  last (path base) = Some (PIndex bl) →
  transform base (transform base loc (-1)) 1
  = if bl <? o then loc else shifted base loc o (-1).
Proof.
  intros (Hc & bl' & Hl & Ho & Hle)%shifts_spec Hbl.
  assert (bl' = bl) as -> by congruence.
  rewrite (transform_unfold base loc), Hc, Hl, Ho.
  destruct (Z.leb_spec bl o); [|lia].
  rewrite transform_unfold, comparable_shifted, Hl by done.
  unfold shifted at 1. simpl.
  rewrite list_lookup_insert_eq by (by apply lookup_lt_Some in Ho).
  destruct (Z.ltb_spec bl o), (Z.leb_spec bl (o + -1)); try lia; [|done].
  destruct loc as [l]. unfold shifted. simpl in *. f_equal.
  rewrite list_insert_insert_eq.
  replace (o + -1 + 1) with o by lia. by apply list_insert_id.
Qed.

Lemma transform_down_up_witness :
  transform (mk [PIndex 2]) (transform (mk [PIndex 2]) (mk [PIndex 2]) (-1)) 1
  = mk [PIndex 1].
Proof.
  apply (transform_down_up (mk [PIndex 2]) (mk [PIndex 2]) 2 2); [|reflexivity].
  exists 2. split; [reflexivity|]. split; [reflexivity|]. split; [|lia].
  intros i Hi. simpl in Hi. lia.
Defined.

Lemma transform_transform_witness :
  transform (mk [PIndex 1]) (transform (mk [PIndex 1]) (mk [PIndex 3]) 2) (-1)
  = transform (mk [PIndex 1]) (mk [PIndex 3]) (2 + -1)
  ∧ transform (mk [PIndex 1]) (mk [PIndex 3]) 0 = mk [PIndex 3].
Proof. apply (transform_transform (mk [PIndex 1]) (mk [PIndex 3]) 2 (-1)). lia. Defined.

Lemma toIntArray_app (l l' : list PathItem) :
  toIntArray (l ++ l') = toIntArray l ++ toIntArray l'.
Proof.
  induction l as [|[n|s] l IH]; simpl; [done| |]; rewrite IH; [done|].
  by rewrite <- app_assoc.
Qed.

Lemma toIntArray_indices (ns : list Z) : toIntArray (PIndex <$> ns) = ns.
Proof.
  induction ns as [|n ns IH]; [done|].
  rewrite fmap_cons. cbn [toIntArray]. by rewrite IH.
Qed.

(** X5. The hash does not tell a string component from the numbers of
    its char codes: the two locations have the same [hashCode] under
    every hash function, and [equals] still tells them apart. *)
Theorem hashCode_string_as_codes (hashIntArrays : list Z → Z)
    (pre post : list PathItem) (s : string) :
  hashCode hashIntArrays (mk (pre ++ PAttr s :: post))
  = hashCode hashIntArrays (mk (pre ++ (PIndex <$> charCodes s) ++ post))
  ∧ equals hashIntArrays (mk (pre ++ PAttr s :: post))
                         (mk (pre ++ (PIndex <$> charCodes s) ++ post))
    = false.
Proof.
  split.
  - unfold hashCode. simpl. f_equal.
    rewrite !toIntArray_app. simpl. by rewrite toIntArray_indices.
  - apply not_true_is_false. intros [= H]%equals_spec.
    apply app_inv_head in H.
    destruct s; simpl in H; [|done].
    apply (f_equal List.length) in H. simpl in H. lia.
Qed.

(** X6. [last] throws exactly on the empty location; on any other one it
    answers the final component, and [slice(0, -1)] followed by it is
    the whole path.  [slice(0)] copies the location. *)
Theorem slice_last (loc : t) :
  (path loc = [] → NodeLocationAccess.last loc = Throw "Location is empty")
  ∧ (path loc ≠ [] →
       ∃ x, NodeLocationAccess.last loc = Ok x
            ∧ path (NodeLocationAccess.slice loc 0 (Some (-1))) ++ [x] = path loc)
  ∧ NodeLocationAccess.slice loc 0 None = loc.
Proof.
  destruct loc as [l]. unfold NodeLocationAccess.last, NodeLocationAccess.slice, length. simpl.
  split; [by intros ->|]. split.
  - intros Hne. destruct (exists_last Hne) as (l' & x & ->).
    exists x. rewrite length_app. simpl.
    replace (List.length l' + 1 - 1)%nat with (List.length l') by lia.
    rewrite lookup_app_r, Nat.sub_diag by lia. simpl.
    split; [by destruct l'|].
    unfold NodeLocationAccess.relativeIndex. simpl.
    replace (Z.to_nat (Z.max (Z.of_nat (List.length l' + 1) + -1) 0) - 0)%nat
      with (List.length l') by lia.
    by rewrite drop_0, take_app_length.
  - unfold NodeLocationAccess.relativeIndex. simpl. rewrite Nat.sub_0_r, drop_0. by rewrite firstn_all.
Qed.

End NodeLocationLaws.

(** ** Documents under the operations of a changeset *)

Module DocumentFacts.
Import Data Changeset StateFacts.

Lemma notin_ids_app (i : string) (l l' : list BlockDataElement) :
  (i ∉ id <$> (l ++ l')) ↔ (i ∉ id <$> l) ∧ (i ∉ id <$> l').
Proof. rewrite fmap_app, not_elem_of_app. done. Qed.

(** In a document whose ids are distinct, the block [b] of the body is
    apart from the title, from the blocks before it and from the blocks
    after it. *)
Lemma body_block_apart (ti : option BlockDataElement)
    (pre post : list BlockDataElement) (b : BlockDataElement) :
  NoDup (id <$> blockElements (mkDocument ti (pre ++ b :: post))) →
  (id b ∉ id <$> option_list ti) ∧ (id b ∉ id <$> pre) ∧ (id b ∉ id <$> post).
Proof.
  unfold blockElements. simpl. rewrite !fmap_app, fmap_cons.
  intros [_ [Hti Hd]]%NoDup_app.
  apply NoDup_app in Hd as [_ [Hpre [Hb _]%NoDup_cons]].
  split; [|split; [|done]].
  - intros Hin. apply (Hti _ Hin).
    apply elem_of_app. right. apply elem_of_cons. by left.
  - intros Hin. apply (Hpre _ Hin). apply elem_of_cons. by left.
Qed.

Lemma find_body_block (s : EditorState) (ti : option BlockDataElement)
    (pre post : list BlockDataElement) (b : BlockDataElement) :
  document s = mkDocument ti (pre ++ b :: post) →
  NoDup (id <$> blockElements (document s)) →
  getBlockElementById s (id b) = Some b.
Proof.
  intros Hdoc Hnd. rewrite Hdoc in Hnd.
  destruct (body_block_apart _ _ _ _ Hnd) as (Hti & Hpre & _).
  unfold getBlockElementById, blockElements. rewrite Hdoc. simpl.
  rewrite app_assoc. apply find_middle. by apply notin_ids_app.
Qed.

Lemma editText_title i dl (ti : option BlockDataElement) :
  (i ∉ id <$> option_list ti) → editText i dl <$> ti = ti.
Proof.
  destruct ti as [x|]; [|done]. simpl. intros Hx.
  rewrite editText_other; [done|]. set_solver.
Qed.

Lemma textEdit_body_block ti pre b post dl :
  (id b ∉ id <$> option_list ti) → (id b ∉ id <$> pre) → (id b ∉ id <$> post) →
  applyOperation (mkDocument ti (pre ++ b :: post)) (TextEdit (id b) dl)
  = mkDocument ti (pre ++ editText (id b) dl b :: post).
Proof.
  intros Hti Hpre Hpost. unfold applyOperation. cbn [title body].
  by rewrite editText_title, editText_middle.
Qed.

Lemma insertAfter_body_block nodes pre b post :
  (id b ∉ id <$> pre) →
  insertAfter nodes (id b) (pre ++ b :: post) = pre ++ b :: nodes ++ post.
Proof.
  induction pre as [|x pre IH]; simpl.
  - intros _. by rewrite hasId_self.
  - intros [Hx Hpre]%notin_ids_cons.
    apply hasId_false in Hx. rewrite Hx. by rewrite IH.
Qed.

Lemma removeNode_body_block ti pre b post :
  (id b ∉ id <$> option_list ti) → (id b ∉ id <$> pre) → (id b ∉ id <$> post) →
  applyOperation (mkDocument ti (pre ++ b :: post)) (RemoveNode (id b))
  = mkDocument ti (pre ++ post).
Proof.
  intros Hti Hpre Hpost. unfold applyOperation. cbn [title body].
  rewrite keepOthers_middle by done. f_equal.
  destruct ti as [x|]; [|done]. simpl.
  assert (id x ≠ id b) as Hx by set_solver.
  apply hasId_false in Hx. by rewrite Hx.
Qed.

Lemma nextSiblingIn_body_block pre b post :
  (id b ∉ id <$> pre) → nextSiblingIn (pre ++ b :: post) (id b) = head post.
Proof.
  induction pre as [|x pre IH]; simpl.
  - intros _. by rewrite hasId_self.
  - intros [Hx Hpre]%notin_ids_cons.
    apply hasId_false in Hx. rewrite Hx. by apply IH.
Qed.

(** Blocks of one document with the same id are the same block. *)
Lemma same_id_same_block (l : list BlockDataElement) (x y : BlockDataElement) :
  NoDup (id <$> l) → x ∈ l → y ∈ l → id x = id y → x = y.
Proof.
  intros Hnd Hx Hy Hid.
  apply list_elem_of_lookup in Hx as [i Hi], Hy as [j Hj].
  assert (i = j) as ->; [|congruence].
  eapply NoDup_lookup; [exact Hnd| |].
  - rewrite list_lookup_fmap, Hi. done.
  - rewrite list_lookup_fmap, Hj. simpl. by rewrite Hid.
Qed.

Lemma find_elem_of (i : string) (l : list BlockDataElement) b :
  List.find (hasId i) l = Some b → b ∈ l ∧ id b = i.
Proof.
  intros H. apply find_some in H as [Hin Hid].
  split; [by apply list_elem_of_In | by apply hasId_true].
Qed.

Lemma find_notin (i : string) (l : list BlockDataElement) :
  (i ∉ id <$> l) → List.find (hasId i) l = None.
Proof.
  induction l as [|x l IH]; [done|].
  intros [Hx Hl]%notin_ids_cons. simpl.
  apply hasId_false in Hx. rewrite Hx. by apply IH.
Qed.

Lemma startingAt_subseteq (i : string) (l : list BlockDataElement) :
  startingAt i l ⊆ l.
Proof.
  induction l as [|x l IH]; simpl; [done|].
  destruct (hasId i x); [done|]. set_solver.
Qed.

End DocumentFacts.

(** ** Edits at the cursor and insertion after a block *)

Module EditingFacts.
Import Data Registry Controller Editing StateFacts DocumentFacts.

Lemma length_applyChars (cs : list (Ascii.ascii * Delta.AttributesObject))
    (other : list Delta.Op) :
  Delta.fits other (length cs) = true →
  Z.of_nat (length (Delta.applyChars cs other))
  = Z.of_nat (length cs) + Delta.changeLength (Delta.mk other).
Proof.
  unfold Delta.changeLength. simpl.
  revert cs. induction other as [|[s a|n a|n] o IH]; intros cs; simpl.
  - lia.
  - intros [_ Hf]%andb_true_iff.
    rewrite length_app, DeltaFacts.length_explode, Nat2Z.inj_add, IH by done.
    lia.
  - intros [Hn%Nat.leb_le Hf]%andb_true_iff.
    rewrite length_app, length_fmap, length_take, Nat2Z.inj_add.
    rewrite IH by (by rewrite length_drop).
    rewrite length_drop. lia.
  - intros [Hn%Nat.leb_le Hf]%andb_true_iff.
    rewrite IH by (by rewrite length_drop).
    rewrite length_drop. lia.
Qed.

(** X7. [applyDeltaAtCursor] with the cursor collapsed in a block of
    type Text of the body, and a delta that is not empty, fits the text
    and does not delete more than lies before the cursor: the block's
    text becomes the text with the delta applied, no other block
    changes, and the cursor collapses in the block at the old offset
    plus the delta's [changeLength()] (within the new text if it was
    within the old one), whatever the apply options are. *)
Theorem applyDeltaAtCursor_edits (c : EditorController)
    (deltaGen : nat → Delta.t) (options : option Changeset.ApplyOptions)
    (ti : option BlockDataElement) (pre post : list BlockDataElement)
    (b : BlockDataElement) (m : BlockyTextModel) (offset : nat) :
  cursorState (state c) = Some (collapse (id b) offset) →
  document (state c) = mkDocument ti (pre ++ b :: post) →
  NoDup (id <$> blockElements (document (state c))) →
  t b = TextBlock_Name →
  textContent b = Some m →
  Delta.isDocument (delta m) = true →
  let change := deltaGen offset in
  Delta.ops change ≠ [] →
  Delta.fits (Delta.ops change) (textLength m) = true →
  0 ≤ Delta.changeLength change + Z.of_nat offset →
  ∃ c' m' (after : nat),
    applyDeltaAtCursor c deltaGen options = Returned c'
    ∧ document (state c')
      = mkDocument ti
          (pre ++ mkBlock (t b) (id b) (Some m') (attributes b) :: post)
    ∧ Delta.chars (delta m')
      = Delta.applyChars (Delta.chars (delta m)) (Delta.ops change)
    ∧ Delta.isDocument (delta m') = true
    ∧ cursorState (state c') = Some (collapse (id b) after)
    ∧ Z.of_nat after = Z.of_nat offset + Delta.changeLength change
    ∧ ((offset ≤ textLength m)%nat → (after ≤ textLength m')%nat)
    ∧ version (state c') = version (state c) + 1.
Proof.
  intros Hcur Hdoc Hnd Ht Hm Hd change _ Hfit Hpos.
  pose proof (find_body_block _ _ _ _ _ Hdoc Hnd) as Hfind.
  rewrite Hdoc in Hnd.
  destruct (body_block_apart _ _ _ _ Hnd) as (Hti & Hpre & Hpost).
  destruct (DeltaFacts.compose_document (delta m) change Hd Hfit)
    as [Hchars Hisdoc].
  eexists _, (mkTextModel (Delta.compose (delta m) change)),
         (Z.to_nat (Delta.changeLength change + Z.of_nat offset)).
  unfold applyDeltaAtCursor, getBlockElementAtCursor.
  rewrite Hcur. cbn [cursorId collapse endId]. rewrite Hfind, Ht.
  rewrite bool_decide_eq_true_2 by done.
  cbn [negb fmap option_fmap option_map startOffset collapse]. fold change.
  destruct (Z.ltb_spec (Delta.changeLength change + Z.of_nat offset) 0);
    [lia|].
  split; [reflexivity|].
  unfold Changeset.apply.
  cbn [state withState document cursorState version Changeset.operations
       Changeset.afterCursor Changeset.setCursorState Changeset.textEdit
       Changeset.new app foldl Changeset.applyOperation].
  rewrite Hdoc. cbn [title body].
  rewrite editText_title, editText_middle by done.
  rewrite (editText_text _ _ _ m), Ht by done.
  repeat split; try done.
  - lia.
  - intros Hoff. unfold textLength. simpl.
    rewrite <- (DeltaFacts.length_chars _ Hisdoc), Hchars.
    pose proof (length_applyChars (Delta.chars (delta m)) (Delta.ops change))
      as Hlen.
    rewrite (DeltaFacts.length_chars _ Hd) in Hlen.
    specialize (Hlen Hfit). unfold textLength in Hoff.
    replace (Delta.mk (Delta.ops change)) with change in Hlen
      by (by destruct change).
    lia.
Qed.

(** X8. [applyDeltaAtCursor] with deltas that are not empty does
    something exactly when the cursor names a live block of type Text:
    without a cursor, on an unknown id or on a block of another type
    (the title among them) it returns with the controller as it was. *)
Theorem applyDeltaAtCursor_only_on_text (c : EditorController)
    (deltaGen : nat → Delta.t) (options : option Changeset.ApplyOptions) :
  (∀ offset, Delta.ops (deltaGen offset) ≠ []) →
  applyDeltaAtCursor c deltaGen options = Returned c
  ↔ ¬ ∃ b, getBlockElementAtCursor c = Some b ∧ t b = TextBlock_Name.
Proof.
  intros _. unfold applyDeltaAtCursor, getBlockElementAtCursor.
  destruct (cursorState (state c)) as [cursor|] eqn:Hcur;
    [|split; [intros _ (b & [=] & _) | done]].
  destruct (getBlockElementById (state c) (cursorId cursor)) as [b|] eqn:Hb;
    [|split; [intros _ (b & [=] & _) | done]].
  case_bool_decide as Ht; cbn [negb fmap option_fmap option_map].
  - split.
    + destruct (_ <? 0); [done|]. intros [= Heq].
      apply (f_equal (λ c, version (state c))) in Heq.
      simpl in Heq. lia.
    + intros Hn. destruct Hn. eauto.
  - split; [|done]. intros _ (b' & [= <-] & Hb'). done.
Qed.

(** The ids stay distinct when a block with a new id is put behind a
    block of the body. *)
Lemma distinct_after_insert (ti : option BlockDataElement)
    (pre post : list BlockDataElement) (prevNode element : BlockDataElement) :
  NoDup (id <$> blockElements (mkDocument ti (pre ++ prevNode :: post))) →
  (id element ∉ id <$> blockElements (mkDocument ti (pre ++ prevNode :: post))) →
  NoDup (id <$> blockElements
                  (mkDocument ti (pre ++ prevNode :: element :: post))).
Proof.
  unfold blockElements. cbn [title body]. intros Hnd Hnew.
  assert (option_list ti ++ pre ++ prevNode :: element :: post
          ≡ₚ element :: option_list ti ++ pre ++ prevNode :: post) as ->.
  { rewrite (cons_middle prevNode pre (element :: post)), !app_assoc.
    rewrite <- Permutation_middle. by rewrite <- !app_assoc. }
  rewrite fmap_cons. by apply NoDup_cons.
Qed.

(** What [insertBlockAfterId] does behind a block of the body. *)
Lemma insertBlockAfterId_at (c : EditorController)
    (element : BlockDataElement) (options : option IInsertOptions)
    (ti : option BlockDataElement) (pre post : list BlockDataElement)
    (prevNode : BlockDataElement) :
  editor c = true →
  document (state c) = mkDocument ti (pre ++ prevNode :: post) →
  NoDup (id <$> blockElements (document (state c))) →
  ∃ c',
    insertBlockAfterId c element (id prevNode) options = Ok (c', id element)
    ∧ document (state c')
      = mkDocument ti (pre ++ prevNode :: element :: post)
    ∧ nextSibling (state c') prevNode = Some element
    ∧ cursorState (state c')
      = (if bool_decide (options ≫= autoFocus = Some true)
            && negb (bool_decide (options ≫= noRender = Some true))
         then Some (collapse (id element) 0)
         else cursorState (state c))
    ∧ version (state c') = version (state c) + 1
    ∧ idGenerator c' = idGenerator c
    ∧ ((id element ∉ id <$> blockElements (document (state c))) →
       NoDup (id <$> blockElements (document (state c')))).
Proof.
  intros Hed Hdoc Hnd.
  pose proof (find_body_block _ _ _ _ _ Hdoc Hnd) as Hfind.
  rewrite Hdoc in Hnd.
  destruct (body_block_apart _ _ _ _ Hnd) as (Hti & Hpre & Hpost).
  unfold insertBlockAfterId. rewrite Hfind, Hed. cbn [mbind Result_bind negb].
  assert (∀ cs k,
            Changeset.operations cs
            = [Changeset.InsertChildrenAfter [element] (id prevNode)] →
            Changeset.afterCursor cs = k →
            let s' := Changeset.apply cs Changeset.defaultOptions (state c) in
            document s' = mkDocument ti (pre ++ prevNode :: element :: post)
            ∧ nextSibling s' prevNode = Some element
            ∧ cursorState s' = match k with Some k => Some k
                                          | None => cursorState (state c) end
            ∧ version s' = version (state c) + 1
            ∧ idGenerator c = idGenerator c
            ∧ ((id element ∉ id <$> blockElements (document (state c))) →
               NoDup (id <$> blockElements (document s')))) as Happly.
  { intros cs k Hops Hk. unfold Changeset.apply. rewrite Hops, Hk, Hdoc.
    cbn [foldl Changeset.applyOperation title body document cursorState
         version Changeset.refreshCursor Changeset.defaultOptions].
    rewrite insertAfter_body_block by done.
    split; [done|]. split; [|split; [by destruct k|]].
    - unfold nextSibling. cbn [document body].
      by rewrite nextSiblingIn_body_block.
    - split; [done|]. split; [done|]. by apply distinct_after_insert. }
  case_bool_decide as Hnr; cbn [negb andb].
  - rewrite andb_false_r.
    eexists. split; [done|]. cbn [state withState]. by apply (Happly _ None).
  - rewrite andb_true_r. case_bool_decide as Haf.
    + eexists. split; [done|]. cbn [state withState].
      by apply (Happly _ (Some (collapse (id element) 0))).
    + eexists. split; [done|]. cbn [state withState].
      by apply (Happly _ None).
Qed.

(** X9. [insertBlockAfterId] with an editor mounted and [afterId] naming
    a block of the body: the element becomes the next sibling of that
    block, nothing else moves, the version grows by one and the id of
    the element is returned; the ids of the document stay distinct when
    the element's id is not in it.  The cursor collapses at the start of
    the element when [autoFocus] is set and [noRender] is not [true],
    and is left alone otherwise.  Nothing is checked: without an editor
    mounted, or with an [afterId] that names no live block, and only
    then, the call throws a [TypeError]. *)
Theorem insertBlockAfterId_places (c : EditorController)
    (element : BlockDataElement) (options : option IInsertOptions)
    (ti : option BlockDataElement) (pre post : list BlockDataElement)
    (prevNode : BlockDataElement) :
  editor c = true →
  document (state c) = mkDocument ti (pre ++ prevNode :: post) →
  NoDup (id <$> blockElements (document (state c))) →
  (∃ c',
     insertBlockAfterId c element (id prevNode) options = Ok (c', id element)
     ∧ document (state c')
       = mkDocument ti (pre ++ prevNode :: element :: post)
     ∧ nextSibling (state c') prevNode = Some element
     ∧ cursorState (state c')
       = (if bool_decide (options ≫= autoFocus = Some true)
             && negb (bool_decide (options ≫= noRender = Some true))
          then Some (collapse (id element) 0)
          else cursorState (state c))
     ∧ version (state c') = version (state c) + 1
     ∧ idGenerator c' = idGenerator c
     ∧ ((id element ∉ id <$> blockElements (document (state c))) →
        NoDup (id <$> blockElements (document (state c')))))
  ∧ (∀ (c0 : EditorController) (afterId : string),
       (editor c0 = false ∨ getBlockElementById (state c0) afterId = None)
       ↔ insertBlockAfterId c0 element afterId options = Throw "TypeError").
Proof.
  intros Hed Hdoc Hnd. split; [by apply insertBlockAfterId_at|].
  intros c0 afterId. unfold insertBlockAfterId.
  destruct (getBlockElementById (state c0) afterId) as [prev0|];
    cbn [mbind Result_bind nonNull]; [|by split; [|right]].
  destruct (editor c0); cbn [negb].
  - split; [by intros [|]|]. by repeat case_bool_decide.
  - split; [done|by left].
Qed.

End EditingFacts.

Module SpannerMenuFacts.
Import Data Registry Controller Editing SpannerMenu DocumentFacts.

(** X10. With an editor mounted and the focused node a block of the body
    (ids distinct), the menu's "Image" puts an empty block of the image
    type right behind the focused node, under the next id of the
    editor's generator, and "Text" a text block with empty text and the
    [textType] attribute, under the next id of the controller's
    generator; either way the cursor is put at the start of the new
    block and the other generator is left alone.  Without a focused node
    both do nothing, and without an editor both throw a TypeError. *)
Theorem menu_inserts_behind_focused (ImageBlockName : string)
    (textTypeValue : View.TextType → Delta.AttrValue)
    (c : EditorController) (g : IdGenerator) (textType : View.TextType)
    (ti : option BlockDataElement) (pre post : list BlockDataElement)
    (focused : BlockDataElement) :
  document (state c) = mkDocument ti (pre ++ focused :: post) →
  NoDup (id <$> blockElements (document (state c))) →
  let props := mkProps c (Some focused) in
  let img := mkBlock ImageBlockName (blockIds g (minted g)) None ∅ in
  let txt := mkBlock TextBlock_Name
               (blockIds (idGenerator c) (minted (idGenerator c)))
               (Some (mkTextModel Delta.empty))
               {[ "textType" := textTypeValue textType ]} in
  (editor c = true →
     (∃ c',
        insertImage ImageBlockName props g = Ok (c', (mkBlockId g).2)
        ∧ document (state c') = mkDocument ti (pre ++ focused :: img :: post)
        ∧ cursorState (state c') = Some (collapse (id img) 0)
        ∧ idGenerator c' = idGenerator c)
     ∧ (∃ c',
          insertText textTypeValue props textType = Ok c'
          ∧ document (state c') = mkDocument ti (pre ++ focused :: txt :: post)
          ∧ cursorState (state c') = Some (collapse (id txt) 0)
          ∧ idGenerator c' = (mkBlockId (idGenerator c)).2))
  ∧ (editor c = false →
       insertImage ImageBlockName props g = Throw "TypeError"
       ∧ insertText textTypeValue props textType = Throw "TypeError")
  ∧ insertImage ImageBlockName (mkProps c None) g = Ok (c, g)
  ∧ insertText textTypeValue (mkProps c None) textType = Ok c.
Proof.
  intros Hdoc Hnd props img txt. split; [|split; [|done]].
  - intros Hed. split.
    + destruct (EditingFacts.insertBlockAfterId_at c img
                  (Some (mkInsertOptions (Some true) None)) ti pre post
                  focused Hed Hdoc Hnd)
        as (c' & Hrun & Hd & _ & Hcur & _ & Hgen & _).
      exists c'. unfold insertImage, props. cbn [focusedNode editorController].
      rewrite Hed. cbn [negb mkBlockId]. fold img. rewrite Hrun.
      by cbn [mbind Result_bind].
    + set (c1 := withIdGenerator c (mkBlockId (idGenerator c)).2).
      destruct (EditingFacts.insertBlockAfterId_at c1 txt
                  (Some (mkInsertOptions (Some true) None)) ti pre post
                  focused Hed Hdoc Hnd)
        as (c' & Hrun & Hd & _ & Hcur & _ & Hgen & _).
      exists c'. unfold insertText, props, createTextElement.
      cbn [focusedNode editorController mkBlockId default]. fold txt.
      unfold c1 in Hrun. cbn [mkBlockId snd] in Hrun. rewrite Hrun.
      by cbn [mbind Result_bind].
  - intros Hed.
    pose proof (find_body_block _ _ _ _ _ Hdoc Hnd) as Hfind.
    split.
    + unfold insertImage, props. cbn [focusedNode editorController].
      by rewrite Hed.
    + unfold insertText, props, createTextElement.
      cbn [focusedNode editorController mkBlockId].
      unfold insertBlockAfterId. cbn [state withIdGenerator editor].
      rewrite Hfind, Hed. by cbn [mbind Result_bind nonNull negb].
Qed.

End SpannerMenuFacts.

(** ** Formatting: what it leaves alone, and the shared attributes *)

Module FormattingFacts.
Import Data Registry Controller StateFacts DocumentFacts FormatFacts.

Lemma fits_retain_retain (start len n : nat) (a : Delta.AttributesObject) :
  (start + len ≤ n)%nat →
  Delta.fits (Delta.ops (Delta.retain (Delta.retain Delta.empty start ∅) len a)) n
  = true.
Proof.
  intros Hn. rewrite retain_retain_ops.
  destruct (Nat.eqb_spec len 0), (Nat.eqb_spec start 0);
    try case_decide; cbn [Delta.fits]; rewrite ?andb_true_r;
    try done; rewrite ?andb_true_iff; repeat split; apply Nat.leb_le; lia.
Qed.

Lemma fst_formatChar (a : Delta.AttributesObject)
    (cs : list (Ascii.ascii * Delta.AttributesObject)) :
  fst <$> (Delta.formatChar a <$> cs) = fst <$> cs.
Proof. rewrite <- list_fmap_compose. by apply list_fmap_ext. Qed.

(** The text of a document after a retain of [start] and a retain of
    [len] with attributes: the same characters, and the same attributed
    characters outside the range. *)
Lemma format_range (d : Delta.t) (start len : nat) (a : Delta.AttributesObject) :
  Delta.isDocument d = true → (start + len ≤ Delta.length d)%nat →
  let d' := Delta.compose d
              (Delta.retain (Delta.retain Delta.empty start ∅) len a) in
  Delta.isDocument d' = true
  ∧ Delta.chars d'
    = take start (Delta.chars d)
        ++ (Delta.formatChar a <$> take len (drop start (Delta.chars d)))
        ++ drop (start + len) (Delta.chars d)
  ∧ fst <$> Delta.chars d' = fst <$> Delta.chars d
  ∧ take start (Delta.chars d') = take start (Delta.chars d)
  ∧ drop (start + len) (Delta.chars d') = drop (start + len) (Delta.chars d)
  ∧ Delta.length d' = Delta.length d.
Proof.
  intros Hd Hlen d'.
  destruct (DeltaFacts.compose_document d
              (Delta.retain (Delta.retain Delta.empty start ∅) len a) Hd)
    as [Hchars Hdoc]; [by apply fits_retain_retain|].
  fold d' in Hchars, Hdoc. rewrite applyChars_retain_retain in Hchars.
  pose proof (DeltaFacts.length_chars d Hd) as Hl.
  assert (fst <$> Delta.chars d' = fst <$> Delta.chars d) as Hfst.
  { rewrite Hchars, !fmap_app, fst_formatChar, <- !fmap_app. f_equal.
    by rewrite app_assoc, <- take_plus, take_drop. }
  split; [done|]. split; [done|]. split; [done|]. split; [|split].
  - rewrite Hchars, take_app_length'; [done|]. rewrite length_take. lia.
  - rewrite Hchars, app_assoc, drop_app_length'; [done|].
    rewrite length_app, length_fmap, !length_take, length_drop. lia.
  - rewrite <- (DeltaFacts.length_chars d' Hdoc), <- Hl.
    rewrite <- (length_fmap fst (Delta.chars d')), Hfst. by rewrite length_fmap.
Qed.

(** X11. [formatTextOnCursor] on an open cursor inside one block of type
    Text never changes the text: whatever attributes are asked for, the
    characters of the block and their number are as before, so are the
    attributed characters outside the selected range and every other
    block; the version grows by one. *)
Theorem formatTextOnCursor_keeps_text (c : EditorController)
    (b : BlockDataElement) (m : BlockyTextModel) (so eo : nat)
    (attribs : option Delta.AttributesObject) :
  editor c = true →
  getBlockElementById (state c) (id b) = Some b →
  t b = TextBlock_Name →
  textContent b = Some m →
  Delta.isDocument (delta m) = true →
  (so < eo)%nat → (eo ≤ textLength m)%nat →
  ∃ c' attribs' m',
    formatTextOnCursor c (mkCursor (id b) so (id b) eo) attribs
    = Ok (c', attribs')
    ∧ getBlockElementById (state c') (id b)
      = Some (mkBlock (t b) (id b) (Some m') (attributes b))
    ∧ fst <$> Delta.chars (delta m') = fst <$> Delta.chars (delta m)
    ∧ textLength m' = textLength m
    ∧ take so (Delta.chars (delta m')) = take so (Delta.chars (delta m))
    ∧ drop eo (Delta.chars (delta m')) = drop eo (Delta.chars (delta m))
    ∧ (∀ j, j ≠ id b →
         getBlockElementById (state c') j = getBlockElementById (state c) j)
    ∧ version (state c') = version (state c) + 1.
Proof.
  intros Hed Hget Ht Hm Hd Hlt Hle.
  set (attribs' :=
         match Delta.ops (Delta.slice (delta m) so eo), attribs with
         | [op], Some a => Some (unsetCarried op a)
         | _, _ => attribs
         end).
  set (edit := Delta.retain (Delta.retain Delta.empty so ∅) (eo - so)
                 (default ∅ attribs')).
  destruct (format_range (delta m) so (eo - so) (default ∅ attribs') Hd)
    as (Hdoc & _ & Hfst & Htake & Hdrop & Hlen);
    [unfold textLength in Hle; lia|]. fold edit in Hdoc, Hfst, Htake, Hdrop, Hlen.
  replace (so + (eo - so))%nat with eo in Hdrop by lia.
  exists (withState c
            (Changeset.apply (Changeset.textEdit Changeset.new b edit)
               (Changeset.mkOptions true) (state c))),
         attribs', (mkTextModel (Delta.compose (delta m) edit)).
  split; [|split; [|split; [done|split; [done|split; [done|split; [done|split]]]]]].
  - unfold formatTextOnCursor. rewrite Hed. cbn [negb].
    assert (isCollapsed (mkCursor (id b) so (id b) eo) = false) as ->.
    { unfold isCollapsed. cbn [startId endId startOffset endOffset].
      rewrite bool_decide_eq_true_2 by done.
      destruct (Nat.eqb_spec so eo); [lia | done]. }
    rewrite (split_single_block _ _ _ _ _ Hget Hm).
    cbn [formatWalk endId startOffset endOffset].
    rewrite Hget. cbn [nonNull mbind Result_bind].
    rewrite bool_decide_eq_true_2 by done. cbn [negb].
    unfold getTextModel. rewrite Hm. cbn [nonNull mbind Result_bind].
    done.
  - unfold getBlockElementById in *.
    cbn [state withState Changeset.apply document
      Changeset.operations Changeset.textEdit Changeset.new app foldl].
    rewrite blockElements_textEdit, find_editText, Hget.
    cbn [fmap option_fmap option_map].
    by rewrite (editText_text (id b) b _ m).
  - intros j Hj. unfold getBlockElementById in *.
    cbn [state withState Changeset.apply document
      Changeset.operations Changeset.textEdit Changeset.new app foldl].
    rewrite blockElements_textEdit, find_editText.
    destruct (List.find (hasId j) _) as [x|] eqn:Hx; [|done].
    apply find_hasId in Hx. cbn [fmap option_fmap option_map].
    rewrite editText_other; [done | congruence].
  - done.
Qed.

(** X12. The attributes object is shared by the blocks of the
    selection and written in place.  When the selection runs from a
    block of type Text into the next one and the selected part of the
    first block is one op that carries the key asked for, the key is
    set to [null] for both blocks: the edit of the second block retains
    its selected range with [{key: null}], whatever that range carried,
    so that no character of it holds the key afterwards. *)
Theorem formatTextOnCursor_shares_attribs (c : EditorController)
    (pre post : list BlockDataElement) (b1 b2 : BlockDataElement)
    (m1 m2 : BlockyTextModel) (so eo : nat)
    (key : string) (v : Delta.AttrValue) (op : Delta.Op) :
  editor c = true →
  blockElements (document (state c)) = pre ++ b1 :: b2 :: post →
  NoDup (id <$> blockElements (document (state c))) →
  t b1 = TextBlock_Name → t b2 = TextBlock_Name →
  textContent b1 = Some m1 → textContent b2 = Some m2 →
  Delta.ops (Delta.slice (delta m1) so (textLength m1)) = [op] →
  Delta.truthy (opAttributes op !! key) = true →
  let unset : Delta.AttributesObject := {[ key := Delta.VNull ]} in
  let edit1 :=
    Delta.retain (Delta.retain Delta.empty so ∅) (textLength m1 - so) unset in
  let edit2 := Delta.retain (Delta.retain Delta.empty 0 ∅) (eo - 0) unset in
  let c' :=
    withState c
      (Changeset.apply
         (Changeset.textEdit (Changeset.textEdit Changeset.new b1 edit1)
                             b2 edit2)
         (Changeset.mkOptions true) (state c)) in
  formatTextOnCursor c (mkCursor (id b1) so (id b2) eo) (Some {[ key := v ]})
  = Ok (c', Some unset)
  ∧ (Delta.isDocument (delta m2) = true → (eo ≤ textLength m2)%nat →
     ∃ m2',
       getBlockElementById (state c') (id b2)
       = Some (mkBlock (t b2) (id b2) (Some m2') (attributes b2))
       ∧ fst <$> Delta.chars (delta m2') = fst <$> Delta.chars (delta m2)
       ∧ ∀ ca, ca ∈ take eo (Delta.chars (delta m2')) → ca.2 !! key = None).
Proof.
  intros Hed Hdoc Hnd Ht1 Ht2 Hm1 Hm2 Hop Hcarry unset edit1 edit2 c'.
  rewrite Hdoc in Hnd.
  assert ((id b1 ∉ id <$> pre) ∧ (id b2 ∉ id <$> pre) ∧ id b1 ≠ id b2)
    as (Hpre1 & Hpre2 & Hne).
  { rewrite fmap_app, !fmap_cons in Hnd.
    apply NoDup_app in Hnd as (_ & Hpre & Hnd).
    apply NoDup_cons in Hnd as [Hb1 _].
    split; [|split].
    - intros Hin. apply (Hpre _ Hin). apply elem_of_cons. by left.
    - intros Hin. apply (Hpre _ Hin). apply elem_of_cons. right.
      apply elem_of_cons. by left.
    - intros Heq. apply Hb1. apply elem_of_cons. by left. }
  assert (getBlockElementById (state c) (id b1) = Some b1) as Hget1.
  { unfold getBlockElementById. rewrite Hdoc. by apply find_middle. }
  assert (getBlockElementById (state c) (id b2) = Some b2) as Hget2.
  { unfold getBlockElementById. rewrite Hdoc.
    rewrite (cons_middle b1), app_assoc. apply find_middle.
    rewrite fmap_app. apply not_elem_of_app. split; [done|].
    rewrite fmap_cons. apply not_elem_of_cons. split; [congruence|].
    apply not_elem_of_nil. }
  assert (hasId (id b2) b1 = false) as Hh21 by (by apply hasId_false).
  assert (hasId (id b1) b2 = false) as Hh12
    by (apply hasId_false; congruence).
  split.
  - unfold formatTextOnCursor. rewrite Hed. cbn [negb].
    assert (isCollapsed (mkCursor (id b1) so (id b2) eo) = false) as ->.
    { unfold isCollapsed. cbn [startId endId].
      by rewrite bool_decide_eq_false_2. }
    unfold splitCursorStateByBlocks. cbn [startId]. rewrite Hdoc.
    rewrite startingAt_middle by done.
    cbn [clipBlocks startId endId startOffset endOffset].
    rewrite Hm1, Hm2, !hasId_self, Hh21, Hh12.
    cbn [app formatWalk endId startOffset endOffset].
    rewrite Hget1. cbn [nonNull mbind Result_bind].
    rewrite bool_decide_eq_true_2 by done. cbn [negb].
    unfold getTextModel. rewrite Hm1. cbn [nonNull mbind Result_bind].
    rewrite Hop, unsetCarried_singleton, Hcarry.
    rewrite Hget2. cbn [nonNull mbind Result_bind].
    rewrite bool_decide_eq_true_2 by done. cbn [negb].
    rewrite Hm2. cbn [nonNull mbind Result_bind].
    assert (match Delta.ops (Delta.slice (delta m2) 0 eo) with
            | [op2] => Some (unsetCarried op2 {[ key := Delta.VNull ]})
            | _ => Some ({[ key := Delta.VNull ]} : Delta.AttributesObject)
            end = Some unset) as Hun.
    { destruct (Delta.ops (Delta.slice (delta m2) 0 eo)) as [|op2 [|? ?]];
        try done.
      rewrite unsetCarried_singleton.
      by destruct (Delta.truthy (opAttributes op2 !! key)). }
    by rewrite !Hun.
  - intros Hd2 Hle.
    destruct (format_range (delta m2) 0 (eo - 0) unset Hd2)
      as (_ & Hchars & Hfst & _); [unfold textLength in Hle; lia|].
    fold edit2 in Hchars, Hfst.
    exists (mkTextModel (Delta.compose (delta m2) edit2)).
    split; [|split; [done|]].
    + unfold c', getBlockElementById in *.
      cbn [state withState Changeset.apply document
        Changeset.operations Changeset.textEdit Changeset.new app foldl].
      rewrite !blockElements_textEdit, !find_editText, Hget2.
      cbn [fmap option_fmap option_map].
      rewrite (editText_other (id b1)) by congruence.
      by rewrite (editText_text (id b2) b2 _ m2).
    + intros ca. cbn [delta]. rewrite Hchars. rewrite take_0, drop_0. simpl.
      rewrite Nat.sub_0_r, take_app_length'
        by (rewrite length_fmap, length_take, DeltaFacts.length_chars by done;
            unfold textLength in Hle; lia).
      intros (x & -> & _)%list_elem_of_fmap. unfold Delta.formatChar. simpl.
      rewrite composeAttributes_lookup. unfold unset.
      by rewrite lookup_singleton_eq.
Qed.

End FormattingFacts.

(** ** Deleting a selection: blocks without text, missing blocks *)

Module DeletionFacts.
Import Data Registry Controller StateFacts DocumentFacts ControllerFacts.

(** X13. [deleteContentInsideInSelection] with both ends in one block of
    the body that is not text-like removes the block, whatever the
    offsets are.  With a next sibling the cursor collapses at its
    start and is returned; without one the call returns [null] and the
    state keeps the cursor it had. *)
Theorem deleteContentInsideInSelection_removes_block (c : EditorController)
    (ti : option BlockDataElement) (pre post : list BlockDataElement)
    (b : BlockDataElement) (k e : nat) :
  document (state c) = mkDocument ti (pre ++ b :: post) →
  NoDup (id <$> blockElements (document (state c))) →
  textContent b = None →
  ∃ c',
    deleteContentInsideInSelection c (mkCursor (id b) k (id b) e)
    = Ok (c', (λ next, collapse (id next) 0) <$> head post)
    ∧ document (state c') = mkDocument ti (pre ++ post)
    ∧ getBlockElementById (state c') (id b) = None
    ∧ cursorState (state c')
      = match head post with
        | Some next => Some (collapse (id next) 0)
        | None => cursorState (state c)
        end
    ∧ version (state c') = version (state c) + 1.
Proof.
  intros Hdoc Hnd Hm.
  pose proof (find_body_block _ _ _ _ _ Hdoc Hnd) as Hfind.
  rewrite Hdoc in Hnd.
  destruct (body_block_apart _ _ _ _ Hnd) as (Hti & Hpre & Hpost).
  unfold deleteContentInsideInSelection. cbn [startId endId cursorId].
  rewrite bool_decide_eq_true_2 by done.
  rewrite Hfind. cbn [nonNull mbind Result_bind].
  assert (isTextLike b = false) as ->.
  { unfold isTextLike. rewrite Hm. apply bool_decide_eq_false.
    by intros [? ?]. }
  unfold nextSibling. rewrite Hdoc. cbn [body].
  rewrite nextSiblingIn_body_block by done.
  assert (List.find (hasId (id b)) (option_list ti ++ pre ++ post) = None)
    as Hgone.
  { apply find_notin. by rewrite !notin_ids_app. }
  destruct (head post) as [next|] eqn:Hnext.
  - eexists. split; [done|].
    unfold Changeset.apply, getBlockElementById, blockElements.
    cbn [state withState document cursorState version Changeset.operations
         Changeset.afterCursor Changeset.setCursorState Changeset.removeChild
         Changeset.removeNode Changeset.new app foldl fmap option_fmap
         option_map].
    rewrite Hdoc, removeNode_body_block by done. cbn [title body].
    by rewrite Hgone.
  - eexists. split; [done|].
    unfold Changeset.apply, getBlockElementById, blockElements.
    cbn [state withState document cursorState version Changeset.operations
         Changeset.afterCursor Changeset.setCursorState Changeset.removeChild
         Changeset.removeNode Changeset.new app foldl fmap option_fmap
         option_map Changeset.refreshCursor Changeset.defaultOptions].
    rewrite Hdoc, removeNode_body_block by done. cbn [title body].
    by rewrite Hgone.
Qed.

End DeletionFacts.

(** ** The paste handlers *)

Module HandlerFacts.
Import Data Registry Controller.

Section Handler.
Variable JSON : Type.
Variable JSON_parse : string → option JSON.
Variable blockyNodeFromJsonNode : JSON → Result BlockyNode.

(** X15. What a return of [#divHandler] tells.  Either it answers
    nothing and the controller is as it was; or [data-content]
    deserialized to a block element, the answer is its clone, the
    generator gave exactly one id, that of the clone, and nothing else
    changed (the [OnPaste] of the definition is not run then); or the
    [OnPaste] handler of the registered definition ran on the element
    with the state and the generator as they stood, and the answer and
    the new state and generator are the handler's.  An element without
    (or with an empty) [data-type] gives nothing. *)
Theorem divHandler_frame (c c' : EditorController) (element : HTMLElement)
    (result : option BlockDataElement) :
  divHandler JSON JSON_parse blockyNodeFromJsonNode c element
  = Ok (result, c') →
  let dataType := getAttribute element "data-type" in
  let jsonData := getAttribute element "data-content" in
  ((result = None ∧ c' = c)
   ∨ (c' = withIdGenerator c (mkBlockId (idGenerator c)).2
      ∧ ∃ data node,
          JSON_parse (default EmptyString jsonData) = Some data
          ∧ blockyNodeFromJsonNode data = Ok (ElementNode node)
          ∧ result = Some (cloneWithId node (mkBlockId (idGenerator c)).1))
   ∨ (∃ blockDef pasteHandler s g,
        getBlockDefByName (blockRegistry c) (default EmptyString dataType)
        = Some blockDef
        ∧ OnPaste blockDef = Some pasteHandler
        ∧ (truthyString jsonData = false
           ∨ ∃ data, JSON_parse (default EmptyString jsonData) = Some data
                     ∧ blockyNodeFromJsonNode data = Ok OtherNode)
        ∧ pasteHandler element (state c) (idGenerator c) = Ok (result, (s, g))
        ∧ c' = mkController (editor c) s (blockRegistry c) g))
  ∧ (truthyString dataType = false → result = None ∧ c' = c).
Proof.
  intros Hrun dataType jsonData. revert Hrun. unfold divHandler.
  fold dataType jsonData.
  destruct (truthyString dataType); cbn [negb];
    [|intros [= <- <-]; split; [by left|done]].
  intros Hrun. split; [|done]. revert Hrun.
  assert (∀ blockDef,
            getBlockDefByName (blockRegistry c) (default EmptyString dataType)
            = Some blockDef →
            (truthyString jsonData = false
             ∨ ∃ data, JSON_parse (default EmptyString jsonData) = Some data
                       ∧ blockyNodeFromJsonNode data = Ok OtherNode) →
            pasteByDefinition c blockDef element = Ok (result, c') →
            (result = None ∧ c' = c)
            ∨ (c' = withIdGenerator c (mkBlockId (idGenerator c)).2
               ∧ ∃ data node,
                   JSON_parse (default EmptyString jsonData) = Some data
                   ∧ blockyNodeFromJsonNode data = Ok (ElementNode node)
                   ∧ result
                     = Some (cloneWithId node (mkBlockId (idGenerator c)).1))
            ∨ (∃ blockDef pasteHandler s g,
                 getBlockDefByName (blockRegistry c)
                   (default EmptyString dataType) = Some blockDef
                 ∧ OnPaste blockDef = Some pasteHandler
                 ∧ (truthyString jsonData = false
                    ∨ ∃ data,
                        JSON_parse (default EmptyString jsonData) = Some data
                        ∧ blockyNodeFromJsonNode data = Ok OtherNode)
                 ∧ pasteHandler element (state c) (idGenerator c)
                   = Ok (result, (s, g))
                 ∧ c' = mkController (editor c) s (blockRegistry c) g))
    as Hhandler.
  { intros blockDef Hdef Hno. unfold pasteByDefinition.
    destruct (OnPaste blockDef) as [pasteHandler|] eqn:Hon;
      [|intros [= <- <-]; by left].
    destruct (pasteHandler element (state c) (idGenerator c))
      as [[r [s g]]|] eqn:Hh; cbn [mbind Result_bind]; [|done].
    intros [= <- <-]. right; right. exists blockDef, pasteHandler, s, g.
    done. }
  destruct (getBlockDefByName _ _) as [blockDef|] eqn:Hdef;
    [|intros [= <- <-]; by left].
  specialize (Hhandler blockDef eq_refl).
  destruct (truthyString jsonData) eqn:Hjson; [|apply Hhandler; by left].
  destruct (JSON_parse _) as [data|] eqn:Hparse; [|done].
  destruct (blockyNodeFromJsonNode data) as [[node|]|] eqn:Hnode;
    cbn [mbind Result_bind]; [| |done].
  - intros [= <- <-]. right; left. split; [done|]. by exists data, node.
  - apply Hhandler. right. by exists data.
Qed.

End Handler.

End HandlerFacts.

(** ** Pasting block elements at the cursor *)

Module PastingFacts.
Import Data Registry Controller Pasting StateFacts DocumentFacts.

Lemma chars_concat (d other : Delta.t) :
  Delta.chars (Delta.concat d other) = Delta.chars d ++ Delta.chars other.
Proof.
  unfold Delta.concat, Delta.chars.
  destruct (Delta.ops other) as [|op r]; [by rewrite app_nil_r|].
  cbn [Delta.ops Delta.push].
  rewrite DeltaFacts.charsOps_app, DeltaFacts.charsOps_pushOps, <- app_assoc.
  f_equal. destruct op; simpl; by rewrite ?app_nil_r.
Qed.

Lemma isDocument_concat (d other : Delta.t) :
  Delta.isDocument d = true → Delta.isDocument other = true →
  Delta.isDocument (Delta.concat d other) = true.
Proof.
  unfold Delta.concat, Delta.isDocument. intros Hd Ho.
  destruct (Delta.ops other) as [|op r]; [done|].
  apply DeltaFacts.docOps_cons in Ho as [Hop Hr].
  cbn [Delta.ops Delta.push]. apply DeltaFacts.docOps_app. split; [|done].
  by apply DeltaFacts.docOps_pushOps.
Qed.

(** The change that cuts a text at [k] and puts [tail] in the place of
    what followed. *)
Lemma applyChars_replace_tail (cs : list (Ascii.ascii * Delta.AttributesObject))
    (k m : nat) (tail : list Delta.Op) :
  forallb Delta.isInsert tail = true →
  Delta.applyChars cs
    (Delta.ops (Delta.concat (Delta.delete (Delta.retain Delta.empty k ∅) m)
                             (Delta.mk tail)))
  = take k cs ++ Delta.charsOps tail ++ drop (k + m) cs
  ∧ ((k + m ≤ length cs)%nat →
     Delta.fits
       (Delta.ops (Delta.concat (Delta.delete (Delta.retain Delta.empty k ∅) m)
                                (Delta.mk tail)))
       (length cs) = true).
Proof.
  intros Htail. unfold Delta.concat. cbn [Delta.ops].
  destruct tail as [|op r].
  { rewrite DeltaFacts.applyChars_retain_delete. split; [done|].
    apply DeltaFacts.fits_retain_delete. }
  apply DeltaFacts.docOps_cons in Htail as [Hop Hr].
  destruct op as [s a| |]; try done.
  apply DeltaFacts.isInsert_Insert in Hop.
  unfold Delta.push. rewrite DeltaFacts.retain_delete_ops. cbn [Delta.ops].
  pose proof (DeltaFacts.applyChars_inserts) as Hins.
  pose proof (DeltaFacts.fits_inserts) as Hfits.
  pose proof (DeltaFacts.nonempty_true s Hop) as Hs.
  destruct (Nat.eqb_spec k 0) as [->|Hk], (Nat.eqb_spec m 0) as [->|Hm];
    cbn [app Delta.pushOps Delta.mergeInto Delta.applyChars Delta.fits
         Delta.charsOps];
    rewrite ?Hins, ?Hfits, ?Hs, ?DeltaFacts.fmap_formatChar_empty, ?take_0,
      ?drop_0, ?Nat.add_0_r, ?drop_drop, ?andb_true_r by done;
    cbn [app andb]; rewrite <- ?app_assoc.
  - done.
  - split; [done|]. intros ?. apply Nat.leb_le. lia.
  - split; [done|]. intros ?. apply Nat.leb_le. lia.
  - split; [done|]. intros ?. apply andb_true_iff.
    split; apply Nat.leb_le; lia.
Qed.

Lemma compose_replace_tail (d first : Delta.t) (k : nat) :
  Delta.isDocument d = true → Delta.isDocument first = true →
  (k ≤ Delta.length d)%nat →
  let d' := Delta.compose d
              (Delta.concat
                 (Delta.delete (Delta.retain Delta.empty k ∅)
                               (Delta.length d - k))
                 first) in
  Delta.chars d' = take k (Delta.chars d) ++ Delta.chars first
  ∧ Delta.isDocument d' = true.
Proof.
  intros Hd Hf Hk d'.
  pose proof (DeltaFacts.length_chars d Hd) as Hlen.
  destruct first as [tail]. unfold Delta.isDocument in Hf. cbn [Delta.ops] in Hf.
  destruct (applyChars_replace_tail (Delta.chars d) k (Delta.length d - k)
              tail Hf) as [Happ Hfit].
  destruct (DeltaFacts.compose_document d
              (Delta.concat
                 (Delta.delete (Delta.retain Delta.empty k ∅)
                               (Delta.length d - k))
                 (Delta.mk tail)) Hd) as [Hchars Hdoc].
  { rewrite Hlen in Hfit. apply Hfit. lia. }
  split; [|done]. subst d'. rewrite Hchars, Happ.
  rewrite (drop_ge (Delta.chars d)) by lia. by rewrite app_nil_r.
Qed.

Lemma pasteWalk_pushes (s : EditorState) (current : BlockDataElement)
    (len i : nat) (elements : list BlockDataElement) (acc : PasteLoop) :
  i ≠ 0%nat →
  pasteWalk s current len i elements acc
  = mkPasteLoop (changeset acc) (insertChildren acc ++ elements)
                (appendDelta acc).
Proof.
  revert i acc. induction elements as [|x l IH]; intros i acc Hi.
  - cbn [pasteWalk]. rewrite app_nil_r. by destruct acc.
  - cbn [pasteWalk]. destruct i; [done|]. cbn [Nat.eqb andb].
    rewrite IH by done. cbn [changeset insertChildren appendDelta].
    by rewrite <- app_assoc.
Qed.

Lemma isOpen_collapse (i : string) (offset : nat) :
  isOpen (collapse i offset) = false.
Proof.
  unfold isOpen, isCollapsed, collapse. cbn [startId endId startOffset endOffset].
  by rewrite bool_decide_eq_true_2, Nat.eqb_refl.
Qed.

Lemma edit_then_insert ti pre b post m dl ins :
  (id b ∉ id <$> option_list ti) → (id b ∉ id <$> pre) → (id b ∉ id <$> post) →
  textContent b = Some m →
  foldl Changeset.applyOperation (mkDocument ti (pre ++ b :: post))
    [Changeset.TextEdit (id b) dl; Changeset.InsertChildrenAfter ins (id b)]
  = mkDocument ti
      (pre ++ mkBlock (t b) (id b)
                (Some (mkTextModel (Delta.compose (delta m) dl)))
                (attributes b) :: ins ++ post).
Proof.
  intros Hti Hpre Hpost Hm. cbn [foldl].
  rewrite textEdit_body_block, (editText_text _ _ _ m) by done.
  cbn [Changeset.applyOperation title body]. f_equal.
  by apply (insertAfter_body_block ins pre
              (mkBlock (t b) (id b)
                 (Some (mkTextModel (Delta.compose (delta m) dl)))
                 (attributes b)) post).
Qed.

(** X16. Pasting one text-like element with the cursor collapsed in a
    text-like block inserts no block: the text of the element goes into
    the block's text at the cursor offset, and the cursor collapses
    behind it.  The id of the element is not used and no id is
    minted. *)
Theorem pasteElementsAtCursor_single_text (c : EditorController)
    (ti : option BlockDataElement) (pre post : list BlockDataElement)
    (b element : BlockDataElement) (m me : BlockyTextModel) (k : nat) :
  cursorState (state c) = Some (collapse (id b) k) →
  document (state c) = mkDocument ti (pre ++ b :: post) →
  NoDup (id <$> blockElements (document (state c))) →
  textContent b = Some m → textContent element = Some me →
  Delta.isDocument (delta m) = true → Delta.isDocument (delta me) = true →
  (k ≤ textLength m)%nat →
  ∃ c' m',
    pasteElementsAtCursor c [element] = Ok c'
    ∧ document (state c')
      = mkDocument ti
          (pre ++ mkBlock (t b) (id b) (Some m') (attributes b) :: post)
    ∧ Delta.chars (delta m')
      = take k (Delta.chars (delta m)) ++ Delta.chars (delta me)
          ++ drop k (Delta.chars (delta m))
    ∧ Delta.isDocument (delta m') = true
    ∧ cursorState (state c') = Some (collapse (id b) (k + textLength me))
    ∧ idGenerator c' = idGenerator c
    ∧ version (state c') = version (state c) + 1.
Proof.
  intros Hcur Hdoc Hnd Hm Hme Hd Hde Hk.
  pose proof (find_body_block _ _ _ _ _ Hdoc Hnd) as Hfind.
  rewrite Hdoc in Hnd.
  destruct (body_block_apart _ _ _ _ Hnd) as (Hti & Hpre & Hpost).
  destruct (DeltaFacts.compose_concat_at (delta m) (delta me) k Hd Hde Hk)
    as [Hchars Hisdoc].
  unfold pasteElementsAtCursor. cbn [length Nat.eqb]. rewrite Hcur.
  rewrite isOpen_collapse. unfold pasteAt.
  cbn [cursorId collapse endId]. rewrite Hfind.
  cbn [nonNull mbind Result_bind length pasteWalk Nat.eqb andb].
  rewrite (ControllerFacts.isTextLike_Some _ _ Hm),
    (ControllerFacts.isTextLike_Some _ _ Hme). cbn [andb].
  unfold getTextModel. rewrite Hm, Hme, Hcur.
  cbn [from_option cursorOffset collapse endOffset appendTail appendDelta
       mbind Result_bind changeset insertChildren].
  eexists _, (mkTextModel _).
  split; [done|].
  unfold Changeset.apply.
  cbn [state withState document cursorState version Changeset.operations
       Changeset.afterCursor Changeset.setCursorState Changeset.textEdit
       Changeset.insertChildrenAfter Changeset.new app idGenerator].
  rewrite Hdoc, (edit_then_insert _ _ _ _ m) by done.
  cbn [app delta]. done.
Qed.

(** X17. Pasting several elements, the first of them text-like, with
    the cursor collapsed at [k] in a text-like block of the body, splits
    the block's text at [k]: the block keeps the text before [k]
    followed by the text of the first element, the other elements come
    after the block in their order, and the text from [k] on is
    appended to the last of them when it is text-like (which then has
    the type Text, its own id and attributes, and the cursor at the
    junction), and otherwise goes into a new Text block with a minted
    id behind them (the cursor at its end). *)
Theorem pasteElementsAtCursor_splits (c : EditorController)
    (ti : option BlockDataElement) (pre post : list BlockDataElement)
    (b first lastChild : BlockDataElement) (others : list BlockDataElement)
    (m mf : BlockyTextModel) (k : nat) :
  cursorState (state c) = Some (collapse (id b) k) →
  document (state c) = mkDocument ti (pre ++ b :: post) →
  NoDup (id <$> blockElements (document (state c))) →
  textContent b = Some m → textContent first = Some mf →
  Delta.isDocument (delta m) = true → Delta.isDocument (delta mf) = true →
  (k ≤ textLength m)%nat →
  ∃ c' m' tail,
    pasteElementsAtCursor c (first :: others ++ [lastChild]) = Ok c'
    ∧ Delta.chars (delta m')
      = take k (Delta.chars (delta m)) ++ Delta.chars (delta mf)
    ∧ Delta.chars tail = drop k (Delta.chars (delta m))
    ∧ version (state c') = version (state c) + 1
    ∧ match textContent lastChild with
      | Some ml =>
          document (state c')
          = mkDocument ti
              (pre ++ mkBlock (t b) (id b) (Some m') (attributes b)
                 :: (others
                       ++ [mkBlock TextBlock_Name (id lastChild)
                             (Some (mkTextModel (Delta.concat (delta ml) tail)))
                             (attributes lastChild)])
                 ++ post)
          ∧ Delta.chars (Delta.concat (delta ml) tail)
            = Delta.chars (delta ml) ++ drop k (Delta.chars (delta m))
          ∧ cursorState (state c')
            = Some (collapse (id lastChild) (textLength ml))
          ∧ idGenerator c' = idGenerator c
      | None =>
          let newId := (mkBlockId (idGenerator c)).1 in
          document (state c')
          = mkDocument ti
              (pre ++ mkBlock (t b) (id b) (Some m') (attributes b)
                 :: (others
                       ++ [lastChild;
                           mkBlock TextBlock_Name newId
                             (Some (mkTextModel tail)) ∅])
                 ++ post)
          ∧ cursorState (state c')
            = Some (collapse newId (textLength m - k))
          ∧ idGenerator c' = (mkBlockId (idGenerator c)).2
      end.
Proof.
  intros Hcur Hdoc Hnd Hm Hmf Hd Hdf Hk.
  pose proof (find_body_block _ _ _ _ _ Hdoc Hnd) as Hfind.
  rewrite Hdoc in Hnd.
  destruct (body_block_apart _ _ _ _ Hnd) as (Hti & Hpre & Hpost).
  destruct (compose_replace_tail (delta m) (delta mf) k Hd Hdf Hk)
    as [Hchars Hisdoc].
  destruct (DeltaFacts.sliceFrom_document (delta m) k Hd) as [Htail Htaildoc].
  assert (pasteWalk (state c) b (length (first :: others ++ [lastChild])) 0
            (first :: others ++ [lastChild]) (mkPasteLoop Changeset.new [] None)
          = mkPasteLoop
              (Changeset.textEdit Changeset.new b
                 (Delta.concat
                    (Delta.delete (Delta.retain Delta.empty k ∅)
                                  (textLength m - k))
                    (delta mf)))
              (others ++ [lastChild])
              (Some (Delta.sliceFrom (delta m) k))) as Hwalk.
  { cbn [length pasteWalk Nat.eqb andb].
    rewrite (ControllerFacts.isTextLike_Some _ _ Hm),
      (ControllerFacts.isTextLike_Some _ _ Hmf). cbn [andb].
    unfold getTextModel. rewrite Hm, Hmf, Hcur.
    cbn [from_option cursorOffset collapse endOffset].
    rewrite length_app. cbn [length].
    destruct (Nat.eqb_spec (length others + 1) 0) as [|_]; [lia|].
    by rewrite pasteWalk_pushes. }
  assert (∀ r : Result EditorController,
            pasteAt c (collapse (id b) k) (first :: others ++ [lastChild]) = r →
            pasteElementsAtCursor c (first :: others ++ [lastChild]) = r)
    as Hrun.
  { intros r <-. unfold pasteElementsAtCursor. cbn [length Nat.eqb].
    by rewrite Hcur, isOpen_collapse. }
  unfold pasteAt in Hrun. cbn [cursorId collapse endId] in Hrun.
  rewrite Hfind in Hrun. cbn [nonNull mbind Result_bind] in Hrun.
  cbv zeta in Hrun. rewrite Hwalk in Hrun. unfold appendTail in Hrun.
  cbn [nonNull mbind Result_bind appendDelta insertChildren changeset] in Hrun.
  rewrite last_snoc in Hrun. unfold isTextLike, getTextModel in Hrun.
  destruct (textContent lastChild) as [ml|] eqn:Hml.
  - rewrite bool_decide_eq_true_2 in Hrun by eauto.
    cbn [nonNull mbind Result_bind changeset insertChildren] in Hrun.
    rewrite removelast_last in Hrun.
    eexists _, (mkTextModel _), (Delta.sliceFrom (delta m) k).
    split; [by apply Hrun|]. split; [exact Hchars|]. split; [done|].
    unfold Changeset.apply.
    cbn [state withState document cursorState version
         Changeset.operations Changeset.afterCursor Changeset.setCursorState
         Changeset.textEdit Changeset.insertChildrenAfter Changeset.new app
         idGenerator].
    rewrite Hdoc, (edit_then_insert _ _ _ _ m) by done.
    split; [done|]. split; [done|]. split; [|done].
    by rewrite chars_concat, Htail.
  - rewrite bool_decide_eq_false_2 in Hrun by (by intros [? ?]).
    unfold createTextElement, mkBlockId in Hrun.
    cbn [mbind Result_bind changeset insertChildren id fst snd] in Hrun.
    rewrite <- app_assoc in Hrun.
    eexists _, (mkTextModel _), (Delta.sliceFrom (delta m) k).
    split; [by apply Hrun|]. split; [exact Hchars|]. split; [done|].
    unfold Changeset.apply.
    cbn [state withState withIdGenerator document cursorState version
         Changeset.operations Changeset.afterCursor Changeset.setCursorState
         Changeset.textEdit Changeset.insertChildrenAfter Changeset.new app
         idGenerator].
    rewrite Hdoc, (edit_then_insert _ _ _ _ m) by done.
    split; [done|]. split; [done|]. split; [|done].
    unfold mkBlockId. cbn [fst]. do 2 f_equal.
    rewrite <- (DeltaFacts.length_chars _ Htaildoc), Htail, length_drop.
    by rewrite DeltaFacts.length_chars.
Qed.

(** X18. The text of the block at the cursor is split only when the
    block and the first pasted element are both text-like.  In every
    other case, with the cursor collapsed in a block of the body, all
    the elements are inserted behind the block in their order and the
    block, its text and the cursor stay as they were: a block without
    text pasted at an offset inside a text is not put between the two
    halves of the text. *)
Theorem pasteElementsAtCursor_inserts_behind (c : EditorController)
    (ti : option BlockDataElement) (pre post : list BlockDataElement)
    (b first : BlockDataElement) (others : list BlockDataElement) (k : nat) :
  cursorState (state c) = Some (collapse (id b) k) →
  document (state c) = mkDocument ti (pre ++ b :: post) →
  NoDup (id <$> blockElements (document (state c))) →
  textContent b = None ∨ textContent first = None →
  ∃ c',
    pasteElementsAtCursor c (first :: others) = Ok c'
    ∧ document (state c')
      = mkDocument ti (pre ++ b :: (first :: others) ++ post)
    ∧ cursorState (state c') = cursorState (state c)
    ∧ idGenerator c' = idGenerator c
    ∧ version (state c') = version (state c) + 1.
Proof.
  intros Hcur Hdoc Hnd Hno.
  pose proof (find_body_block _ _ _ _ _ Hdoc Hnd) as Hfind.
  rewrite Hdoc in Hnd.
  destruct (body_block_apart _ _ _ _ Hnd) as (Hti & Hpre & Hpost).
  unfold pasteElementsAtCursor. cbn [length Nat.eqb]. rewrite Hcur.
  rewrite isOpen_collapse. unfold pasteAt.
  cbn [cursorId collapse endId]. rewrite Hfind.
  cbn [nonNull mbind Result_bind length pasteWalk Nat.eqb andb].
  assert (isTextLike b && isTextLike first = false) as ->.
  { unfold isTextLike. destruct Hno as [-> | ->].
    - by rewrite bool_decide_eq_false_2 by (by intros [? ?]).
    - rewrite (bool_decide_eq_false_2 (is_Some None)) by (by intros [? ?]).
      apply andb_false_r. }
  rewrite pasteWalk_pushes by done.
  cbn [changeset insertChildren appendDelta app appendTail mbind Result_bind].
  eexists. split; [done|].
  unfold Changeset.apply.
  cbn [state withState document cursorState version Changeset.operations
       Changeset.afterCursor Changeset.insertChildrenAfter Changeset.new app
       idGenerator foldl Changeset.applyOperation Changeset.refreshCursor
       Changeset.defaultOptions].
  rewrite Hdoc. cbn [title body].
  by rewrite insertAfter_body_block.
Qed.

Lemma deleteWalk_collapsed (items : list BlockDataElement)
    (startNode : BlockDataElement) (endNode : option BlockDataElement)
    (cur : CursorState) (cs cs' : Changeset.changeset) :
  deleteWalk items startNode endNode cur cs = Ok cs' →
  (∀ k, Changeset.afterCursor cs = Some k → isOpen k = false) →
  ∀ k, Changeset.afterCursor cs' = Some k → isOpen k = false.
Proof.
  revert cs. induction items as [|item rest IH]; intros cs.
  - by intros [= <-].
  - cbn [deleteWalk].
    set (atEnd := match endNode with
                  | Some endNode => sameNode item endNode
                  | None => false
                  end).
    destruct (sameNode startNode item && isTextLike startNode).
    + destruct (getTextModel item); cbn [nonNull mbind Result_bind]; [|done].
      destruct atEnd.
      * intros [= <-] _ k [= <-]. apply isOpen_collapse.
      * intros Hw _. apply (IH _ Hw). intros k [= <-]. apply isOpen_collapse.
    + destruct (match endNode with
                | Some endNode => sameNode endNode item && isTextLike endNode
                | None => false
                end).
      * destruct (getTextModel item); cbn [nonNull mbind Result_bind]; [|done].
        destruct atEnd; [by intros [= <-]|].
        intros Hw Hcs. by apply (IH _ Hw).
      * cbn [mbind Result_bind].
        destruct atEnd; [by intros [= <-]|].
        intros Hw Hcs. by apply (IH _ Hw).
Qed.

(** The cursor [deleteContentInsideInSelection] returns is collapsed,
    and it is the cursor of the state afterwards. *)
Lemma deleteContent_cursor (c c1 : EditorController) (cur k : CursorState) :
  deleteContentInsideInSelection c cur = Ok (c1, Some k) →
  cursorState (state c1) = Some k ∧ isOpen k = false.
Proof.
  unfold deleteContentInsideInSelection.
  case_bool_decide.
  - destruct (getBlockElementById _ _) as [b|];
      cbn [nonNull mbind Result_bind]; [|done].
    destruct (isTextLike b).
    + intros [= <- <-]. split; [done | apply isOpen_collapse].
    + destruct (nextSibling (state c) b); [|done].
      intros [= <- <-]. split; [done | apply isOpen_collapse].
  - cbv zeta.
    destruct (getBlockElementById _ (startId cur)) as [startNode|];
      [|by intros [= _ [=]]].
    destruct (deleteWalk _ _ _ _ _) as [cs'|] eqn:Hw;
      cbn [mbind Result_bind]; [|done].
    intros [= <- Hk]. split.
    + unfold Changeset.apply. cbn [state withState cursorState].
      by rewrite Hk.
    + by apply (deleteWalk_collapsed _ _ _ _ _ _ Hw).
Qed.

(** X19. Pasting over an open selection is deleting the selection and
    then pasting at the cursor the deletion leaves, which is collapsed.
    When the deletion leaves no cursor (a block without text and without
    next sibling was removed) the content is deleted and nothing is
    pasted; an exception of the deletion is the exception of the
    paste. *)
Theorem pasteElementsAtCursor_over_selection (c : EditorController)
    (elements : list BlockDataElement) (cursor : CursorState) :
  elements ≠ [] →
  cursorState (state c) = Some cursor →
  isOpen cursor = true →
  pasteElementsAtCursor c elements
  = match deleteContentInsideInSelection c cursor with
    | Ok (c1, Some _) => pasteElementsAtCursor c1 elements
    | Ok (c1, None) => Ok c1
    | Throw err => Throw err
    end
  ∧ ∀ c1 k,
      deleteContentInsideInSelection c cursor = Ok (c1, Some k) →
      cursorState (state c1) = Some k ∧ isOpen k = false.
Proof.
  intros Hne Hcur Hopen. split; [|intros c1 k; apply deleteContent_cursor].
  unfold pasteElementsAtCursor at 1. rewrite Hcur, Hopen.
  destruct elements as [|x l]; [done|]. cbn [length Nat.eqb].
  destruct (deleteContentInsideInSelection c cursor) as [[c1 [k|]]|] eqn:Hdel;
    cbn [mbind Result_bind]; [|done|done].
  apply deleteContent_cursor in Hdel as [Hk Hcollapsed].
  unfold pasteElementsAtCursor. cbn [length Nat.eqb].
  by rewrite Hk, Hcollapsed.
Qed.

(** X20. Without a cursor the elements are pasted only into an empty
    body, of which they become the children; into a document that has
    blocks nothing is pasted and the controller stays as it is.  An
    empty list of elements changes nothing either. *)
Theorem pasteElementsAtCursor_without_cursor (c : EditorController)
    (elements : list BlockDataElement) :
  cursorState (state c) = None →
  ∃ c',
    pasteElementsAtCursor c elements = Ok c'
    ∧ (elements = [] ∨ body (document (state c)) ≠ [] → c' = c)
    ∧ (elements ≠ [] → body (document (state c)) = [] →
       document (state c')
       = mkDocument (title (document (state c))) elements
       ∧ cursorState (state c') = None
       ∧ version (state c') = version (state c) + 1).
Proof.
  intros Hcur.
  unfold pasteElementsAtCursor. rewrite Hcur.
  destruct elements as [|x l]; cbn [length Nat.eqb].
  { exists c. by repeat split. }
  destruct (body (document (state c))) as [|y r] eqn:Hbody.
  - eexists. split; [done|]. split; [by intros [|]|].
    intros _ _. unfold applyInsertChildrenAt.
    cbn [state withState document cursorState version].
    rewrite Hbody, Hcur. cbn [take drop app]. by rewrite app_nil_r.
  - exists c. split; [done|]. split; [done|]. by intros _ [=].
Qed.

Lemma styles_set (classnames : Classnames) (classes : list string)
    (acc : Delta.AttributesObject) (key : string) :
  let attributes :=
    foldl (λ attributes cls,
             match classnames !! cls with
             | Some styleName => <[styleName := Delta.VBool true]> attributes
             | None => attributes
             end) acc classes in
  ((∃ cls, cls ∈ classes ∧ classnames !! cls = Some key) →
   attributes !! key = Some (Delta.VBool true))
  ∧ ((∀ cls, cls ∈ classes → classnames !! cls ≠ Some key) →
     attributes !! key = acc !! key).
Proof.
  induction classes as [|x l IH] using rev_ind; cbn zeta.
  - split; [by intros (cls & Hin%elem_of_nil & _) | done].
  - rewrite foldl_app. cbn [foldl]. cbn zeta in IH. destruct IH as [IH1 IH2].
    split.
    + intros (cls & Hin & Hcls).
      destruct (classnames !! x) as [sty|] eqn:Hx.
      * destruct (decide (sty = key)) as [->|Hne];
          [by rewrite lookup_insert_eq|].
        rewrite lookup_insert_ne by done. apply IH1. exists cls.
        split; [|done]. apply elem_of_app in Hin as [|Hin]; [done|].
        apply list_elem_of_singleton in Hin. congruence.
      * apply IH1. exists cls.
        split; [|done]. apply elem_of_app in Hin as [|Hin]; [done|].
        apply list_elem_of_singleton in Hin. congruence.
    + intros Hnone.
      assert (∀ cls, cls ∈ l → classnames !! cls ≠ Some key) as Hl
        by (intros cls Hin; apply Hnone, elem_of_app; by left).
      destruct (classnames !! x) as [sty|] eqn:Hx; [|by apply IH2].
      rewrite lookup_insert_ne; [by apply IH2|].
      intros ->. apply (Hnone x); [|done].
      apply elem_of_app. right. by apply list_elem_of_singleton.
Qed.

(** X21. The attributes [getAttributesBySpan] reads off a span: every
    key under which one of the span's classes is registered as a style
    is [true]; any other key is absent, but [href], which holds the
    [data-href] attribute when that is not empty, else the [href]
    attribute of an anchor ([null] when the anchor has none), and is
    absent from a span that is neither. *)
Theorem getAttributesBySpan_lookup (classnames : Classnames)
    (span : SpanElement) (key : string) :
  ((∃ cls, cls ∈ classList span ∧ classnames !! cls = Some key) →
   getAttributesBySpan classnames span !! key = Some (Delta.VBool true))
  ∧ ((∀ cls, cls ∈ classList span → classnames !! cls ≠ Some key) →
     getAttributesBySpan classnames span !! key
     = if bool_decide (key = "href") then
         match getAttribute (element span) "data-href" with
         | Some href =>
             if bool_decide (href = EmptyString)
             then (if isAnchor span
                   then Some (from_option Delta.VStr Delta.VNull
                                (getAttribute (element span) "href"))
                   else None)
             else Some (Delta.VStr href)
         | None =>
             if isAnchor span
             then Some (from_option Delta.VStr Delta.VNull
                          (getAttribute (element span) "href"))
             else None
         end
       else None).
Proof.
  unfold getAttributesBySpan.
  match goal with
  | |- context [foldl ?f ?acc (classList span)] =>
      destruct (styles_set classnames (classList span) acc key) as [H1 H2]
  end.
  split; [exact H1|]. intros Hnone. cbn zeta in H2. rewrite (H2 Hnone).
  unfold truthyString.
  destruct (getAttribute (element span) "data-href") as [href|];
    [case_bool_decide as Hhref; cbn [negb]|];
    try destruct (isAnchor span);
    case_bool_decide as Hkey; subst;
    rewrite ?lookup_insert_eq, ?lookup_empty; try done;
    by rewrite lookup_insert_ne, lookup_empty.
Qed.

End PastingFacts.

(** ** The controller's edits and pastes on concrete documents *)

Module ScenarioFacts.
Import Data Registry Controller Examples Scenarios.

Ltac distinct_ids := apply (bool_decide_unpack _); vm_compute; exact I.

Lemma applyDeltaAtCursor_edits_witness :
  ∃ c' m' (after : nat),
    Editing.applyDeltaAtCursor (cursorAt "b2" 1) typeX None
    = Editing.Returned c'
    ∧ document (state c')
      = mkDocument None
          [textBlock "b1" "foo";
           mkBlock TextBlock_Name "b2" (Some m') ∅;
           textBlock "b3" "baz"]
    ∧ Delta.chars (delta m')
      = Delta.applyChars (Delta.chars (delta (plain "bar")))
          (Delta.ops (typeX 1))
    ∧ Delta.isDocument (delta m') = true
    ∧ cursorState (state c') = Some (collapse "b2" after)
    ∧ Z.of_nat after = Z.of_nat 1 + Delta.changeLength (typeX 1)
    ∧ ((1 ≤ textLength (plain "bar"))%nat → (after ≤ textLength m')%nat)
    ∧ version (state c') = version (state (cursorAt "b2" 1)) + 1.
Proof.
  apply (EditingFacts.applyDeltaAtCursor_edits (cursorAt "b2" 1) typeX None
           None [textBlock "b1" "foo"] [textBlock "b3" "baz"]
           (textBlock "b2" "bar") (plain "bar") 1);
    try reflexivity;
    [distinct_ids | vm_compute; discriminate | vm_compute; discriminate].
Defined.

Lemma applyDeltaAtCursor_only_on_text_witness :
  Editing.applyDeltaAtCursor aroundImage typeX None
  = Editing.Returned aroundImage
  ↔ ¬ ∃ b, Editing.getBlockElementAtCursor aroundImage = Some b
           ∧ t b = TextBlock_Name.
Proof.
  apply (EditingFacts.applyDeltaAtCursor_only_on_text aroundImage typeX None).
  intros offset. vm_compute. destruct offset; discriminate.
Defined.

Lemma insertBlockAfterId_places_witness :
  ∃ c',
    Editing.insertBlockAfterId fooBarBaz (image "img") "b2"
      (Some (Editing.mkInsertOptions (Some true) None))
    = Ok (c', "img")
    ∧ document (state c')
      = mkDocument None
          [textBlock "b1" "foo"; textBlock "b2" "bar"; image "img";
           textBlock "b3" "baz"]
    ∧ nextSibling (state c') (textBlock "b2" "bar") = Some (image "img")
    ∧ cursorState (state c') = Some (collapse "img" 0)
    ∧ version (state c') = 1
    ∧ idGenerator c' = idGenerator fooBarBaz
    ∧ (("img" ∉ id <$> blockElements (document (state fooBarBaz))) →
       NoDup (id <$> blockElements (document (state c')))).
Proof.
  apply (proj1
           (EditingFacts.insertBlockAfterId_places fooBarBaz (image "img")
              (Some (Editing.mkInsertOptions (Some true) None)) None
              [textBlock "b1" "foo"] [textBlock "b3" "baz"]
              (textBlock "b2" "bar")
              eq_refl eq_refl ltac:(distinct_ids))).
Defined.

Lemma menu_inserts_behind_focused_witness :
  ∃ c',
    SpannerMenu.insertImage "Image"
      (SpannerMenu.mkProps fooBarBaz (Some (textBlock "b2" "bar"))) generator
    = Ok (c', (mkBlockId generator).2)
    ∧ document (state c')
      = mkDocument None
          [textBlock "b1" "foo"; textBlock "b2" "bar"; image "Blk-";
           textBlock "b3" "baz"]
    ∧ cursorState (state c') = Some (collapse "Blk-" 0)
    ∧ idGenerator c' = idGenerator fooBarBaz.
Proof.
  apply (proj1
           (proj1
              (SpannerMenuFacts.menu_inserts_behind_focused "Image"
                 (λ _, Delta.VBool true) fooBarBaz generator View.Normal None
                 [textBlock "b1" "foo"] [textBlock "b3" "baz"]
                 (textBlock "b2" "bar") eq_refl ltac:(distinct_ids))
              eq_refl)).
Defined.

Lemma formatTextOnCursor_keeps_text_witness :
  ∃ c' attribs' m',
    formatTextOnCursor twoBoldRuns (mkCursor "b1" 1 "b1" 3)
      (Some {[ "italic" := Delta.VBool true ]})
    = Ok (c', attribs')
    ∧ getBlockElementById (state c') "b1"
      = Some (mkBlock TextBlock_Name "b1" (Some m') ∅)
    ∧ fst <$> Delta.chars (delta m') = fst <$> Delta.chars (delta boldRuns)
    ∧ textLength m' = textLength boldRuns
    ∧ take 1 (Delta.chars (delta m')) = take 1 (Delta.chars (delta boldRuns))
    ∧ drop 3 (Delta.chars (delta m')) = drop 3 (Delta.chars (delta boldRuns))
    ∧ (∀ j, j ≠ "b1" →
         getBlockElementById (state c') j
         = getBlockElementById (state twoBoldRuns) j)
    ∧ version (state c') = version (state twoBoldRuns) + 1.
Proof.
  apply (FormattingFacts.formatTextOnCursor_keeps_text twoBoldRuns
           boldRunsBlock boldRuns 1 3
           (Some {[ "italic" := Delta.VBool true ]}));
    try reflexivity; [lia | vm_compute; lia].
Defined.

Lemma formatTextOnCursor_shares_attribs_witness :
  formatTextOnCursor boldThenPlain (mkCursor "b1" 0 "b2" 1)
    (Some {[ "bold" := Delta.VBool true ]})
  = Ok (withState boldThenPlain
          (Changeset.apply
             (Changeset.textEdit
                (Changeset.textEdit Changeset.new
                   (mkBlock TextBlock_Name "b1"
                      (Some (mkTextModel (Delta.mk [Delta.Insert "ab" bold])))
                      ∅)
                   (Delta.mk [Delta.Retain 2 {[ "bold" := Delta.VNull ]}]))
                (textBlock "b2" "cd")
                (Delta.mk [Delta.Retain 1 {[ "bold" := Delta.VNull ]}]))
             (Changeset.mkOptions true) (state boldThenPlain)),
        Some {[ "bold" := Delta.VNull ]}).
Proof.
  apply (proj1
           (FormattingFacts.formatTextOnCursor_shares_attribs boldThenPlain
              [] []
              (mkBlock TextBlock_Name "b1"
                 (Some (mkTextModel (Delta.mk [Delta.Insert "ab" bold]))) ∅)
              (textBlock "b2" "cd")
              (mkTextModel (Delta.mk [Delta.Insert "ab" bold])) (plain "cd")
              0 1 "bold" (Delta.VBool true) (Delta.Insert "ab" bold)
              eq_refl eq_refl ltac:(distinct_ids) eq_refl eq_refl eq_refl
              eq_refl eq_refl eq_refl)).
Defined.

Lemma deleteContentInsideInSelection_removes_block_witness :
  ∃ c',
    deleteContentInsideInSelection aroundImage (mkCursor "img" 0 "img" 0)
    = Ok (c', Some (collapse "b3" 0))
    ∧ document (state c')
      = mkDocument None [textBlock "b1" "foo"; textBlock "b3" "baz"]
    ∧ getBlockElementById (state c') "img" = None
    ∧ cursorState (state c') = Some (collapse "b3" 0)
    ∧ version (state c') = 1.
Proof.
  apply (DeletionFacts.deleteContentInsideInSelection_removes_block
           aroundImage None [textBlock "b1" "foo"] [textBlock "b3" "baz"]
           (image "img") 0 0);
    [reflexivity | distinct_ids | reflexivity].
Defined.

Lemma divHandler_frame_witness :
  ∃ s g,
    pastesImage foreignDiv (state imagePasting) (idGenerator imagePasting)
    = Ok (Some (image "Blk-"), (s, g))
    ∧ cursorState s = Some (collapse "Blk-" 0)
    ∧ minted g = 1%nat.
Proof.
  destruct (HandlerFacts.divHandler_frame string parseText nodeOfText
              imagePasting
              (mkController true
                 (mkState (mkDocument None []) (Some (collapse "Blk-" 0)) 0)
                 (blockRegistry imagePasting)
                 (mkBlockId (idGenerator imagePasting)).2)
              foreignDiv (Some (image "Blk-")) eq_refl)
    as [[[Hnone _]|[[Hclone _]
                   |(blockDef & pasteHandler & s & g & Hdef & Hon & _ & Hrun & Hc)]]
        _].
  - discriminate Hnone.
  - apply (f_equal (λ c, cursorState (state c))) in Hclone.
    discriminate Hclone.
  - injection Hdef as <-. injection Hon as <-. exists s, g.
    split; [exact Hrun|]. injection Hc as <- <-. split; reflexivity.
Defined.

Lemma pasteElementsAtCursor_single_text_witness :
  ∃ c' m',
    Pasting.pasteElementsAtCursor (cursorAt "b2" 1) [textBlock "new" "XY"]
    = Ok c'
    ∧ document (state c')
      = mkDocument None
          [textBlock "b1" "foo"; mkBlock TextBlock_Name "b2" (Some m') ∅;
           textBlock "b3" "baz"]
    ∧ Delta.chars (delta m')
      = take 1 (Delta.chars (delta (plain "bar")))
          ++ Delta.chars (delta (plain "XY"))
          ++ drop 1 (Delta.chars (delta (plain "bar")))
    ∧ Delta.isDocument (delta m') = true
    ∧ cursorState (state c') = Some (collapse "b2" 3)
    ∧ idGenerator c' = idGenerator (cursorAt "b2" 1)
    ∧ version (state c') = 1.
Proof.
  apply (PastingFacts.pasteElementsAtCursor_single_text (cursorAt "b2" 1)
           None [textBlock "b1" "foo"] [textBlock "b3" "baz"]
           (textBlock "b2" "bar") (textBlock "new" "XY")
           (plain "bar") (plain "XY") 1);
    try reflexivity; [distinct_ids | vm_compute; lia].
Defined.

Lemma pasteElementsAtCursor_splits_witness :
  ∃ c' m' tail,
    Pasting.pasteElementsAtCursor (cursorAt "b2" 1)
      [textBlock "n1" "X"; image "n2"; textBlock "n3" "Y"]
    = Ok c'
    ∧ Delta.chars (delta m')
      = take 1 (Delta.chars (delta (plain "bar")))
          ++ Delta.chars (delta (plain "X"))
    ∧ Delta.chars tail = drop 1 (Delta.chars (delta (plain "bar")))
    ∧ version (state c') = 1
    ∧ document (state c')
      = mkDocument None
          [textBlock "b1" "foo";
           mkBlock TextBlock_Name "b2" (Some m') ∅;
           image "n2";
           mkBlock TextBlock_Name "n3"
             (Some (mkTextModel (Delta.concat (delta (plain "Y")) tail))) ∅;
           textBlock "b3" "baz"]
    ∧ Delta.chars (Delta.concat (delta (plain "Y")) tail)
      = Delta.chars (delta (plain "Y"))
          ++ drop 1 (Delta.chars (delta (plain "bar")))
    ∧ cursorState (state c') = Some (collapse "n3" 1)
    ∧ idGenerator c' = idGenerator (cursorAt "b2" 1).
Proof.
  apply (PastingFacts.pasteElementsAtCursor_splits (cursorAt "b2" 1)
           None [textBlock "b1" "foo"] [textBlock "b3" "baz"]
           (textBlock "b2" "bar") (textBlock "n1" "X") (textBlock "n3" "Y")
           [image "n2"] (plain "bar") (plain "X") 1);
    try reflexivity; [distinct_ids | vm_compute; lia].
Defined.

Lemma pasteElementsAtCursor_inserts_behind_witness :
  ∃ c',
    Pasting.pasteElementsAtCursor (cursorAt "b2" 1)
      [image "n1"; textBlock "n2" "Y"]
    = Ok c'
    ∧ document (state c')
      = mkDocument None
          [textBlock "b1" "foo"; textBlock "b2" "bar"; image "n1";
           textBlock "n2" "Y"; textBlock "b3" "baz"]
    ∧ cursorState (state c') = Some (collapse "b2" 1)
    ∧ idGenerator c' = idGenerator (cursorAt "b2" 1)
    ∧ version (state c') = 1.
Proof.
  apply (PastingFacts.pasteElementsAtCursor_inserts_behind (cursorAt "b2" 1)
           None [textBlock "b1" "foo"] [textBlock "b3" "baz"]
           (textBlock "b2" "bar") (image "n1") [textBlock "n2" "Y"] 1);
    [reflexivity | reflexivity | distinct_ids | right; reflexivity].
Defined.

Lemma pasteElementsAtCursor_over_selection_witness :
  Pasting.pasteElementsAtCursor (selecting (mkCursor "b1" 1 "b3" 2))
    [textBlock "n" "X"]
  = match deleteContentInsideInSelection (selecting (mkCursor "b1" 1 "b3" 2))
            (mkCursor "b1" 1 "b3" 2) with
    | Ok (c1, Some _) => Pasting.pasteElementsAtCursor c1 [textBlock "n" "X"]
    | Ok (c1, None) => Ok c1
    | Throw err => Throw err
    end.
Proof.
  apply (proj1
           (PastingFacts.pasteElementsAtCursor_over_selection
              (selecting (mkCursor "b1" 1 "b3" 2)) [textBlock "n" "X"]
              (mkCursor "b1" 1 "b3" 2)
              ltac:(discriminate) eq_refl eq_refl)).
Defined.

Lemma pasteElementsAtCursor_without_cursor_witness :
  ∃ c',
    Pasting.pasteElementsAtCursor fooBarBaz [textBlock "n" "X"] = Ok c'
    ∧ ([textBlock "n" "X"] = [] ∨ body (document (state fooBarBaz)) ≠ [] →
       c' = fooBarBaz)
    ∧ ([textBlock "n" "X"] ≠ [] → body (document (state fooBarBaz)) = [] →
       document (state c')
       = mkDocument (title (document (state fooBarBaz))) [textBlock "n" "X"]
       ∧ cursorState (state c') = None
       ∧ version (state c') = version (state fooBarBaz) + 1).
Proof.
  apply (PastingFacts.pasteElementsAtCursor_without_cursor fooBarBaz
           [textBlock "n" "X"]).
  reflexivity.
Defined.

End ScenarioFacts.

(** ** The view layer: cursor changes *)

Module CursorFacts.
Import Registry View ViewPaste.

Lemma areEqualShallow_spec (a b : Value) : areEqualShallow a b = true ↔ a = b.
Proof.
  destruct a as [p|fa], b as [q|fb]; cbn [areEqualShallow]; try done.
  - rewrite bool_decide_eq_true. split; congruence.
  - rewrite andb_true_iff, !bool_decide_eq_true. split.
    + intros [Hab Hba]. f_equal. apply map_eq. intros key.
      destruct (fa !! key) as [v|] eqn:Ha.
      * symmetry. by apply Hab.
      * destruct (fb !! key) as [w|] eqn:Hb; [|done].
        destruct (Hba key w Hb) as [v Hv]. congruence.
    + intros [= ->]. split.
      * by intros key v Hv.
      * intros key v Hv. by eexists.
Qed.

(** X22. [areEqualShallow] decides equality: of two primitives, and of
    two objects by their properties (the same names with the same
    values); an object is never equal to a primitive. *)
Theorem areEqualShallow_decides (a b : Value) :
  areEqualShallow a b = bool_decide (a = b).
Proof.
  destruct (areEqualShallow a b) eqn:He; symmetry.
  - by apply bool_decide_eq_true, areEqualShallow_spec.
  - apply bool_decide_eq_false. intros Hab%areEqualShallow_spec. congruence.
Qed.

Lemma cursorValue_inj (c c' : option CursorState) :
  cursorValue c = cursorValue c' → c = c'.
Proof.
  assert (∀ (m m' : gmap string Primitive) key,
            Object m = Object m' → m !! key = m' !! key) as Hlook
    by (by intros m m' key [= ->]).
  destruct c as [[i o|si so ei eo]|], c' as [[i' o'|si' so' ei' eo']|];
    cbn [cursorValue]; try done; intros Heq.
  - pose proof (Hlook _ _ "targetId" Heq) as H1.
    pose proof (Hlook _ _ "offset" Heq) as H2.
    rewrite !lookup_insert_ne, !lookup_insert_eq in H1 by done.
    rewrite !lookup_insert_ne, !lookup_singleton_eq in H2 by done.
    injection H1 as ->. injection H2 as ->%Nat2Z.inj. done.
  - pose proof (Hlook _ _ "startId" Heq) as H1.
    pose proof (Hlook _ _ "startOffset" Heq) as H2.
    pose proof (Hlook _ _ "endId" Heq) as H3.
    pose proof (Hlook _ _ "endOffset" Heq) as H4.
    rewrite !lookup_insert_ne, !lookup_insert_eq in H1 by done.
    rewrite !lookup_insert_ne, !lookup_insert_eq in H2 by done.
    rewrite !lookup_insert_ne, !lookup_insert_eq in H3 by done.
    rewrite !lookup_insert_ne, !lookup_singleton_eq in H4 by done.
    injection H1 as ->. injection H2 as ->%Nat2Z.inj.
    injection H3 as ->. injection H4 as ->%Nat2Z.inj. done.
Qed.

(** X23. [handleCursorStateChanged] touches the selection only when the
    new cursor differs from the old one, and a new open cursor moves
    nothing.  It throws exactly when there is a selection and the new
    cursor differs from the old one and is collapsed, and then either
    its block has no element in [domMap] (the error reads
    [dom not found: <id>]), or the element is the div of a block whose
    tree node has no block in [state.blocks] (a [TypeError]), or the
    [blockFocused] of that block throws.  A div without [_mgNode]
    focuses nothing, silently. *)
Theorem handleCursorStateChanged_effects (hasSelection : bool)
    (domMap : string → option DomNode) (blocksMap : string → option Block)
    (newState oldState : option CursorState) :
  let run :=
    handleCursorStateChanged hasSelection domMap blocksMap newState oldState in
  (newState = oldState → run = Ok NoEffect)
  ∧ (∀ err,
       run = Throw err
       ↔ hasSelection = true ∧ newState ≠ oldState
         ∧ ∃ targetId offset,
             newState = Some (Collapsed targetId offset)
             ∧ ((domMap targetId = None
                 ∧ err = "dom not found: " +:+ targetId)
                ∨ (∃ nodeId,
                     domMap targetId = Some (BlockDiv (Some nodeId))
                     ∧ match blocksMap nodeId with
                       | None => err = "TypeError"
                       | Some block => block targetId offset = Throw err
                       end)))
  ∧ (∀ effect,
       run = Ok effect →
       effect ≠ NoEffect →
       hasSelection = true ∧ newState ≠ oldState
       ∧ match newState with
         | None => effect = RemoveAllRanges
         | Some (Collapsed targetId offset) =>
             (domMap targetId = Some OtherElement ∧ effect = UnknownElement)
             ∨ (∃ nodeId block,
                  domMap targetId = Some (BlockDiv (Some nodeId))
                  ∧ blocksMap nodeId = Some block
                  ∧ block targetId offset = Ok ()
                  ∧ effect = BlockFocused nodeId targetId offset)
         | Some (Open _ _ _ _) => False
         end).
Proof.
  intros run. subst run. unfold handleCursorStateChanged.
  assert (areEqualShallow (cursorValue newState) (cursorValue oldState)
          = bool_decide (newState = oldState)) as ->.
  { destruct (areEqualShallow _ _) eqn:He; symmetry.
    - by apply bool_decide_eq_true, cursorValue_inj, areEqualShallow_spec.
    - apply bool_decide_eq_false. intros ->.
      assert (areEqualShallow (cursorValue oldState) (cursorValue oldState)
              = true) by (by apply areEqualShallow_spec).
      congruence. }
  case_bool_decide as Hsame; [split; [done|split]|].
  { intros err. split; [done|]. by intros (_ & Hne & _). }
  { by intros effect [= <-] Hne. }
  split; [done|]. destruct hasSelection; cbn [negb];
    [|split; [|by intros effect [= <-]];
      intros err; split; [done|]; by intros ([=] & _)].
  destruct newState as [[targetId offset|? ? ? ?]|];
    [|split; [|by intros effect [= <-]];
      intros err; split; [done|]; by intros (_ & _ & i & o & [=] & _)
     |split; [|by intros effect [= <-] _];
      intros err; split; [done|]; by intros (_ & _ & i & o & [=] & _)].
  destruct (domMap targetId) as [[[nodeId|]|]|] eqn:Hdom; cbn [focusBlock].
  - destruct (blocksMap nodeId) as [block|] eqn:Hblock;
      cbn [nonNull mbind Result_bind].
    + destruct (block targetId offset) as [[]|e] eqn:Hfocus;
        cbn [mbind Result_bind].
      * split.
        -- intros err. split; [done|].
           intros (_ & _ & i & o & [= <- <-] & [[? _]|(n & ? & Hb)]);
             [congruence|].
           assert (n = nodeId) as -> by congruence.
           rewrite Hblock in Hb. congruence.
        -- intros effect [= <-] _. split; [done|]. split; [done|].
           right. by exists nodeId, block.
      * split; [|done]. intros err. split.
        -- intros [= <-]. split; [done|]. split; [done|].
           exists targetId, offset. split; [done|]. right. exists nodeId.
           split; [done|]. by rewrite Hblock.
        -- intros (_ & _ & i & o & [= <- <-] & [[? _]|(n & ? & Hb)]);
             [congruence|].
           assert (n = nodeId) as -> by congruence.
           rewrite Hblock in Hb. congruence.
    + split; [|done]. intros err. split.
      * intros [= <-]. split; [done|]. split; [done|].
        exists targetId, offset. split; [done|]. right. exists nodeId.
        split; [done|]. by rewrite Hblock.
      * intros (_ & _ & i & o & [= <- <-] & [[? _]|(n & ? & Hb)]);
          [congruence|].
        assert (n = nodeId) as -> by congruence.
        rewrite Hblock in Hb. congruence.
  - split; [|by intros effect [= <-]].
    intros err. split; [done|].
    intros (_ & _ & i & o & [= <- <-] & [[? _]|(n & ? & _)]); congruence.
  - split.
    + intros err. split; [done|].
      intros (_ & _ & i & o & [= <- <-] & [[? _]|(n & ? & _)]); congruence.
    + intros effect [= <-] _. split; [done|]. split; [done|]. by left.
  - split; [|done]. intros err. split.
    + intros [= <-]. split; [done|]. split; [done|].
      exists targetId, offset. split; [done|]. by left.
    + intros (_ & _ & i & o & [= <- <-] & [[_ ->]|(n & ? & _)]);
        [done|congruence].
Qed.

End CursorFacts.

(** ** The view layer: pasting *)

Module ViewPasteFacts.
Import Registry View ViewPaste ViewFacts.

Lemma textInsert_chars (m : TextModel) (k : nat) (text : string)
    (a : Delta.AttributesObject) :
  Delta.isDocument (delta m) = true → (k ≤ textLength m)%nat →
  Delta.chars (delta (textInsert m k text a))
  = take k (Delta.chars (delta m)) ++ Delta.explode text a
      ++ drop k (Delta.chars (delta m))
  ∧ Delta.isDocument (delta (textInsert m k text a)) = true
  ∧ textType (textInsert m k text a) = textType m
  ∧ textLength (textInsert m k text a)
    = (textLength m + String.length text)%nat.
Proof.
  intros Hd Hk. cbn [textInsert delta textType].
  assert (Delta.chars
            (Delta.compose (delta m)
               (Delta.insert (Delta.retain Delta.empty k ∅) text a))
          = take k (Delta.chars (delta m)) ++ Delta.explode text a
              ++ drop k (Delta.chars (delta m))
          ∧ Delta.isDocument
              (Delta.compose (delta m)
                 (Delta.insert (Delta.retain Delta.empty k ∅) text a))
            = true) as [Hchars Hdoc].
  { destruct (decide (text = EmptyString)) as [->|Hne].
    - unfold Delta.insert. rewrite bool_decide_eq_true_2 by done.
      pose proof (DeltaFacts.retain_delete_ops k 0) as Hops.
      unfold Delta.delete in Hops at 1. cbn [Nat.eqb] in Hops.
      rewrite app_nil_r in Hops.
      destruct (DeltaFacts.compose_document (delta m)
                  (Delta.retain Delta.empty k ∅) Hd) as [Hc Hdoc].
      { rewrite Hops. destruct (Nat.eqb k 0); [done|].
        cbn [Delta.fits]. rewrite andb_true_r. by apply Nat.leb_le. }
      split; [|done]. rewrite Hc, Hops. cbn [Delta.explode app].
      destruct (Nat.eqb_spec k 0) as [->|_]; cbn [Delta.applyChars].
      + by rewrite take_0, drop_0.
      + by rewrite DeltaFacts.fmap_formatChar_empty.
    - rewrite insert_as_concat by done.
      assert (Delta.isDocument (Delta.mk [Delta.Insert text a]) = true)
        as Hone.
      { unfold Delta.isDocument. cbn [Delta.ops forallb Delta.isInsert].
        rewrite andb_true_r. by apply DeltaFacts.nonempty_true. }
      destruct (DeltaFacts.compose_concat_at (delta m)
                  (Delta.mk [Delta.Insert text a]) k Hd Hone Hk)
        as [Hc Hdoc].
      split; [|done]. rewrite Hc. unfold Delta.chars at 2.
      cbn [Delta.ops Delta.charsOps]. by rewrite app_nil_r. }
  split; [done|]. split; [done|]. split; [done|].
  unfold textLength, textInsert. cbn [delta].
  rewrite <- (DeltaFacts.length_chars _ Hdoc), Hchars.
  rewrite !length_app, DeltaFacts.length_explode, length_take, length_drop.
  rewrite (DeltaFacts.length_chars _ Hd). unfold textLength in Hk. lia.
Qed.

Lemma setData_middle (s : DocumentState) (pre post : list BlockData)
    (node : BlockData) (m : TextModel) :
  blocks s = pre ++ node :: post →
  NoDup (id <$> blocks s) →
  blocks (setData s (id node) m)
  = pre ++ mkBlockData (id node) (flags node) (Some m) :: post.
Proof.
  intros Hb Hnd. rewrite Hb in Hnd.
  destruct (first_occurrence _ _ _ Hnd) as [Hpre Hpost].
  unfold setData. cbn [blocks]. rewrite Hb, fmap_app, fmap_cons.
  rewrite !setData_notin by done.
  by rewrite (proj2 (block_hasId_true _ _) eq_refl).
Qed.

(** What [insertTextAt] does at a collapsed cursor in a text block. *)
Lemma insertTextAt_at (e : Editor) (pre post : list BlockData)
    (node : BlockData) (tm : TextModel) (k : nat) (text : string)
    (attributes : option Delta.AttributesObject) :
  blocks (state e) = pre ++ node :: post →
  NoDup (id <$> blocks (state e)) →
  data node = Some tm →
  insertTextAt e (Some (Collapsed (id node) k)) text attributes
  = (withState e
       (setData (state e) (id node)
          (textInsert tm k text (default ∅ attributes))),
     Some (Collapsed (id node) (k + String.length text)))
  ∧ blocks (setData (state e) (id node)
              (textInsert tm k text (default ∅ attributes)))
    = pre ++ mkBlockData (id node) (flags node)
               (Some (textInsert tm k text (default ∅ attributes))) :: post.
Proof.
  intros Hb Hnd Hdata. split; [|by apply setData_middle].
  unfold insertTextAt, getTextModelByBlockId, idMap_get. rewrite Hb.
  rewrite Hb in Hnd. destruct (first_occurrence _ _ _ Hnd) as [Hpre _].
  by rewrite block_find_middle, Hdata.
Qed.

(** X24. [insertTextAt] at a collapsed cursor in a text block puts the
    text, with the attributes given, into the block's text at the
    offset, returns the cursor behind it, and leaves the other blocks
    and the cursor of the state as they are.  Without a cursor, at an
    open cursor, at an unknown id or at a block without text model it
    inserts nothing and returns no cursor. *)
Theorem insertTextAt_inserts (e : Editor) (pre post : list BlockData)
    (node : BlockData) (tm : TextModel) (k : nat) (text : string)
    (attributes : option Delta.AttributesObject) :
  blocks (state e) = pre ++ node :: post →
  NoDup (id <$> blocks (state e)) →
  data node = Some tm →
  Delta.isDocument (delta tm) = true →
  (k ≤ textLength tm)%nat →
  (∃ e' tm',
     insertTextAt e (Some (Collapsed (id node) k)) text attributes
     = (e', Some (Collapsed (id node) (k + String.length text)))
     ∧ blocks (state e')
       = pre ++ mkBlockData (id node) (flags node) (Some tm') :: post
     ∧ Delta.chars (delta tm')
       = take k (Delta.chars (delta tm))
           ++ Delta.explode text (default ∅ attributes)
           ++ drop k (Delta.chars (delta tm))
     ∧ textType tm' = textType tm
     ∧ textLength tm' = (textLength tm + String.length text)%nat
     ∧ cursorState (state e') = cursorState (state e))
  ∧ insertTextAt e None text attributes = (e, None)
  ∧ (∀ i o j p, insertTextAt e (Some (Open i o j p)) text attributes
                = (e, None))
  ∧ (∀ i o, (idMap_get (state e) i ≫= data) = None →
            insertTextAt e (Some (Collapsed i o)) text attributes = (e, None)).
Proof.
  intros Hb Hnd Hdata Hd Hk.
  destruct (insertTextAt_at e pre post node tm k text attributes Hb Hnd Hdata)
    as [Hrun Hblocks].
  destruct (textInsert_chars tm k text (default ∅ attributes) Hd Hk)
    as (Hchars & _ & Hty & Hlen).
  split; [|split; [done|split; [done|]]].
  - exists (withState e
              (setData (state e) (id node)
                 (textInsert tm k text (default ∅ attributes)))),
           (textInsert tm k text (default ∅ attributes)).
    split; [exact Hrun|]. split; [exact Hblocks|]. by repeat split.
  - intros i o Hno. unfold insertTextAt, getTextModelByBlockId.
    by destruct (idMap_get (state e) i) as [x|]; cbn in Hno; rewrite ?Hno.
Qed.

Section Paste.
Variable browserSelection : DocumentState → option (option CursorState).
Variable flagsOfBlockName : string → nat.
Variable classnames : Pasting.Classnames.
Variable onPaste : string → option PasteHandler.

Local Abbreviation pasteChildren :=
  (ViewPaste.pasteChildren browserSelection flagsOfBlockName classnames onPaste).
Local Abbreviation pasteHTMLBodyOnCursor :=
  (ViewPaste.pasteHTMLBodyOnCursor browserSelection flagsOfBlockName
     classnames onPaste).
Local Abbreviation insertBlockByDefaultAt :=
  (ViewPaste.insertBlockByDefaultAt browserSelection flagsOfBlockName).
(** The spans of a body, inserted one behind the other from a collapsed
    cursor in a text block. *)
Lemma pasteChildren_spans (children : list BodyChild) :
  (∀ div, DivChild div ∉ children) →
  ∀ (e : Editor) (pre post : list BlockData) (i : string) (f : nat)
    (tm : TextModel) (k : nat),
  blocks (state e) = pre ++ mkBlockData i f (Some tm) :: post →
  NoDup (id <$> blocks (state e)) →
  Delta.isDocument (delta tm) = true →
  (k ≤ textLength tm)%nat →
  ∃ s' tm',
    pasteChildren e (Some (Collapsed i k)) children
    = (withState e s',
       Ok (Some (Collapsed i (k + length (spanChars classnames children)))))
    ∧ blocks s' = pre ++ mkBlockData i f (Some tm') :: post
    ∧ cursorState s' = cursorState (state e)
    ∧ parentId s' = parentId (state e)
    ∧ Delta.chars (delta tm')
      = take k (Delta.chars (delta tm)) ++ spanChars classnames children
          ++ drop k (Delta.chars (delta tm))
    ∧ textType tm' = textType tm.
Proof.
  induction children as [|child rest IH]; intros Hnodiv e pre post i f tm k
    Hb Hnd Hd Hk.
  - exists (state e), tm. cbn [ViewPaste.pasteChildren spanChars mbind
      list_bind length app]. rewrite Nat.add_0_r, take_drop.
    by destruct e.
  - assert (∀ div, DivChild div ∉ rest) as Hrest
      by (intros div Hin; apply (Hnodiv div); by right).
    destruct child as [span text|div|].
    + cbn [ViewPaste.pasteChildren].
      set (a := getAttributesBySpan classnames span).
      assert (default ∅ (if bool_decide (a = ∅) then None else Some a) = a)
        as Ha by (by case_bool_decide).
      destruct (insertTextAt_at e pre post (mkBlockData i f (Some tm)) tm k
                  text (if bool_decide (a = ∅) then None else Some a)
                  Hb Hnd eq_refl) as [Hrun Hblocks].
      cbn [id flags] in Hrun, Hblocks. rewrite Ha in Hrun, Hblocks.
      rewrite Hrun.
      destruct (textInsert_chars tm k text a Hd Hk)
        as (Hchars & Hdoc & Hty & Hlen).
      destruct (IH Hrest
                  (withState e (setData (state e) i (textInsert tm k text a)))
                  pre post i f (textInsert tm k text a)
                  (k + String.length text)%nat)
        as (s' & tm' & Hgo & Hb' & Hcur' & Hpar' & Hchars' & Hty').
      { exact Hblocks. }
      { cbn [state withState]. rewrite Hblocks.
        rewrite Hb in Hnd. by rewrite fmap_app, fmap_cons in *. }
      { done. }
      { lia. }
      exists s', tm'. split.
      { rewrite Hgo. cbn [spanChars mbind list_bind].
        fold (spanChars classnames rest).
        rewrite length_app, DeltaFacts.length_explode.
        rewrite Nat.add_assoc. by destruct e. }
      split; [done|]. split; [done|]. split; [done|]. split; [|congruence].
      rewrite Hchars', Hchars. cbn [spanChars mbind list_bind].
      fold (spanChars classnames rest). fold a.
      pose proof (DeltaFacts.length_chars _ Hd) as Hl.
      unfold textLength in Hk.
      rewrite take_app_ge by (rewrite length_take; lia).
      rewrite length_take, Nat.min_l by lia.
      replace (k + String.length text - k)%nat with (String.length text)
        by lia.
      rewrite take_app_length' by (by rewrite DeltaFacts.length_explode).
      rewrite drop_app_ge by (rewrite length_take; lia).
      rewrite length_take, Nat.min_l by lia.
      replace (k + String.length text - k)%nat with (String.length text)
        by lia.
      rewrite drop_app_length' by (by rewrite DeltaFacts.length_explode).
      by rewrite <- !app_assoc.
    + destruct (Hnodiv div). by left.
    + cbn [ViewPaste.pasteChildren spanChars mbind list_bind app].
      by apply IH.
Qed.

(** X25. Pasting a body that holds spans and no [div], with the cursor
    collapsed at [k] in a text block: the texts of the spans, each with
    the attributes read off its span, are in the block's text at [k] in
    their order, no other block changes, and the cursor collapses behind
    the last of them. *)
Theorem pasteHTMLBodyOnCursor_spans (e : Editor) (children : list BodyChild)
    (pre post : list BlockData) (node : BlockData) (tm : TextModel) (k : nat) :
  (∀ div, DivChild div ∉ children) →
  cursorState (state e) = Some (Collapsed (id node) k) →
  blocks (state e) = pre ++ node :: post →
  NoDup (id <$> blocks (state e)) →
  data node = Some tm →
  Delta.isDocument (delta tm) = true →
  (k ≤ textLength tm)%nat →
  ∃ e' tm',
    pasteHTMLBodyOnCursor e children = (e', Ok ())
    ∧ blocks (state e')
      = pre ++ mkBlockData (id node) (flags node) (Some tm') :: post
    ∧ Delta.chars (delta tm')
      = take k (Delta.chars (delta tm)) ++ spanChars classnames children
          ++ drop k (Delta.chars (delta tm))
    ∧ textType tm' = textType tm
    ∧ cursorState (state e')
      = Some (Collapsed (id node)
                (k + length (spanChars classnames children)))
    ∧ idGenerator e' = idGenerator e.
Proof.
  intros Hnodiv Hcur Hb Hnd Hdata Hd Hk.
  assert (node = mkBlockData (id node) (flags node) (Some tm)) as Hnode
    by (destruct node; cbn in *; by subst).
  rewrite Hnode in Hb.
  destruct (pasteChildren_spans children Hnodiv e pre post (id node)
              (flags node) tm k Hb Hnd Hd Hk)
    as (s' & tm' & Hgo & Hb' & _ & _ & Hchars & Hty).
  unfold ViewPaste.pasteHTMLBodyOnCursor. rewrite Hcur, Hgo.
  eexists _, tm'. split; [done|]. by repeat split.
Qed.

Section Clipboard.
Variable parseFromString : string → list BodyChild.

Local Abbreviation handlePaste :=
  (ViewPaste.handlePaste browserSelection flagsOfBlockName classnames onPaste
     parseFromString).

(** X26. A paste whose clipboard holds plain text and no HTML, with the
    cursor collapsed at [k] in a text block: the text is in the block's
    text at [k] without attributes, and the cursor of the state stays
    where it was, before the pasted text.  HTML, when there is some,
    is what gets pasted, whatever the plain text is. *)
Theorem handlePaste_plain_text (e : Editor) (clipboardData : ClipboardData)
    (pre post : list BlockData) (node : BlockData) (tm : TextModel) (k : nat) :
  types clipboardData = true →
  cursorState (state e) = Some (Collapsed (id node) k) →
  blocks (state e) = pre ++ node :: post →
  NoDup (id <$> blocks (state e)) →
  data node = Some tm →
  Delta.isDocument (delta tm) = true →
  (k ≤ textLength tm)%nat →
  (html clipboardData = EmptyString →
   ∃ tm',
     blocks (state (handlePaste e (Some clipboardData)))
     = pre ++ mkBlockData (id node) (flags node) (Some tm') :: post
     ∧ Delta.chars (delta tm')
       = take k (Delta.chars (delta tm))
           ++ Delta.explode (plainText clipboardData) ∅
           ++ drop k (Delta.chars (delta tm))
     ∧ cursorState (state (handlePaste e (Some clipboardData)))
       = Some (Collapsed (id node) k))
  ∧ (html clipboardData ≠ EmptyString →
     handlePaste e (Some clipboardData)
     = (pasteHTMLBodyOnCursor e (parseFromString (html clipboardData))).1).
Proof.
  intros Hty Hcur Hb Hnd Hdata Hd Hk.
  unfold ViewPaste.handlePaste. rewrite Hty. cbn [negb].
  split.
  - intros ->. rewrite bool_decide_eq_true_2 by done. cbn [negb].
    destruct (textInsert_chars tm k (plainText clipboardData) ∅ Hd Hk)
      as (Hchars & _ & _ & _).
    destruct (insertTextAt_at e pre post node tm k (plainText clipboardData)
                None Hb Hnd Hdata) as [Hrun Hblocks].
    case_bool_decide as Hplain; cbn [negb].
    + exists tm. rewrite Hb, Hcur. split; [|split; [|done]].
      * f_equal. f_equal. destruct node; cbn in *; by subst.
      * rewrite Hplain. cbn [Delta.explode app]. by rewrite take_drop.
    + unfold pastePlainTextOnCursor. rewrite Hcur, Hrun. cbn [fst].
      eexists. split; [exact Hblocks|]. by split.
  - intros Hhtml. by rewrite bool_decide_eq_false_2.
Qed.

End Clipboard.


Lemma pasteChildren_without_cursor (children : list BodyChild) (e : Editor) :
  (∀ div, DivChild div ∈ children →
          onPaste (default EmptyString (getAttribute div "data-type")) = None) →
  pasteChildren e None children = (e, Ok None).
Proof.
  induction children as [|child rest IH]; intros Hdivs; [done|].
  assert (pasteChildren e None rest = (e, Ok None)) as Hrest
    by (apply IH; intros div Hin; apply Hdivs; by right).
  destruct child as [span text|div|]; cbn [ViewPaste.pasteChildren].
  - done.
  - rewrite (Hdivs div) by (by left). done.
  - done.
Qed.

(** X28. A paste of HTML while a range is selected (the cursor is open)
    inserts nothing: no span text, no block for a [div] without paste
    handler.  Unless the body holds neither span nor [div], the editor
    is left without cursor. *)
Theorem pasteHTMLBodyOnCursor_open_cursor (e : Editor)
    (children : list BodyChild) (i j : string) (o p : nat) :
  cursorState (state e) = Some (Open i o j p) →
  (∀ div, DivChild div ∈ children →
          onPaste (default EmptyString (getAttribute div "data-type")) = None) →
  ∃ e',
    pasteHTMLBodyOnCursor e children = (e', Ok ())
    ∧ blocks (state e') = blocks (state e)
    ∧ idGenerator e' = idGenerator e
    ∧ (Forall (λ child, child = OtherChild) children →
       cursorState (state e') = Some (Open i o j p))
    ∧ (¬ Forall (λ child, child = OtherChild) children →
       cursorState (state e') = None).
Proof.
  intros Hcur Hdivs. unfold ViewPaste.pasteHTMLBodyOnCursor. rewrite Hcur.
  induction children as [|child rest IH].
  - eexists. split; [done|]. split; [done|]. split; [done|].
    split; [by rewrite <- Hcur | by intros []].
  - assert (∀ div, DivChild div ∈ rest →
              onPaste (default EmptyString (getAttribute div "data-type"))
              = None) as Hrest by (intros div Hin; apply Hdivs; by right).
    destruct child as [span text|div|]; cbn [ViewPaste.pasteChildren].
    + cbn [insertTextAt]. rewrite pasteChildren_without_cursor by done.
      eexists. split; [done|]. split; [done|]. split; [done|].
      split; [by intros [[=] _]%Forall_cons | done].
    + rewrite (Hdivs div) by (by left).
      cbn [ViewPaste.insertBlockByDefaultAt].
      rewrite pasteChildren_without_cursor by done.
      eexists. split; [done|]. split; [done|]. split; [done|].
      split; [by intros [[=] _]%Forall_cons | done].
    + destruct (IH Hrest) as (e' & Hgo & Hb & Hg & Hall & Hsome).
      exists e'. split; [done|]. split; [done|]. split; [done|].
      rewrite Forall_cons. split; [by intros [_ ?]; apply Hall|].
      intros Hn. apply Hsome. tauto.
Qed.

End Paste.

End ViewPasteFacts.

(** ** The view layer: which keys change the editor *)

Module KeyFacts.
Import Registry View ViewFacts.

Section Keys.
Variable browserSelection : DocumentState → option (option CursorState).
Variable flagsOfBlockName : string → nat.

Local Abbreviation commitNewLine :=
  (View.commitNewLine browserSelection flagsOfBlockName).
Local Abbreviation deleteBlockOnFocusedCursor :=
  (View.deleteBlockOnFocusedCursor browserSelection flagsOfBlockName).
Local Abbreviation handleKeyDown :=
  (View.handleKeyDown browserSelection flagsOfBlockName).

(** The cursor and block a key acts on: a collapsed cursor on a live
    block. *)
Lemma commitNewLine_acts (e : Editor) :
  commitNewLine e ≠ e →
  ∃ targetId offset node,
    cursorState (state e) = Some (Collapsed targetId offset)
    ∧ idMap_get (state e) targetId = Some node
    ∧ is_Some (data node).
Proof.
  unfold View.commitNewLine.
  destruct (cursorState (state e)) as [[targetId offset|? ? ? ?]|]; try done.
  destruct (idMap_get (state e) targetId) as [node|] eqn:Hnode; try done.
  destruct (data node) as [tm|] eqn:Hdata; try done.
  intros _. exists targetId, offset, node. by rewrite Hdata.
Qed.

Lemma deleteBlockOnFocusedCursor_acts (e e' : Editor) (deleted : bool) :
  deleteBlockOnFocusedCursor e = Ok (deleted, e') →
  (deleted = false → e' = e)
  ∧ (deleted = true →
     ∃ targetId offset node blockDef,
       cursorState (state e) = Some (Collapsed targetId offset)
       ∧ isBlockId (idGenerator e) targetId = true
       ∧ idMap_get (state e) targetId = Some node
       ∧ getBlockDefById (registry e) (flags node) = Some blockDef
       ∧ editable blockDef = Some false).
Proof.
  unfold View.deleteBlockOnFocusedCursor.
  destruct (cursorState (state e)) as [[targetId offset|? ? ? ?]|] eqn:Hcur;
    try (by intros [= <- <-]).
  destruct (isBlockId (idGenerator e) targetId) eqn:Hblk; cbn [negb];
    [|by intros [= <- <-]].
  destruct (idMap_get (state e) targetId) as [node|] eqn:Hnode;
    [|by intros [= <- <-]].
  destruct (getBlockDefById (registry e) (flags node)) as [blockDef|] eqn:Hdef;
    cbn [nonNull mbind Result_bind]; [|done].
  case_bool_decide as Hed; cbn [negb]; [|by intros [= <- <-]].
  destruct (prev (state e) node); intros [= <- <-]; (split; [done|]);
    intros _; exists targetId, offset, node, blockDef; done.
Qed.

(** X29. What a key can do.  [handleKeyDown] never changes the key of
    the event, prevents the default action of no key but Tab, Enter,
    Backspace and Delete, and leaves the editor as it is unless the
    event was not prevented before, no composition is going on, the
    cursor is collapsed on a live block, and either the key is Enter and
    the block holds a text model, or the key is Backspace or Delete and
    the block's definition says [editable: false]. *)
Theorem handleKeyDown_acts (e e' : Editor) (ev ev' : KeyboardEvent) :
  handleKeyDown e ev = Ok (ev', e') →
  key ev' = key ev
  ∧ (ev' ≠ ev →
     ev' = preventDefault ev
     ∧ key ev ∈ ["Tab"; "Enter"; "Backspace"; "Delete"])
  ∧ (e' ≠ e →
     defaultPrevented ev = false ∧ composing e = false
     ∧ ∃ targetId offset node,
         cursorState (state e) = Some (Collapsed targetId offset)
         ∧ idMap_get (state e) targetId = Some node
         ∧ ((key ev = "Enter" ∧ is_Some (data node))
            ∨ ((key ev = "Backspace" ∨ key ev = "Delete")
               ∧ isBlockId (idGenerator e) targetId = true
               ∧ ∃ blockDef,
                   getBlockDefById (registry e) (flags node) = Some blockDef
                   ∧ editable blockDef = Some false))).
Proof.
  unfold View.handleKeyDown.
  destruct (defaultPrevented ev) eqn:Hprev; [by intros [= <- <-]|].
  case_bool_decide as Htab.
  { intros [= <- <-]. split; [done|]. split; [|done].
    intros _. split; [done|]. rewrite Htab. set_solver. }
  case_bool_decide as Harrow; [by intros [= <- <-]|].
  destruct (composing e) eqn:Hcomp; [by intros [= <- <-]|].
  case_bool_decide as Henter.
  { intros [= <- <-]. split; [done|]. split.
    - intros _. split; [done|]. rewrite Henter. set_solver.
    - intros (targetId & offset & node & Hc & Hn & Hd)%commitNewLine_acts.
      split; [done|]. split; [done|]. exists targetId, offset, node. eauto. }
  assert (∀ r, r = deleteBlockOnFocusedCursor e →
            ('(deleted, e0) ← r;
             Ok (if deleted : bool then preventDefault ev else ev, e0))
            = Ok (ev', e') →
            key ev = "Backspace" ∨ key ev = "Delete" →
            key ev' = key ev
            ∧ (ev' ≠ ev →
               ev' = preventDefault ev
               ∧ key ev ∈ ["Tab"; "Enter"; "Backspace"; "Delete"])
            ∧ (e' ≠ e →
               false = false ∧ false = false
               ∧ ∃ targetId offset node,
                   cursorState (state e) = Some (Collapsed targetId offset)
                   ∧ idMap_get (state e) targetId = Some node
                   ∧ ((key ev = "Enter" ∧ is_Some (data node))
                      ∨ ((key ev = "Backspace" ∨ key ev = "Delete")
                         ∧ isBlockId (idGenerator e) targetId = true
                         ∧ ∃ blockDef,
                             getBlockDefById (registry e) (flags node)
                             = Some blockDef
                             ∧ editable blockDef = Some false)))) as Hdel.
  { intros [[deleted e0]|err] Hr; cbn [mbind Result_bind]; [|done].
    intros [= <- <-] Hkey. symmetry in Hr.
    apply deleteBlockOnFocusedCursor_acts in Hr as [Hkeep Hgone].
    destruct deleted.
    - split; [done|]. split.
      + intros _. split; [done|]. destruct Hkey as [-> | ->]; set_solver.
      + intros _. destruct (Hgone eq_refl)
          as (targetId & offset & node & blockDef & ? & ? & ? & ? & ?).
        split; [done|]. split; [done|].
        exists targetId, offset, node. split; [done|]. split; [done|].
        right. eauto.
    - split; [done|]. split; [done|]. intros Hne. by destruct Hne, Hkeep. }
  case_bool_decide as Hback.
  { unfold View.handleBackspace. intros Hrun.
    apply (Hdel _ eq_refl Hrun). by left. }
  case_bool_decide as Hdelete.
  { unfold View.handleDelete. intros Hrun.
    apply (Hdel _ eq_refl Hrun). by right. }
  by intros [= <- <-].
Qed.

(** X30. [deleteBlockOnFocusedCursor] throws exactly when the cursor is
    collapsed on a live block with a block id whose [flags] name no
    block definition; what is thrown is a [TypeError] (the definition is
    dereferenced unchecked).  In every other case it returns. *)
Theorem deleteBlockOnFocusedCursor_throws (e : Editor) (err : string) :
  deleteBlockOnFocusedCursor e = Throw err
  ↔ err = "TypeError"
    ∧ ∃ targetId offset node,
        cursorState (state e) = Some (Collapsed targetId offset)
        ∧ isBlockId (idGenerator e) targetId = true
        ∧ idMap_get (state e) targetId = Some node
        ∧ getBlockDefById (registry e) (flags node) = None.
Proof.
  unfold View.deleteBlockOnFocusedCursor.
  destruct (cursorState (state e)) as [[targetId offset|? ? ? ?]|] eqn:Hcur;
    try (split; [done | by intros (_ & ? & ? & ? & [=] & _)]).
  destruct (isBlockId (idGenerator e) targetId) eqn:Hblk; cbn [negb].
  2:{ split; [done|]. intros (_ & i & o & n & [= <- <-] & ? & _). congruence. }
  destruct (idMap_get (state e) targetId) as [node|] eqn:Hnode.
  2:{ split; [done|].
      intros (_ & i & o & n & [= <- <-] & _ & ? & _). congruence. }
  destruct (getBlockDefById (registry e) (flags node)) as [blockDef|] eqn:Hdef;
    cbn [nonNull mbind Result_bind].
  - split.
    + case_bool_decide; cbn [negb]; [|done]. by destruct (prev (state e) node).
    + intros (_ & i & o & n & [= <- <-] & _ & Hn & Hd).
      assert (n = node) as -> by congruence. congruence.
  - split.
    + intros [= <-]. split; [done|]. exists targetId, offset, node. eauto.
    + by intros [-> _].
Qed.

End Keys.

End KeyFacts.

(** ** The view's pastes and keys on concrete documents *)

Module ViewScenarioFacts.
Import Registry View ViewPaste ViewExamples ViewScenarios.

Ltac distinct_ids := apply (bool_decide_unpack _); vm_compute; exact I.

Lemma insertTextAt_inserts_witness :
  ∃ e' tm',
    insertTextAt helloWorld (Some (Collapsed "b1" 5)) ", big" None
    = (e', Some (Collapsed "b1" 10))
    ∧ blocks (state e') = [mkBlockData "b1" 0 (Some tm')]
    ∧ Delta.chars (delta tm')
      = take 5 (Delta.chars (delta (plain Normal "hello world")))
          ++ Delta.explode ", big" ∅
          ++ drop 5 (Delta.chars (delta (plain Normal "hello world")))
    ∧ textType tm' = Normal
    ∧ textLength tm' = 16%nat
    ∧ cursorState (state e') = Some (Collapsed "b1" 5).
Proof.
  apply (proj1
           (ViewPasteFacts.insertTextAt_inserts helloWorld [] []
              (mkBlockData "b1" 0 (Some (plain Normal "hello world")))
              (plain Normal "hello world") 5 ", big" None
              eq_refl ltac:(distinct_ids) eq_refl eq_refl
              ltac:(vm_compute; lia))).
Defined.

Lemma pasteHTMLBodyOnCursor_spans_witness :
  ∃ e' tm',
    pasteHTMLBodyOnCursor noSelection textFlags boldClass noHandlers
      helloWorld twoSpans
    = (e', Ok ())
    ∧ blocks (state e') = [mkBlockData "b1" 0 (Some tm')]
    ∧ Delta.chars (delta tm')
      = take 5 (Delta.chars (delta (plain Normal "hello world")))
          ++ spanChars boldClass twoSpans
          ++ drop 5 (Delta.chars (delta (plain Normal "hello world")))
    ∧ textType tm' = Normal
    ∧ cursorState (state e') = Some (Collapsed "b1" 10)
    ∧ idGenerator e' = idGenerator helloWorld.
Proof.
  apply (ViewPasteFacts.pasteHTMLBodyOnCursor_spans noSelection textFlags
           boldClass noHandlers helloWorld twoSpans [] []
           (mkBlockData "b1" 0 (Some (plain Normal "hello world")))
           (plain Normal "hello world") 5);
    try reflexivity; [|distinct_ids | vm_compute; lia].
  intros div Hin. repeat (apply elem_of_cons in Hin as [Hin|Hin]; [done|]).
  by apply elem_of_nil in Hin.
Defined.

Lemma handlePaste_plain_text_witness :
  ∃ tm',
    blocks (state (handlePaste noSelection textFlags boldClass noHandlers
                     noParser helloWorld (Some (mkClipboard true EmptyString "XY"))))
    = [mkBlockData "b1" 0 (Some tm')]
    ∧ Delta.chars (delta tm')
      = take 5 (Delta.chars (delta (plain Normal "hello world")))
          ++ Delta.explode "XY" ∅
          ++ drop 5 (Delta.chars (delta (plain Normal "hello world")))
    ∧ cursorState
        (state (handlePaste noSelection textFlags boldClass noHandlers
                  noParser helloWorld (Some (mkClipboard true EmptyString "XY"))))
      = Some (Collapsed "b1" 5).
Proof.
  apply (proj1
           (ViewPasteFacts.handlePaste_plain_text noSelection textFlags
              boldClass noHandlers noParser helloWorld
              (mkClipboard true EmptyString "XY") [] []
              (mkBlockData "b1" 0 (Some (plain Normal "hello world")))
              (plain Normal "hello world") 5
              eq_refl eq_refl eq_refl ltac:(distinct_ids) eq_refl eq_refl
              ltac:(vm_compute; lia))).
  reflexivity.
Defined.


Lemma pasteHTMLBodyOnCursor_open_cursor_witness :
  ∃ e',
    pasteHTMLBodyOnCursor noSelection textFlags boldClass noHandlers
      twoLinesSelected twoSpans
    = (e', Ok ())
    ∧ blocks (state e') = blocks (state twoLinesSelected)
    ∧ idGenerator e' = idGenerator twoLinesSelected
    ∧ (Forall (λ child, child = OtherChild) twoSpans →
       cursorState (state e') = Some (Open "Blk-1" 1 "Blk-2" 1))
    ∧ (¬ Forall (λ child, child = OtherChild) twoSpans →
       cursorState (state e') = None).
Proof.
  apply (ViewPasteFacts.pasteHTMLBodyOnCursor_open_cursor noSelection
           textFlags boldClass noHandlers twoLinesSelected twoSpans
           "Blk-1" "Blk-2" 1 1); reflexivity.
Defined.

Lemma handleKeyDown_acts_witness :
  key (mkKey "Enter" true) = key enter
  ∧ (mkKey "Enter" true ≠ enter →
     mkKey "Enter" true = preventDefault enter
     ∧ key enter ∈ ["Tab"; "Enter"; "Backspace"; "Delete"])
  ∧ (View.commitNewLine noSelection textFlags helloWorld ≠ helloWorld →
     defaultPrevented enter = false ∧ composing helloWorld = false
     ∧ ∃ targetId offset node,
         cursorState (state helloWorld) = Some (Collapsed targetId offset)
         ∧ idMap_get (state helloWorld) targetId = Some node
         ∧ ((key enter = "Enter" ∧ is_Some (data node))
            ∨ ((key enter = "Backspace" ∨ key enter = "Delete")
               ∧ isBlockId (idGenerator helloWorld) targetId = true
               ∧ ∃ blockDef,
                   getBlockDefById (registry helloWorld) (flags node)
                   = Some blockDef
                   ∧ editable blockDef = Some false))).
Proof.
  apply (KeyFacts.handleKeyDown_acts noSelection textFlags helloWorld
           (View.commitNewLine noSelection textFlags helloWorld)
           enter (mkKey "Enter" true)).
  reflexivity.
Defined.

End ViewScenarioFacts.
